(** * ValutaTrade Hub: wallet ledger, rate resolution and rate aggregation

    A shallow embedding of the core of [valutatrade_hub]:
    - [core/currencies.py]: the currency registry and [get_currency];
    - [core/models.py]: [Wallet] and [Portfolio];
    - [core/utils.py]: [validate_currency_code], [validate_positive_float],
      [load_user_portfolio];
    - [core/usecases.py]: [TradingUsecases._get_exchange_rate],
      [buy_currency], [get_portfolio];
    - [parser_service/updater.py] and [parser_service/storage.py]:
      [RatesUpdater.run_update] over [RatesStorage];
    - [infra/database.py]: [DatabaseManager.are_rates_fresh].

    Modelling conventions.
    - A Python [float] is a primitive IEEE-754 binary64 float ([PrimFloat]).
      Python raises [ZeroDivisionError] where IEEE returns an infinity or a
      NaN for a zero divisor; [py_div] writes that out.  Concrete runs
      compute; general facts about signs go through the library's
      specification of the primitive operations ([FloatAxioms]).
    - A Python [str] is the [string] of the bytes of its UTF-8 encoding;
      [len] counts its code points.  [upper], [lower], [strip] and the
      character classes act on the ASCII range, which is where every
      currency code and source name of the program lives; on other text
      Python consults the Unicode tables, so a statement that would differ
      there is made for ASCII text ([ascii_only]).
    - A Python [dict] is an insertion-ordered association list ([PyDict]):
      iteration order is observable in the program (valuation sums floats in
      wallet order, the updater lists pairs in provider order).
    - A raised exception is the left injection of [result]; the program's
      [try]/[except] blocks are matches on it.
    - Files are fields of an explicit store; writes are assumed to succeed
      (no [IOError]).  The clock is an argument. *)

From Stdlib Require Import ZArith QArith List String Ascii Bool Lia Floats.
Import ListNotations.
Open Scope string_scope.
Set Warnings "-inexact-float".

(** ** Exceptions *)

Inductive exn : Type :=
| TypeError (msg : string)
| ValueError (msg : string)
| ZeroDivisionError
| IndexError
| InsufficientFundsError (currency_code : string) (available required : float)
| CurrencyNotFoundError (currency_code : string)
| WalletNotFoundError (currency_code : string)
| ApiRequestError (reason : string).

Definition result (A : Type) : Type := (exn + A)%type.

Definition raise {A : Type} (e : exn) : result A := inl e.
Definition ret {A : Type} (a : A) : result A := inr a.
Definition bind {A B : Type} (c : result A) (k : A -> result B) : result B :=
  match c with
  | inl e => inl e
  | inr a => k a
  end.

Notation "x <- c ;; k" := (bind c (fun x => k))
  (at level 61, c at next level, right associativity).
Notation "c ;;; k" := (bind c (fun _ => k))
  (at level 61, right associativity).

Definition raises {A : Type} (c : result A) : Prop := exists e, c = inl e.

(** ** Python values that reach the ledger

    [isinstance(x, (int, float))] is the only type test of the ledger.
    Amounts reach it as floats, the declared type of the parameter
    ([validate_positive_float] returns [float(value)]); the other
    constructors stand for the non-numbers.  A Python [int] passes the same
    test; it is not among the values modelled here, and nothing below is
    stated of an [int] amount. *)

Inductive pyval : Type :=
| PyFloat (f : float)
| PyStr (s : string)
| PyNone.

Definition is_number (v : pyval) : bool :=
  match v with
  | PyFloat _ => true
  | _ => false
  end.

(** Python's [/] on floats. *)
Definition py_div (x y : float) : result float :=
  if PrimFloat.eqb y 0%float then raise ZeroDivisionError
  else ret (x / y)%float.

(** ** Strings *)

Definition upper_ascii (c : ascii) : ascii :=
  let n := nat_of_ascii c in
  if andb (Nat.leb 97 n) (Nat.leb n 122) then ascii_of_nat (n - 32) else c.

Definition lower_ascii (c : ascii) : ascii :=
  let n := nat_of_ascii c in
  if andb (Nat.leb 65 n) (Nat.leb n 90) then ascii_of_nat (n + 32) else c.

Fixpoint upper (s : string) : string :=
  match s with
  | EmptyString => EmptyString
  | String c s' => String (upper_ascii c) (upper s')
  end.

Fixpoint lower (s : string) : string :=
  match s with
  | EmptyString => EmptyString
  | String c s' => String (lower_ascii c) (lower s')
  end.

(** [len(s)]: the number of code points.  In UTF-8 a code point is one byte
    that is not of the form [10xxxxxx], followed by continuation bytes, which
    are of that form. *)
Definition is_continuation_byte (c : ascii) : bool :=
  let n := nat_of_ascii c in
  andb (Nat.leb 128 n) (Nat.leb n 191).

Fixpoint len (s : string) : nat :=
  match s with
  | EmptyString => 0
  | String c s' => if is_continuation_byte c then len s' else S (len s')
  end.

(** [str.isspace] on the ASCII range: TAB..CR, FS..US and the space. *)
Definition is_space (c : ascii) : bool :=
  let n := nat_of_ascii c in
  orb (andb (Nat.leb 9 n) (Nat.leb n 13)) (andb (Nat.leb 28 n) (Nat.leb n 32)).

Fixpoint lstrip (s : string) : string :=
  match s with
  | EmptyString => EmptyString
  | String c s' => if is_space c then lstrip s' else s
  end.

(** Drops the trailing white space: a character is kept when it is not a
    space or when something is kept after it. *)
Fixpoint rstrip (s : string) : string :=
  match s with
  | EmptyString => EmptyString
  | String c s' =>
      match rstrip s' with
      | EmptyString => if is_space c then EmptyString else String c EmptyString
      | r => String c r
      end
  end.

Definition strip (s : string) : string := rstrip (lstrip s).

Definition is_empty (s : string) : bool :=
  match s with
  | EmptyString => true
  | _ => false
  end.

(** [s.split(sep)] for a one-character separator. *)
Fixpoint split (sep : ascii) (s : string) : list string :=
  match s with
  | EmptyString => [EmptyString]
  | String c s' =>
      if Ascii.eqb c sep then EmptyString :: split sep s'
      else match split sep s' with
           | [] => [String c EmptyString]
           | w :: ws => String c w :: ws
           end
  end.

(** [l[i]], raising [IndexError] out of range. *)
Definition index {A : Type} (l : list A) (i : nat) : result A :=
  match nth_error l i with
  | Some a => ret a
  | None => raise IndexError
  end.

(** ** Python dictionaries: insertion-ordered association lists *)

Module PyDict.

Definition dict (V : Type) : Type := list (string * V).

Definition empty {V : Type} : dict V := [].

Fixpoint get {V : Type} (d : dict V) (k : string) : option V :=
  match d with
  | [] => None
  | (k', v) :: d' => if String.eqb k' k then Some v else get d' k
  end.

(** [k in d] *)
Definition contains {V : Type} (d : dict V) (k : string) : bool :=
  match get d k with
  | Some _ => true
  | None => false
  end.

(** [d[k] = v]: an existing key keeps its position, a new key goes last. *)
Fixpoint set {V : Type} (d : dict V) (k : string) (v : V) : dict V :=
  match d with
  | [] => [(k, v)]
  | (k', v') :: d' =>
      if String.eqb k' k then (k', v) :: d' else (k', v') :: set d' k v
  end.

Definition keys {V : Type} (d : dict V) : list string := map fst d.
Definition values {V : Type} (d : dict V) : list V := map snd d.
Definition items {V : Type} (d : dict V) : list (string * V) := d.

End PyDict.
Import PyDict.

(** ** [core/currencies.py]: the currency registry *)

Inductive currency_kind : Type :=
| Fiat (issuing_country : string)
| Crypto (algorithm : string) (market_cap : float).

Record Currency : Type := mkCurrency {
  name : string;
  code : string;
  kind : currency_kind
}.

Definition FiatCurrency (name code issuing_country : string) : Currency :=
  mkCurrency name (upper code) (Fiat issuing_country).

Definition CryptoCurrency (name code algorithm : string) (market_cap : float)
  : Currency :=
  mkCurrency name (upper code) (Crypto algorithm market_cap).

Definition register_currency (registry : dict Currency) (currency : Currency)
  : dict Currency :=
  set registry (upper (code currency)) currency.

(** The registry as the module leaves it after import. *)
Definition _CURRENCY_REGISTRY : dict Currency :=
  fold_left register_currency
    [ FiatCurrency "US Dollar" "USD" "United States";
      FiatCurrency "Euro" "EUR" "Eurozone";
      FiatCurrency "British Pound" "GBP" "United Kingdom";
      FiatCurrency "Russian Ruble" "RUB" "Russia";
      CryptoCurrency "Bitcoin" "BTC" "SHA-256" 1.12e12;
      CryptoCurrency "Ethereum" "ETH" "Ethash" 2.85e11;
      CryptoCurrency "Solana" "SOL" "Proof of History" 7.85e10 ]
    empty.

Definition get_currency (registry : dict Currency) (code : string)
  : result Currency :=
  let code_upper := upper code in
  match get registry code_upper with
  | None => raise (CurrencyNotFoundError code_upper)
  | Some c => ret c
  end.

(** ** [core/models.py]: [Wallet] *)

Record Wallet : Type := mkWallet {
  currency_code : string;
  _balance : float
}.

Definition with_balance (w : Wallet) (b : float) : Wallet :=
  mkWallet (currency_code w) b.

(** [x + v], [x - v] and [x < v] for a float [x] and a Python value [v]:
    Python raises [TypeError] on a non-number. *)
Definition py_add (x : float) (v : pyval) : result float :=
  match v with
  | PyFloat f => ret (x + f)%float
  | _ => raise (TypeError "unsupported operand type(s) for +=")
  end.

Definition py_sub (x : float) (v : pyval) : result float :=
  match v with
  | PyFloat f => ret (x - f)%float
  | _ => raise (TypeError "unsupported operand type(s) for -=")
  end.

Definition py_lt (x : float) (v : pyval) : result bool :=
  match v with
  | PyFloat f => ret (x <? f)%float
  | _ => raise (TypeError "'<' not supported")
  end.

Definition _validate_currency (registry : dict Currency) (currency_code : string)
  : result unit :=
  if orb (is_empty currency_code) (is_empty (strip currency_code)) then
    raise (ValueError "Код валюты не может быть пустым")
  else
    match get_currency registry currency_code with
    | inl _ => raise (ValueError ("Недопустимая валюта: " ++ currency_code))
    | inr _ => ret tt
    end.

Definition _validate_amount (amount : pyval) : result unit :=
  match amount with
  | PyFloat f =>
      if (f <=? 0)%float then raise (ValueError "Сумма должна быть положительной")
      else ret tt
  | _ => raise (TypeError "Сумма должна быть числом")
  end.

Definition deposit (self : Wallet) (amount : pyval) : result Wallet :=
  _validate_amount amount ;;;
  b <- py_add (_balance self) amount ;;
  ret (with_balance self b).

Definition withdraw (self : Wallet) (amount : pyval) : result Wallet :=
  _validate_amount amount ;;;
  short <- py_lt (_balance self) amount ;;
  if (short : bool) then
    match amount with
    | PyFloat a =>
        raise (InsufficientFundsError (currency_code self) (_balance self) a)
    | _ => raise (TypeError "unsupported format string")
    end
  else
    b <- py_sub (_balance self) amount ;;
    ret (with_balance self b).

(** [Wallet(currency_code, balance)]; the default [balance] is [0.0]. *)
Definition Wallet_init (registry : dict Currency) (currency_code : string)
  (balance : pyval) : result Wallet :=
  _validate_currency registry currency_code ;;;
  deposit (mkWallet (upper currency_code) 0%float) balance.

Definition default_balance : pyval := PyFloat 0%float.

(** The [balance] property setter. *)
Definition set_balance (self : Wallet) (value : pyval) : result Wallet :=
  match value with
  | PyFloat f =>
      if (f <? 0)%float then raise (ValueError "Баланс не может быть отрицательным")
      else ret (with_balance self f)
  | _ => raise (TypeError "Баланс должен быть числом")
  end.

(** ** [core/models.py]: [Portfolio]

    A [Wallet] object returned by a portfolio is the object the portfolio
    holds: a later [deposit] or [withdraw] on it is seen through the
    portfolio.  Here the caller writes the new wallet back under its key
    ([update_wallet]). *)

Record Portfolio : Type := mkPortfolio {
  user_id : Z;
  _wallets : dict Wallet
}.

Definition Portfolio_init (user_id : Z) : Portfolio := mkPortfolio user_id empty.

Definition update_wallet (self : Portfolio) (key : string) (w : Wallet) : Portfolio :=
  mkPortfolio (user_id self) (set (_wallets self) key w).

Definition add_currency (registry : dict Currency) (self : Portfolio)
  (currency_code : string) : result (Portfolio * Wallet) :=
  let currency_code := upper currency_code in
  match get (_wallets self) currency_code with
  | Some w => ret (self, w)
  | None =>
      new_wallet <- Wallet_init registry currency_code default_balance ;;
      ret (update_wallet self currency_code new_wallet, new_wallet)
  end.

Definition get_wallet (self : Portfolio) (currency_code : string) : result Wallet :=
  let currency_code := upper currency_code in
  match get (_wallets self) currency_code with
  | None => raise (WalletNotFoundError currency_code)
  | Some w => ret w
  end.

(** The pair key [f"{a}_{b}"]. *)
Definition pair_key (a b : string) : string := a ++ "_" ++ b.

(** One iteration of the loop of [get_total_value]. *)
Definition total_value_step (exchange_rates : dict float) (base_currency : string)
  (total_value : float) (wallet : Wallet) : result float :=
  if String.eqb (currency_code wallet) base_currency then
    ret (total_value + _balance wallet)%float
  else
    let pair := pair_key (currency_code wallet) base_currency in
    match get exchange_rates pair with
    | Some r => ret (total_value + _balance wallet * r)%float
    | None =>
        let reverse_pair := pair_key base_currency (currency_code wallet) in
        match get exchange_rates reverse_pair with
        | Some r =>
            q <- py_div (_balance wallet) r ;;
            ret (total_value + q)%float
        | None => ret total_value
        end
    end.

Fixpoint total_value_loop (exchange_rates : dict float) (base_currency : string)
  (wallets : list Wallet) (total_value : float) : result float :=
  match wallets with
  | [] => ret total_value
  | wallet :: rest =>
      t <- total_value_step exchange_rates base_currency total_value wallet ;;
      total_value_loop exchange_rates base_currency rest t
  end.

Definition get_total_value (self : Portfolio) (exchange_rates : dict float)
  (base_currency : string) : result float :=
  let base_currency := upper base_currency in
  total_value_loop exchange_rates base_currency (values (_wallets self)) 0%float.

(** ** [infra/database.py]: the portfolio document

    [portfolios.json] is a list of [{user_id, wallets: {code: {balance}}}]. *)

Record wallet_data : Type := mkWalletData {
  balance : option pyval   (* the "balance" key, when present *)
}.

Record portfolio_data : Type := mkPortfolioData {
  pd_user_id : Z;
  pd_wallets : dict wallet_data
}.

Definition portfolios_file : Type := list portfolio_data.

Definition db_get_portfolio (portfolios : portfolios_file) (user_id : Z)
  : option portfolio_data :=
  find (fun portfolio => Z.eqb (pd_user_id portfolio) user_id) portfolios.

Fixpoint db_update_portfolio (portfolios : portfolios_file) (user_id : Z)
  (wallets : dict wallet_data) : portfolios_file :=
  match portfolios with
  | [] => [mkPortfolioData user_id wallets]
  | portfolio :: rest =>
      if Z.eqb (pd_user_id portfolio) user_id
      then mkPortfolioData (pd_user_id portfolio) wallets :: rest
      else portfolio :: db_update_portfolio rest user_id wallets
  end.

(** ** [core/utils.py] *)

Definition validate_currency_code (registry : dict Currency) (currency_code : string)
  : result string :=
  let currency_code := upper (strip currency_code) in
  if is_empty currency_code then
    raise (ValueError "Код валюты не может быть пустым")
  else
    match get_currency registry currency_code with
    | inl _ => raise (CurrencyNotFoundError currency_code)
    | inr _ => ret currency_code
    end.

(** One iteration of the loop of [load_user_portfolio]: the wallet is built
    with the default balance, then the stored balance goes through the
    setter, then the wallet is stored under the key as persisted. *)
Definition load_wallet (registry : dict Currency) (portfolio : Portfolio)
  (item : string * wallet_data) : result Portfolio :=
  let '(currency_code, wallet_data) := item in
  wallet <- Wallet_init registry currency_code default_balance ;;
  wallet <- set_balance wallet
              (match balance wallet_data with
               | Some v => v
               | None => PyFloat 0%float
               end) ;;
  ret (update_wallet portfolio currency_code wallet).

Fixpoint load_wallets (registry : dict Currency) (portfolio : Portfolio)
  (items : list (string * wallet_data)) : result Portfolio :=
  match items with
  | [] => ret portfolio
  | item :: rest =>
      portfolio <- load_wallet registry portfolio item ;;
      load_wallets registry portfolio rest
  end.

Definition load_user_portfolio (registry : dict Currency)
  (portfolios : portfolios_file) (user_id : Z) : result Portfolio :=
  match db_get_portfolio portfolios user_id with
  | None => ret (Portfolio_init user_id)
  | Some portfolio_data =>
      load_wallets registry (Portfolio_init user_id)
        (items (pd_wallets portfolio_data))
  end.

Definition save_user_portfolio (portfolios : portfolios_file) (user_id : Z)
  (portfolio : Portfolio) : portfolios_file :=
  let wallets_data :=
    fold_left
      (fun acc item =>
         set acc (fst item) (mkWalletData (Some (PyFloat (_balance (snd item))))))
      (items (_wallets portfolio)) empty in
  db_update_portfolio portfolios user_id wallets_data.

(** ** [core/usecases.py]: rate resolution *)

Definition rate_not_found (from_currency to_currency : string) : exn :=
  ValueError ("Не удалось найти курс обмена между " ++ from_currency
              ++ " и " ++ to_currency).

Definition _get_exchange_rate (exchange_rates : dict float)
  (from_currency to_currency : string) : result float :=
  let direct_pair := pair_key from_currency to_currency in
  match get exchange_rates direct_pair with
  | Some r => ret r
  | None =>
  let reverse_pair := pair_key to_currency from_currency in
  match get exchange_rates reverse_pair with
  | Some r => py_div 1 r
  | None =>
  let base_currency := "USD" in
  let single :=
    if String.eqb from_currency base_currency then
      let pair := pair_key to_currency base_currency in
      match get exchange_rates pair with
      | Some r => Some (py_div 1 r)
      | None => None
      end
    else if String.eqb to_currency base_currency then
      let pair := pair_key from_currency base_currency in
      match get exchange_rates pair with
      | Some r => Some (ret r)
      | None => None
      end
    else None in
  match single with
  | Some answer => answer
  | None =>
  let from_to_base := pair_key from_currency base_currency in
  let to_to_base := pair_key to_currency base_currency in
  match get exchange_rates from_to_base, get exchange_rates to_to_base with
  | Some from_rate, Some to_rate => py_div from_rate to_rate
  | _, _ => raise (rate_not_found from_currency to_currency)
  end end end end.

(** ** [core/usecases.py]: trading and portfolio report *)

Record wallet_info : Type := mkWalletInfo {
  wi_currency : string;
  wi_balance : float;
  wi_rate : option float;
  wi_value_in_base : option float
}.

Record portfolio_report : Type := mkReport {
  rep_user_id : Z;
  rep_wallets : list wallet_info;
  rep_total_value : float;
  rep_base_currency : string
}.

(** One iteration of the loop of [get_portfolio]: only [ValueError] is
    caught. *)
Definition wallet_info_of (exchange_rates : dict float) (base_currency : string)
  (item : string * Wallet) : result wallet_info :=
  let '(currency_code, wallet) := item in
  match _get_exchange_rate exchange_rates currency_code base_currency with
  | inr rate =>
      ret (mkWalletInfo currency_code (_balance wallet) (Some rate)
             (Some (_balance wallet * rate)%float))
  | inl (ValueError _) =>
      ret (mkWalletInfo currency_code (_balance wallet) None None)
  | inl e => raise e
  end.

Fixpoint wallets_info_loop (exchange_rates : dict float) (base_currency : string)
  (items : list (string * Wallet)) (wallets_info : list wallet_info)
  : result (list wallet_info) :=
  match items with
  | [] => ret wallets_info
  | item :: rest =>
      info <- wallet_info_of exchange_rates base_currency item ;;
      wallets_info_loop exchange_rates base_currency rest
        (wallets_info ++ [info])%list
  end.

(** The report of [get_portfolio] for a portfolio already loaded. *)
Definition portfolio_info (exchange_rates : dict float) (portfolio : Portfolio)
  (base_currency : string) : result portfolio_report :=
  total_value <- get_total_value portfolio exchange_rates base_currency ;;
  wallets_info <- wallets_info_loop exchange_rates base_currency
                    (items (_wallets portfolio)) [] ;;
  ret (mkReport (user_id portfolio) wallets_info total_value base_currency).

Definition get_portfolio (registry : dict Currency) (portfolios : portfolios_file)
  (exchange_rates : dict float) (user_id : Z) (base_currency : string)
  : result portfolio_report :=
  portfolio <- load_user_portfolio registry portfolios user_id ;;
  portfolio_info exchange_rates portfolio base_currency.

Record trade : Type := mkTrade {
  tr_success : bool;
  tr_currency : string;
  tr_amount : float;
  tr_rate : option float;
  tr_usd_value : option float;
  tr_wallet : Wallet
}.

Section Trading.

(** Python's [float(s)] on a string: [None] stands for [ValueError]. *)
Variable float_of_str : string -> option float.
Variable registry : dict Currency.

Definition validate_positive_float (value : pyval) : result float :=
  float_value <-
    match value with
    | PyFloat f => ret f
    | PyStr s =>
        match float_of_str s with
        | Some f => ret f
        | None => raise (ValueError ("'" ++ s ++ "' не является числом"))
        end
    | PyNone => raise (ValueError "'None' не является числом")
    end ;;
  if (float_value <=? 0)%float then
    raise (ValueError "Значение должно быть положительным")
  else ret float_value.

(** The pricing of a trade: [try: ... except ValueError]. *)
Definition price_trade (exchange_rates : dict float) (currency_code : string)
  (amount : float) : result (option float * option float) :=
  match _get_exchange_rate exchange_rates currency_code "USD" with
  | inr rate => ret (Some rate, Some (amount * rate)%float)
  | inl (ValueError _) => ret (None, None)
  | inl e => raise e
  end.

(** [buy_currency]: the first component is [portfolios.json] when the call
    ends, whether it returns or raises. *)
Definition buy_currency (portfolios : portfolios_file) (exchange_rates : dict float)
  (user_id : Z) (currency_code : string) (amount : pyval)
  : portfolios_file * result trade :=
  match
    (currency_code <- validate_currency_code registry currency_code ;;
     amount <- validate_positive_float amount ;;
     portfolio <- load_user_portfolio registry portfolios user_id ;;
     portfolio <- (if contains (_wallets portfolio) currency_code then ret portfolio
                   else pw <- add_currency registry portfolio currency_code ;;
                        ret (fst pw)) ;;
     wallet <- get_wallet portfolio currency_code ;;
     wallet <- deposit wallet (PyFloat amount) ;;
     ret (currency_code, amount,
          update_wallet portfolio (upper currency_code) wallet, wallet))
  with
  | inl e => (portfolios, raise e)
  | inr (currency_code, amount, portfolio, wallet) =>
      let portfolios := save_user_portfolio portfolios user_id portfolio in
      (portfolios,
       priced <- price_trade exchange_rates currency_code amount ;;
       ret (mkTrade true currency_code amount (fst priced) (snd priced) wallet))
  end.

Definition sell_currency (portfolios : portfolios_file) (exchange_rates : dict float)
  (user_id : Z) (currency_code : string) (amount : pyval)
  : portfolios_file * result trade :=
  match
    (currency_code <- validate_currency_code registry currency_code ;;
     amount <- validate_positive_float amount ;;
     portfolio <- load_user_portfolio registry portfolios user_id ;;
     (if contains (_wallets portfolio) currency_code then ret tt
      else raise (WalletNotFoundError currency_code)) ;;;
     wallet <- get_wallet portfolio currency_code ;;
     wallet <- withdraw wallet (PyFloat amount) ;;
     ret (currency_code, amount,
          update_wallet portfolio (upper currency_code) wallet, wallet))
  with
  | inl e => (portfolios, raise e)
  | inr (currency_code, amount, portfolio, wallet) =>
      let portfolios := save_user_portfolio portfolios user_id portfolio in
      (portfolios,
       priced <- price_trade exchange_rates currency_code amount ;;
       ret (mkTrade true currency_code amount (fst priced) (snd priced) wallet))
  end.

End Trading.

(** ** [parser_service/storage.py]: the rate cache and the rate history

    [rates.json] is [{pairs: {pair: {rate, updated_at, source}}, last_refresh}];
    each key may be missing.  A file that is missing or unreadable is [None].
    [last_refresh] is kept as the JSON value it is: the updater writes a
    string, a reader gets whatever the file holds. *)

Record rate_data : Type := mkRateData {
  rate : float;
  updated_at : string;
  source : string
}.

Record rates_document : Type := mkRatesDocument {
  pairs : option (dict rate_data);
  last_refresh : option pyval
}.

Record history_record : Type := mkHistoryRecord {
  hr_id : string;
  hr_from_currency : string;
  hr_to_currency : string;
  hr_rate : float;
  hr_timestamp : string;
  hr_source : string;
  hr_client : string
}.

Record RatesStorage : Type := mkStorage {
  rates_file : option rates_document;
  history_file : option (list history_record)
}.

Definition empty_document : rates_document := mkRatesDocument None None.

Definition load_current_rates (self : RatesStorage) : rates_document :=
  match rates_file self with
  | Some doc => doc
  | None => empty_document
  end.

(** [now] is the reading of [datetime.utcnow().isoformat()]. *)
Definition save_current_rates (self : RatesStorage) (rates_data : rates_document)
  (now : string) : RatesStorage :=
  let rates_data :=
    match last_refresh rates_data with
    | None => mkRatesDocument (pairs rates_data) (Some (PyStr now))
    | Some _ => rates_data
    end in
  mkStorage (Some rates_data) (history_file self).

Definition load_history (self : RatesStorage) : list history_record :=
  match history_file self with
  | Some history => history
  | None => []
  end.

Definition MAX_HISTORY_SIZE : nat := 100 * 100.

Definition append_to_history (self : RatesStorage) (record : history_record)
  : RatesStorage :=
  let history := (load_history self ++ [record])%list in
  let history :=
    if Nat.ltb MAX_HISTORY_SIZE (List.length history)
    then skipn (List.length history - MAX_HISTORY_SIZE) history
    else history in
  mkStorage (rates_file self) (Some history).

(** ** [parser_service/updater.py]: [RatesUpdater]

    A client is its class and what its [fetch_rates] does in this run: the
    two clients of the repository turn every failure into [ApiRequestError];
    the updater itself catches that class only. *)

Inductive client_class : Type :=
| CoinGeckoClient
| ExchangeRateApiClient
| OtherApiClient (class_name : string).

Record BaseApiClient : Type := mkClient {
  class_of : client_class;
  fetch_rates : result (dict rate_data)
}.

Definition class_name_of (c : client_class) : string :=
  match c with
  | CoinGeckoClient => "CoinGeckoClient"
  | ExchangeRateApiClient => "ExchangeRateApiClient"
  | OtherApiClient n => n
  end.

Definition is_coingecko (client : BaseApiClient) : bool :=
  match class_of client with
  | CoinGeckoClient => true
  | _ => false
  end.

Definition is_exchangerate (client : BaseApiClient) : bool :=
  match class_of client with
  | ExchangeRateApiClient => true
  | _ => false
  end.

Record update_results : Type := mkResults {
  success : bool;
  updated_pairs : list string;
  errors : list string;
  timestamp : string
}.

(** The local variables of [run_update] and the storage, as one state. *)
Record run_state : Type := mkRunState {
  rs_pairs : dict rate_data;          (* current_rates["pairs"] *)
  rs_results : update_results;
  rs_storage : RatesStorage
}.

(** [str(e)] for [ApiRequestError(reason)]. *)
Definition api_error_text (reason : string) : string :=
  "Ошибка при обращении к внешнему API: " ++ reason.

Definition error_msg (client_name reason : string) : string :=
  "Failed to fetch rates from " ++ client_name ++ ": " ++ api_error_text reason.

Definition make_history_record (client_name pair : string) (rate_data : rate_data)
  : result history_record :=
  from_currency <- index (split "_" pair) 0 ;;
  to_currency <- index (split "_" pair) 1 ;;
  ret (mkHistoryRecord (pair ++ "_" ++ updated_at rate_data)
         from_currency to_currency (rate rate_data) (updated_at rate_data)
         (source rate_data) client_name).

(** The inner loop: [for pair, rate_data in new_rates.items()].  The result
    is the state when the loop stops and the exception that stopped it. *)
Fixpoint merge_rates (client_name : string) (new_rates : list (string * rate_data))
  (rs : run_state) : run_state * option exn :=
  match new_rates with
  | [] => (rs, None)
  | item :: rest =>
      let pair := fst item in
      let rate_data := snd item in
      let res := rs_results rs in
      let rs :=
        mkRunState (set (rs_pairs rs) pair rate_data)
          (mkResults (success res) (updated_pairs res ++ [pair])%list (errors res)
             (timestamp res))
          (rs_storage rs) in
      match make_history_record client_name pair rate_data with
      | inl e => (rs, Some e)
      | inr record =>
          merge_rates client_name rest
            (mkRunState (rs_pairs rs) (rs_results rs)
               (append_to_history (rs_storage rs) record))
      end
  end.

(** [except ApiRequestError as e]: any other exception leaves the loop. *)
Definition on_exception (client_name : string) (rs : run_state) (e : exn)
  : run_state * option exn :=
  match e with
  | ApiRequestError reason =>
      let res := rs_results rs in
      (mkRunState (rs_pairs rs)
         (mkResults false (updated_pairs res)
            (errors res ++ [error_msg client_name reason])%list (timestamp res))
         (rs_storage rs),
       None)
  | _ => (rs, Some e)
  end.

(** The outer loop: [for client in clients_to_use]. *)
Fixpoint poll_clients (clients : list BaseApiClient) (rs : run_state)
  : run_state * option exn :=
  match clients with
  | [] => (rs, None)
  | client :: rest =>
      let client_name := class_name_of (class_of client) in
      let '(rs, stopped) :=
        match fetch_rates client with
        | inl e => on_exception client_name rs e
        | inr new_rates =>
            match merge_rates client_name (items new_rates) rs with
            | (rs, Some e) => on_exception client_name rs e
            | (rs, None) => (rs, None)
            end
        end in
      match stopped with
      | Some e => (rs, Some e)
      | None => poll_clients rest rs
      end
  end.

Definition clients_to_use (clients : list BaseApiClient) (source : option string)
  : list BaseApiClient :=
  match source with
  | None => clients
  | Some source =>
      if is_empty source then clients
      else
        let source_lower := lower source in
        if String.eqb source_lower "coingecko" then filter is_coingecko clients
        else if String.eqb source_lower "exchangerate"
             then filter is_exchangerate clients
             else clients
  end.

(** [run_update]: [t_start] and [t_end] are the two readings of
    [datetime.utcnow().isoformat()].  The first component is the storage
    when the call ends, whether it returns or raises. *)
Definition run_update (clients : list BaseApiClient) (storage : RatesStorage)
  (source : option string) (t_start t_end : string)
  : RatesStorage * result update_results :=
  let current_rates := load_current_rates storage in
  let current_pairs :=
    match pairs current_rates with
    | Some p => p
    | None => empty
    end in
  let rs := mkRunState current_pairs (mkResults true [] [] t_start) storage in
  match poll_clients (clients_to_use clients source) rs with
  | (rs, Some e) => (rs_storage rs, raise e)
  | (rs, None) =>
      let current_rates := mkRatesDocument (Some (rs_pairs rs)) (Some (PyStr t_end)) in
      (save_current_rates (rs_storage rs) current_rates t_end, ret (rs_results rs))
  end.

(** ** [infra/database.py]: [are_rates_fresh] *)

(** A [datetime]: microseconds on the proleptic calendar, and the UTC offset
    of an aware value. *)
Record datetime : Type := mkDatetime {
  micros : Z;
  utcoffset : option Z
}.

Definition RATES_TTL_SECONDS : Z := 300.

Section Freshness.

(** [datetime.fromisoformat] on a string: [None] stands for [ValueError]. *)
Variable parse_isoformat : string -> option datetime.

Definition fromisoformat (v : pyval) : result datetime :=
  match v with
  | PyStr s =>
      match parse_isoformat s with
      | Some d => ret d
      | None => raise (ValueError ("Invalid isoformat string: " ++ s))
      end
  | _ => raise (TypeError "fromisoformat: argument must be str")
  end.

(** [a - b] on datetimes, in microseconds. *)
Definition datetime_sub (a b : datetime) : result Z :=
  match utcoffset a, utcoffset b with
  | None, None => ret (micros a - micros b)%Z
  | Some oa, Some ob => ret ((micros a - oa) - (micros b - ob))%Z
  | _, _ => raise (TypeError "can't subtract offset-naive and offset-aware datetimes")
  end.

(** [now] is the reading of [datetime.now()], a naive datetime. *)
Definition are_rates_fresh (rates : option rates_document) (ttl_seconds : Z)
  (now : Z) : result bool :=
  match rates with
  | None => ret false                         (* unreadable file: [[]] *)
  | Some rates =>
      match last_refresh rates with
      | None => ret false
      | Some stored =>
          match
            (last_refresh <- fromisoformat stored ;;
             let ttl := (ttl_seconds * 1000000)%Z in
             age <- datetime_sub (mkDatetime now None) last_refresh ;;
             ret (Z.ltb age ttl))
          with
          | inl (ValueError _) => ret false
          | r => r
          end
      end
  end.

End Freshness.

(** ** [core/currencies.py]: validation of a currency *)

(** [str.isalnum] on the ASCII range: digits and letters. *)
Definition is_alnum (c : ascii) : bool :=
  let n := nat_of_ascii c in
  orb (andb (Nat.leb 48 n) (Nat.leb n 57))
    (orb (andb (Nat.leb 65 n) (Nat.leb n 90)) (andb (Nat.leb 97 n) (Nat.leb n 122))).

Fixpoint all_chars (f : ascii -> bool) (s : string) : bool :=
  match s with
  | EmptyString => true
  | String c s' => andb (f c) (all_chars f s')
  end.

(** [s.isalnum()]: every character is alphanumeric and there is one at least. *)
Definition isalnum (s : string) : bool :=
  andb (negb (is_empty s)) (all_chars is_alnum s).

(** [s.replace(x, '')] for a one-character [x]. *)
Fixpoint remove_char (x : ascii) (s : string) : string :=
  match s with
  | EmptyString => EmptyString
  | String c s' =>
      if Ascii.eqb c x then remove_char x s' else String c (remove_char x s')
  end.

Definition _validate_code (code : string) : result unit :=
  if orb (is_empty code) (is_empty (strip code)) then
    raise (ValueError "Код валюты не может быть пустым")
  else if orb (Nat.ltb (len code) 2) (Nat.ltb 5 (len code)) then
    raise (ValueError "Код валюты должен содержать от 2 до 5 символов")
  else if negb (isalnum (remove_char "-" code)) then
    raise (ValueError "Код валюты может содержать только буквы, цифры и дефис")
  else ret tt.

Definition _validate_name (name : string) : result unit :=
  if orb (is_empty name) (is_empty (strip name)) then
    raise (ValueError "Имя валюты не может быть пустым")
  else ret tt.

(** [Currency.__init__], for either subclass. *)
Definition Currency_init (name code : string) (kind : currency_kind)
  : result Currency :=
  _validate_code code ;;;
  _validate_name name ;;;
  ret (mkCurrency name (upper code) kind).

(** ** [core/models.py]: [User]

    The digest [sha256(...).hexdigest()] is a parameter; the salt that
    [random.choices] draws is an argument. *)

Record User : Type := mkUser {
  _user_id : Z;
  _username : string;
  _hashed_password : string;
  _salt : string;
  _registration_date : datetime
}.

Definition _validate_username (username : string) : result unit :=
  if orb (is_empty username) (is_empty (strip username)) then
    raise (ValueError "Имя пользователя не может быть пустым")
  else ret tt.

Definition User_init (user_id : Z) (username hashed_password salt : string)
  (registration_date : datetime) : result User :=
  _validate_username username ;;;
  ret (mkUser user_id username hashed_password salt registration_date).

Section Passwords.

Variable sha256_hexdigest : string -> string.

Definition verify_password (self : User) (password : string) : bool :=
  String.eqb (sha256_hexdigest (password ++ _salt self)) (_hashed_password self).

Definition change_password (self : User) (new_password new_salt : string)
  : result User :=
  if Nat.ltb (len new_password) 4 then
    raise (ValueError "Пароль должен быть не короче 4 символов")
  else
    ret (mkUser (_user_id self) (_username self)
           (sha256_hexdigest (new_password ++ new_salt)) new_salt
           (_registration_date self)).

End Passwords.

(** ** [infra/database.py]: users, and the lock

    [users.json] is a list of user records.  [DatabaseManager._lock] is a
    [threading.Lock], which is not reentrant: [with self._lock] blocks
    while the lock is held, by whoever holds it.  A method takes the state
    of the lock when it is called and the files; [Blocked] is a call that
    never comes back, with the files as it leaves them. *)

Record user_data : Type := mkUserData {
  ud_user_id : Z;
  ud_username : string;
  ud_hashed_password : string;
  ud_salt : string;
  ud_registration_date : string
}.

Definition users_file : Type := list user_data.

Record database : Type := mkDatabase {
  db_users : users_file;                    (* users.json *)
  db_portfolios : portfolios_file;          (* portfolios.json *)
  db_exchange_rates : list history_record   (* exchange_rates.json *)
}.

Inductive outcome (A : Type) : Type :=
| Blocked (db : database)
| Finished (db : database) (a : A).
Arguments Blocked {A} db.
Arguments Finished {A} db a.

(** [with self._lock: body]: the body runs with the lock held. *)
Definition with_lock {A : Type} (locked : bool) (db : database)
  (body : bool -> outcome A) : outcome A :=
  if locked then Blocked db else body true.

Definition then_ {A B : Type} (c : outcome A) (k : database -> A -> outcome B)
  : outcome B :=
  match c with
  | Blocked db => Blocked db
  | Finished db a => k db a
  end.

Definition get_all_users (locked : bool) (db : database) : outcome users_file :=
  with_lock locked db (fun _ => Finished db (db_users db)).

Definition get_user_by_username (locked : bool) (db : database) (username : string)
  : outcome (option user_data) :=
  then_ (get_all_users locked db)
    (fun db users =>
       Finished db (find (fun user => String.eqb (ud_username user) username) users)).

Definition create_portfolio (locked : bool) (db : database) (user_id : Z)
  : outcome unit :=
  with_lock locked db
    (fun _ =>
       let portfolios := db_portfolios db in
       if existsb (fun portfolio => Z.eqb (pd_user_id portfolio) user_id) portfolios
       then Finished db tt
       else
         Finished
           (mkDatabase (db_users db)
              (portfolios ++ [mkPortfolioData user_id empty])%list
              (db_exchange_rates db))
           tt).

(** [max([...], default=0)] *)
Definition max_user_id (users : users_file) : Z :=
  match users with
  | [] => 0%Z
  | user :: rest => fold_left Z.max (map ud_user_id rest) (ud_user_id user)
  end.

Definition user_exists_error (username : string) : exn :=
  ValueError ("Пользователь с именем '" ++ username ++ "' уже существует").

(** ** [core/usecases.py]: [UserUsecases] *)

Inductive user_error : Type :=
| InvalidPasswordError
| DuplicateUsernameError (username : string)
| UserNotFoundError (username : string)
| AuthenticationError
| Propagated (e : exn).

(** [needle in s] on strings. *)
Fixpoint is_substring (needle s : string) : bool :=
  orb (String.prefix needle s)
    (match s with
     | EmptyString => false
     | String _ s' => is_substring needle s'
     end).

Section Users.

Variable sha256_hexdigest : string -> string.
Variable parse_isoformat : string -> option datetime.

(** [create_user]: [salt] is the salt drawn, [now] the reading of
    [datetime.now().isoformat()]. *)
Definition create_user (locked : bool) (db : database)
  (username password salt now : string) : outcome (result user_data) :=
  with_lock locked db
    (fun locked =>
       then_ (get_all_users locked db)
         (fun db users =>
            if existsb (fun user => String.eqb (ud_username user) username) users
            then Finished db (raise (user_exists_error username))
            else
              let user_id := (max_user_id users + 1)%Z in
              let hashed_password := sha256_hexdigest (password ++ salt) in
              let new_user := mkUserData user_id username hashed_password salt now in
              let db :=
                mkDatabase (users ++ [new_user])%list (db_portfolios db)
                  (db_exchange_rates db) in
              then_ (create_portfolio locked db user_id)
                (fun db _ => Finished db (ret new_user)))).

Definition register_user (locked : bool) (db : database)
  (username password salt now : string) : outcome (user_error + user_data) :=
  if Nat.ltb (len password) 4 then Finished db (inl InvalidPasswordError)
  else
    then_ (create_user locked db username password salt now)
      (fun db created =>
         match created with
         | inr user_data => Finished db (inr user_data)
         | inl (ValueError msg) =>
             if is_substring "уже существует" msg
             then Finished db (inl (DuplicateUsernameError username))
             else Finished db (inl (Propagated (ValueError msg)))
         | inl e => Finished db (inl (Propagated e))
         end).

Definition authenticate_user (locked : bool) (db : database)
  (username password : string) : outcome (user_error + user_data) :=
  then_ (get_user_by_username locked db username)
    (fun db found =>
       match found with
       | None => Finished db (inl (UserNotFoundError username))
       | Some user_data =>
           match
             (registration_date <-
                fromisoformat parse_isoformat (PyStr (ud_registration_date user_data)) ;;
              User_init (ud_user_id user_data) (ud_username user_data)
                (ud_hashed_password user_data) (ud_salt user_data) registration_date)
           with
           | inl e => Finished db (inl (Propagated e))
           | inr user =>
               if verify_password sha256_hexdigest user password
               then Finished db (inr user_data)
               else Finished db (inl AuthenticationError)
           end
       end).

End Users.

(** ** [core/utils.py]: command arguments and the rate dictionary *)

Inductive argval : Type :=
| ArgStr (s : string)
| ArgInt (z : Z)
| ArgFloat (f : float)
| ArgTrue.

Fixpoint contains_char (x : ascii) (s : string) : bool :=
  match s with
  | EmptyString => false
  | String c s' => orb (Ascii.eqb c x) (contains_char x s')
  end.

(** [s.startswith('--')] and [s[2:]]. *)
Definition is_flag (s : string) : bool := String.prefix "--" s.

Definition drop2 (s : string) : string :=
  match s with
  | String _ (String _ s') => s'
  | _ => EmptyString
  end.

Section ParseArgs.

(** Python's [int(s)] and [float(s)]: [None] stands for [ValueError]. *)
Variable int_of_str : string -> option Z.
Variable float_of_str : string -> option float.

Definition convert_value (value : string) : argval :=
  if contains_char "." value then
    match float_of_str value with
    | Some f => ArgFloat f
    | None => ArgStr value
    end
  else
    match int_of_str value with
    | Some z => ArgInt z
    | None => ArgStr value
    end.

(** The [while] loop of [parse_args], on the tokens from index [i] on. *)
Fixpoint parse_args_loop (args_list : list string) (args : dict argval)
  : dict argval :=
  match args_list with
  | [] => args
  | token :: rest =>
      if is_flag token then
        let key := drop2 token in
        match rest with
        | value :: rest' =>
            if negb (is_flag value)
            then parse_args_loop rest' (set args key (convert_value value))
            else parse_args_loop rest (set args key ArgTrue)
        | [] => parse_args_loop rest (set args key ArgTrue)
        end
      else parse_args_loop rest args
  end.

Definition parse_args (args_list : list string) : dict argval :=
  parse_args_loop args_list empty.

End ParseArgs.

(** [get_exchange_rates]: the argument is what [DatabaseManager.get_rates]
    read, [None] for the list [[]] of an unreadable file. *)
Definition get_exchange_rates (rates_data : option rates_document) : dict float :=
  match rates_data with
  | None => empty
  | Some rates_data =>
      match pairs rates_data with
      | None => empty
      | Some p =>
          fold_left (fun rates item => set rates (fst item) (rate (snd item)))
            (items p) empty
      end
  end.

(** ** [parser_service/api_clients.py]

    The request is what the network answers: a failure, by the [except]
    clause that catches it, or the decoded JSON. *)

Record ParserConfig : Type := mkConfig {
  EXCHANGERATE_API_KEY : string;
  BASE_CURRENCY : string;
  FIAT_CURRENCIES : list string;
  CRYPTO_CURRENCIES : list string;
  CRYPTO_ID_MAP : dict string
}.

(** The field values written in the class body of [config.py], for an API
    key.  The clients read their configuration through [self.config] and
    work with any configuration object; the statements about them are made
    for every configuration.  (As written, the class body gives the field
    [CRYPTO_ID_MAP] a [dict] as its default, which [@dataclass] refuses when
    the class is created; these are the values a configuration with the
    fields of the file has.) *)
Definition default_config (api_key : string) : ParserConfig :=
  mkConfig api_key "USD"
    ["EUR"; "GBP"; "RUB"; "JPY"; "CHF"; "CAD"; "AUD"]
    ["BTC"; "ETH"; "SOL"; "XRP"; "ADA"; "DOGE"; "DOT"]
    [("BTC", "bitcoin"); ("ETH", "ethereum"); ("SOL", "solana"); ("XRP", "ripple");
     ("ADA", "cardano"); ("DOGE", "dogecoin"); ("DOT", "polkadot")].

Inductive http_failure : Type :=
| RequestException (text : string)     (* except requests.exceptions.RequestException *)
| ResponseValueError (text : string)   (* except ValueError *)
| UnexpectedException (text : string).  (* except Exception *)

Definition wrap_failure (provider : string) (f : http_failure) : exn :=
  ApiRequestError
    (match f with
     | RequestException text =>
         "Network error when fetching from " ++ provider ++ ": " ++ text
     | ResponseValueError text =>
         "Invalid response format from " ++ provider ++ ": " ++ text
     | UnexpectedException text =>
         "Unexpected error when fetching from " ++ provider ++ ": " ++ text
     end).

(** The second loop of [CoinGeckoClient.fetch_rates]. *)
Definition coingecko_rates (config : ParserConfig) (data : dict (dict float))
  (timestamp : string) : dict rate_data :=
  fold_left
    (fun rates code =>
       match get (CRYPTO_ID_MAP config) code with
       | None => rates
       | Some crypto_id =>
           match get data crypto_id with
           | None => rates
           | Some prices =>
               match get prices (lower (BASE_CURRENCY config)) with
               | None => rates
               | Some r =>
                   set rates (pair_key code (BASE_CURRENCY config))
                     (mkRateData r timestamp "CoinGecko")
               end
           end
       end)
    (CRYPTO_CURRENCIES config) empty.

Definition coingecko_fetch_rates (config : ParserConfig)
  (response : http_failure + dict (dict float)) (timestamp : string)
  : result (dict rate_data) :=
  let crypto_ids :=
    flat_map
      (fun code =>
         match get (CRYPTO_ID_MAP config) code with
         | Some crypto_id => [crypto_id]
         | None => []
         end)
      (CRYPTO_CURRENCIES config) in
  match crypto_ids with
  | [] => ret empty
  | _ =>
      match response with
      | inl f => raise (wrap_failure "CoinGecko" f)
      | inr data => ret (coingecko_rates config data timestamp)
      end
  end.

(** The JSON of ExchangeRate-API, by the keys the client reads. *)
Record exchangerate_data : Type := mkExchangeRateData {
  er_result : option string;
  er_error_type : option string;
  er_time_last_update_utc : option string;
  er_conversion_rates : option (dict float)
}.

(** The loop of [ExchangeRateApiClient.fetch_rates]: the rate is inverted. *)
Fixpoint exchangerate_rates (base_currency : string) (codes : list string)
  (conversion_rates : dict float) (timestamp : string) (rates : dict rate_data)
  : result (dict rate_data) :=
  match codes with
  | [] => ret rates
  | code :: rest =>
      match get conversion_rates code with
      | None => exchangerate_rates base_currency rest conversion_rates timestamp rates
      | Some r =>
          inverse <- py_div 1 r ;;
          exchangerate_rates base_currency rest conversion_rates timestamp
            (set rates (pair_key code base_currency)
               (mkRateData inverse timestamp "ExchangeRate-API"))
      end
  end.

(** What the name [get_exchange_rates] of [core/usecases.py] is bound to. *)
Inductive rates_reader : Type :=
| utils_get_exchange_rates    (* the import from [core/utils.py] *)
| database_get_rates.         (* [DatabaseManager().get_rates] *)

Section ExchangeRateApi.

(** [datetime.strptime(s, fmt).strftime(DATETIME_FORMAT)]: the text of the
    [ValueError], or the timestamp. *)
Variable reformat_time : string -> string + string.

(** What the body of the [try] does; an exception it raises is caught by
    one of the three clauses. *)
Definition exchangerate_try (config : ParserConfig)
  (response : http_failure + exchangerate_data)
  : http_failure + dict rate_data :=
  if is_empty (EXCHANGERATE_API_KEY config) then
    inl (UnexpectedException (api_error_text "ExchangeRate-API key is not configured"))
  else
    match response with
    | inl f => inl f
    | inr data =>
        if negb (match er_result data with
                 | Some r => String.eqb r "success"
                 | None => false
                 end)
        then
          inl (UnexpectedException
                 (api_error_text
                    ("API returned error: "
                     ++ match er_error_type data with
                        | Some t => t
                        | None => "Unknown error"
                        end)))
        else
          match er_time_last_update_utc data with
          | None => inl (UnexpectedException "'time_last_update_utc'")
          | Some t =>
              match reformat_time t with
              | inl text => inl (ResponseValueError text)
              | inr timestamp =>
                  match FIAT_CURRENCIES config with
                  | [] => inr empty
                  | codes =>
                      match er_conversion_rates data with
                      | None => inl (UnexpectedException "'conversion_rates'")
                      | Some conversion_rates =>
                          match exchangerate_rates (BASE_CURRENCY config) codes
                                  conversion_rates timestamp empty with
                          | inl _ => inl (UnexpectedException "float division by zero")
                          | inr rates => inr rates
                          end
                      end
                  end
              end
          end
    end.

Definition exchangerate_fetch_rates (config : ParserConfig)
  (response : http_failure + exchangerate_data) : result (dict rate_data) :=
  match exchangerate_try config response with
  | inl f => raise (wrap_failure "ExchangeRate-API" f)
  | inr rates => ret rates
  end.

(** [RatesUsecases.update_rates]: the two clients, CoinGecko first.  When
    the run returns, the use case rebinds the module global
    [get_exchange_rates] to [DatabaseManager().get_rates]; [reader] is what
    the global names when the call starts.  [source] is [None] or a string,
    as the signature declares. *)
Definition update_rates (config : ParserConfig) (storage : RatesStorage)
  (reader : rates_reader) (source : option string)
  (coingecko_response : http_failure + dict (dict float))
  (coingecko_timestamp : string)
  (exchangerate_response : http_failure + exchangerate_data)
  (t_start t_end : string) : RatesStorage * rates_reader * result update_results :=
  let '(storage, result) :=
    run_update
      [ mkClient CoinGeckoClient
          (coingecko_fetch_rates config coingecko_response coingecko_timestamp);
        mkClient ExchangeRateApiClient
          (exchangerate_fetch_rates config exchangerate_response) ]
      storage source t_start t_end in
  match result with
  | inl e => (storage, reader, raise e)
  | inr summary => (storage, database_get_rates, ret summary)
  end.

End ExchangeRateApi.

(** * Vocabulary of the properties

    What the statements below need besides the program: the readings of the
    specification's words, and the inputs of the examples. *)

Definition upper_keys (p : Portfolio) : Prop :=
  Forall (fun k => upper k = k) (keys (_wallets p)).

(** The cache written by [DatabaseManager._init_data_files], as
    [get_exchange_rates] reads it. *)
Definition initial_rates : dict float :=
  [("EUR_USD", 1.0786%float); ("BTC_USD", 59337.21%float);
   ("RUB_USD", 0.01016%float); ("ETH_USD", 3720.00%float)].

(** A provider failed in this run. *)
Definition provider_failed (c : BaseApiClient) : bool :=
  match fetch_rates c with
  | inl _ => true
  | inr _ => false
  end.

(** A pair key [base_quote]: it splits on the underscore in two parts at least. *)
Definition well_formed_pair (k : string) : bool :=
  Nat.leb 2 (List.length (split "_" k)).

(** A provider keeps its contract: it fails with [ApiRequestError] only, and
    the keys it returns are pair keys. *)
Definition keeps_contract (c : BaseApiClient) : bool :=
  match fetch_rates c with
  | inl (ApiRequestError _) => true
  | inl _ => false
  | inr d => forallb well_formed_pair (keys d)
  end.

(** The error messages of the providers that failed, in provider order. *)
Definition provider_errors (clients : list BaseApiClient) : list string :=
  flat_map
    (fun c =>
       match fetch_rates c with
       | inl (ApiRequestError reason) =>
           [error_msg (class_name_of (class_of c)) reason]
       | _ => []
       end)
    clients.

(** The pair keys the providers returned, in provider order. *)
Definition fetched_pairs (clients : list BaseApiClient) : list string :=
  flat_map
    (fun c =>
       match fetch_rates c with
       | inr d => keys d
       | inl _ => []
       end)
    clients.

(** Overwrite-by-key merge of one provider's rates, then of all of them. *)
Definition merge_dict (acc : dict rate_data) (d : dict rate_data) : dict rate_data :=
  fold_left (fun a kv => set a (fst kv) (snd kv)) d acc.

Definition merge_all (acc : dict rate_data) (clients : list BaseApiClient)
  : dict rate_data :=
  fold_left
    (fun a c =>
       match fetch_rates c with
       | inr d => merge_dict a d
       | inl _ => a
       end)
    clients acc.

(** The source name selects the client. *)
Definition source_selects (source : string) (c : BaseApiClient) : bool :=
  match class_of c with
  | CoinGeckoClient => String.eqb (lower source) "coingecko"
  | ExchangeRateApiClient => String.eqb (lower source) "exchangerate"
  | OtherApiClient _ => false
  end.

(** The pairs the cache holds when the run starts. *)
Definition current_pairs (storage : RatesStorage) : dict rate_data :=
  match pairs (load_current_rates storage) with
  | Some p => p
  | None => empty
  end.

Definition sf_nonneg (x : spec_float) : bool :=
  match x with
  | S754_zero _ => true
  | S754_infinity s => negb s
  | S754_nan => true
  | S754_finite s _ _ => negb s
  end.

Definition sf_zero : spec_float := S754_zero false.

(** A positive finite number, the amounts the specification admits. *)
Definition positive_finite (v : pyval) : bool :=
  match v with
  | PyFloat f => andb (0 <? f)%float (is_finite f)
  | _ => false
  end.

Inductive operation : Type :=
| Deposit (amount : pyval)
| Withdraw (amount : pyval).

Definition apply_operation (w : Wallet) (op : operation) : result Wallet :=
  match op with
  | Deposit amount => deposit w amount
  | Withdraw amount => withdraw w amount
  end.

(** Every operation of the sequence succeeds, or the run raises. *)
Fixpoint run_operations (w : Wallet) (ops : list operation) : result Wallet :=
  match ops with
  | [] => ret w
  | op :: rest =>
      w <- apply_operation w op ;;
      run_operations w rest
  end.

(** The deposits added and the withdrawals subtracted, left to right, in
    binary64 arithmetic. *)
Fixpoint accumulate (b : float) (ops : list operation) : float :=
  match ops with
  | [] => b
  | Deposit (PyFloat a) :: rest => accumulate (b + a)%float rest
  | Withdraw (PyFloat a) :: rest => accumulate (b - a)%float rest
  | _ :: rest => accumulate b rest
  end.

Definition deposited (ops : list operation) : list float :=
  flat_map (fun op => match op with Deposit (PyFloat a) => [a] | _ => [] end) ops.

Definition withdrawn (ops : list operation) : list float :=
  flat_map (fun op => match op with Withdraw (PyFloat a) => [a] | _ => [] end) ops.

(** Python's [sum] of a list of floats. *)
Definition float_sum (l : list float) : float :=
  fold_left (fun acc a => (acc + a)%float) l 0%float.

(** The rational number a finite float stands for. *)
Definition exact (f : float) : option Q :=
  match Prim2SF f with
  | S754_zero _ => Some 0%Q
  | S754_finite s m e =>
      Some (Qmult (inject_Z (if s then Zneg m else Zpos m)) (Qpower 2 e))
  | _ => None
  end.

Definition exact_sum (l : list float) : option Q :=
  fold_left
    (fun acc a =>
       match acc, exact a with
       | Some x, Some y => Some (Qplus x y)
       | _, _ => None
       end)
    l (Some 0%Q).

Definition not_negative (b : float) : Prop := (b <? 0)%float = false.

Definition negative_balance_error : exn :=
  ValueError "Баланс не может быть отрицательным".

(** The valuation as the specification words it: every wallet's balance
    converted by the rate resolution; a wallet with no resolvable rate adds
    nothing. *)
Definition value_by_resolver_step (exchange_rates : dict float) (base_currency : string)
  (total_value : float) (wallet : Wallet) : result float :=
  match _get_exchange_rate exchange_rates (currency_code wallet) base_currency with
  | inr rate => ret (total_value + _balance wallet * rate)%float
  | inl (ValueError _) => ret total_value
  | inl e => raise e
  end.

Fixpoint value_by_resolver_loop (exchange_rates : dict float) (base_currency : string)
  (wallets : list Wallet) (total_value : float) : result float :=
  match wallets with
  | [] => ret total_value
  | wallet :: rest =>
      t <- value_by_resolver_step exchange_rates base_currency total_value wallet ;;
      value_by_resolver_loop exchange_rates base_currency rest t
  end.

Definition value_by_resolver (self : Portfolio) (exchange_rates : dict float)
  (base_currency : string) : result float :=
  value_by_resolver_loop exchange_rates (upper base_currency)
    (values (_wallets self)) 0%float.

(** No cached rate is zero. *)
Definition rates_nonzero (exchange_rates : dict float) : Prop :=
  forall k r, get exchange_rates k = Some r -> PrimFloat.eqb r 0 = false.

(** The entry of the breakdown for a wallet: priced by the resolver, or
    listed with no rate and no value. *)
Definition describes (exchange_rates : dict float) (base_currency : string)
  (item : string * Wallet) (info : wallet_info) : Prop :=
  wi_currency info = fst item
  /\ wi_balance info = _balance (snd item)
  /\ match _get_exchange_rate exchange_rates (fst item) base_currency with
     | inr r =>
         wi_rate info = Some r
         /\ wi_value_in_base info = Some (_balance (snd item) * r)%float
     | inl _ => wi_rate info = None /\ wi_value_in_base info = None
     end.

(** Every character is in the ASCII range, where the length and the
    character classes of the model are Python's. *)
Definition ascii_only (s : string) : bool :=
  all_chars (fun c => Nat.ltb (nat_of_ascii c) 128) s.

Definition is_hyphen (c : ascii) : bool := Ascii.eqb c "-".

(** A letter, a digit or a hyphen. *)
Definition is_code_char (c : ascii) : bool := orb (is_alnum c) (is_hyphen c).

(** The token is a flag that names the key. *)
Definition names_key (k : string) (token : string) : Prop :=
  is_flag token = true /\ drop2 token = k.

(** The price of a crypto code in the response: the code has an identifier,
    the response has an entry for the identifier, and the entry has a price
    in the anchor, named in lower case. *)
Definition coingecko_price (config : ParserConfig) (data : dict (dict float))
  (code : string) : option float :=
  match get (CRYPTO_ID_MAP config) code with
  | None => None
  | Some crypto_id =>
      match get data crypto_id with
      | None => None
      | Some prices => get prices (lower (BASE_CURRENCY config))
      end
  end.

(** The source of a run is [None] or a name in ASCII. *)
Definition ascii_source (source : option string) : bool :=
  match source with
  | None => true
  | Some s => ascii_only s
  end.

(** The message of the fiat client when no API key is configured. *)
Definition missing_key_error : exn :=
  ApiRequestError
    ("Unexpected error when fetching from ExchangeRate-API: "
     ++ api_error_text "ExchangeRate-API key is not configured").

(** * Properties *)

(** ** Strings *)

Lemma upper_ascii_idempotent (c : ascii) : upper_ascii (upper_ascii c) = upper_ascii c.
Proof.
  destruct c as [b0 b1 b2 b3 b4 b5 b6 b7].
  destruct b0, b1, b2, b3, b4, b5, b6, b7; reflexivity.
Qed.

Lemma is_space_upper_ascii (c : ascii) : is_space (upper_ascii c) = is_space c.
Proof.
  destruct c as [b0 b1 b2 b3 b4 b5 b6 b7].
  destruct b0, b1, b2, b3, b4, b5, b6, b7; reflexivity.
Qed.

Lemma upper_idempotent (s : string) : upper (upper s) = upper s.
Proof.
  induction s as [|c s IH]; simpl.
  - reflexivity.
  - now rewrite upper_ascii_idempotent, IH.
Qed.

Lemma lstrip_upper (s : string) : lstrip (upper s) = upper (lstrip s).
Proof.
  induction s as [|c s IH]; simpl.
  - reflexivity.
  - rewrite is_space_upper_ascii. destruct (is_space c); [exact IH | reflexivity].
Qed.

Lemma rstrip_upper (s : string) : rstrip (upper s) = upper (rstrip s).
Proof.
  induction s as [|c s IH]; simpl.
  - reflexivity.
  - rewrite IH, is_space_upper_ascii.
    destruct (rstrip s); simpl; [destruct (is_space c)|]; reflexivity.
Qed.

Lemma strip_upper (s : string) : strip (upper s) = upper (strip s).
Proof. unfold strip. now rewrite lstrip_upper, rstrip_upper. Qed.

(** ** Dictionaries *)

Lemma get_set_same {V : Type} (d : dict V) (k : string) (v : V) :
  get (set d k v) k = Some v.
Proof.
  induction d as [|[k' v'] d IH]; simpl.
  - now rewrite String.eqb_refl.
  - destruct (String.eqb k' k) eqn:E; simpl; rewrite E; [reflexivity | exact IH].
Qed.

Lemma get_set_other {V : Type} (d : dict V) (k k0 : string) (v : V) :
  k <> k0 -> get (set d k v) k0 = get d k0.
Proof.
  intros Hne. induction d as [|[k' v'] d IH]; simpl.
  - destruct (String.eqb_spec k k0); [contradiction | reflexivity].
  - destruct (String.eqb_spec k' k) as [-> | Hk]; simpl.
    + destruct (String.eqb_spec k k0); [contradiction | reflexivity].
    + now rewrite IH.
Qed.

Lemma keys_set {V : Type} (d : dict V) (k : string) (v : V) :
  forall k0, In k0 (keys (set d k v)) <-> k0 = k \/ In k0 (keys d).
Proof.
  unfold keys. induction d as [|[k' v'] d IH]; simpl; intros k0.
  - intuition congruence.
  - destruct (String.eqb_spec k' k) as [-> | Hk]; simpl.
    + intuition congruence.
    + rewrite IH. intuition congruence.
Qed.

Lemma contains_keys {V : Type} (d : dict V) (k : string) :
  contains d k = true <-> In k (keys d).
Proof.
  unfold contains, keys. induction d as [|[k' v'] d IH]; simpl.
  - intuition discriminate.
  - destruct (String.eqb_spec k' k) as [-> | Hk].
    + intuition.
    + rewrite IH. intuition congruence.
Qed.

(** ** The ledger: creating a wallet *)

(** [Wallet(code)] deposits the default balance [0.0], which
    [_validate_amount] rejects: the constructor raises for every code. *)
Lemma Wallet_init_default_raises (registry : dict Currency) (c : string) :
  exists msg, Wallet_init registry c default_balance = raise (ValueError msg).
Proof.
  unfold Wallet_init, _validate_currency.
  destruct (orb (is_empty c) (is_empty (strip c))); [eexists; reflexivity|].
  destruct (get_currency registry c); eexists; reflexivity.
Qed.

Lemma Wallet_init_registered (registry : dict Currency) (c : string) (x : Currency) :
  strip c <> "" ->
  get_currency registry c = ret x ->
  Wallet_init registry c default_balance
  = raise (ValueError "Сумма должна быть положительной").
Proof.
  intros Hs Hc. unfold Wallet_init, _validate_currency. rewrite Hc.
  assert (is_empty c = false) as ->.
  { destruct c; [now elim Hs | reflexivity]. }
  assert (is_empty (strip c) = false) as ->.
  { destruct (strip c); [now elim Hs | reflexivity]. }
  reflexivity.
Qed.

Lemma add_currency_new_raises (registry : dict Currency) (p : Portfolio) (c : string) :
  get (_wallets p) (upper c) = None ->
  exists msg, add_currency registry p c = raise (ValueError msg).
Proof.
  intros Hnew. unfold add_currency. rewrite Hnew.
  destruct (Wallet_init_default_raises registry (upper c)) as [msg ->].
  now exists msg.
Qed.

Lemma add_currency_keeps_portfolio (registry : dict Currency) (p p' : Portfolio)
  (c : string) (w : Wallet) :
  add_currency registry p c = ret (p', w) ->
  p' = p /\ get (_wallets p) (upper c) = Some w.
Proof.
  unfold add_currency. destruct (get (_wallets p) (upper c)) as [w0|] eqn:E.
  - intros [= <- <-]. now split.
  - destruct (Wallet_init_default_raises registry (upper c)) as [msg ->].
    discriminate.
Qed.

(** Loading stops at the first stored wallet. *)
Lemma load_wallets_raises (registry : dict Currency) (p : Portfolio)
  (item : string * wallet_data) (rest : list (string * wallet_data)) :
  exists msg, load_wallets registry p (item :: rest) = raise (ValueError msg).
Proof.
  destruct item as [c wd]. simpl.
  destruct (Wallet_init_default_raises registry c) as [msg ->].
  now exists msg.
Qed.

Lemma load_user_portfolio_empty (registry : dict Currency) (db : portfolios_file)
  (u : Z) (p : Portfolio) :
  load_user_portfolio registry db u = ret p -> p = Portfolio_init u.
Proof.
  unfold load_user_portfolio. destruct (db_get_portfolio db u) as [pd|].
  - unfold items. destruct (pd_wallets pd) as [|item rest].
    + now intros [= <-].
    + destruct (load_wallets_raises registry (Portfolio_init u) item rest) as [msg ->].
      discriminate.
  - now intros [= <-].
Qed.

Lemma add_currency_registered_raises (registry : dict Currency) (p : Portfolio)
  (c : string) (x : Currency) :
  strip (upper c) <> "" ->
  get_currency registry c = ret x ->
  get (_wallets p) (upper c) = None ->
  add_currency registry p c = raise (ValueError "Сумма должна быть положительной").
Proof.
  intros Hs Hc Hnew. unfold add_currency. rewrite Hnew.
  rewrite (Wallet_init_registered registry (upper c) x Hs); [reflexivity|].
  unfold get_currency in *. now rewrite upper_idempotent.
Qed.

(** C1 (the code departs from the claim).  Getting-or-creating the wallet of
    a registered currency that the portfolio does not hold should return a
    wallet with balance 0.  In the code it raises: for the registered code
    BTC and the empty portfolio, [add_currency] ends in the [ValueError] of
    [_validate_amount], because [Wallet.__init__] deposits its default
    balance [0.0]. *)
Theorem add_currency_new_wallet_raises :
  get_currency _CURRENCY_REGISTRY "BTC"
  = ret (CryptoCurrency "Bitcoin" "BTC" "SHA-256" 1.12e12)
  /\ get (_wallets (Portfolio_init 1)) "BTC" = None
  /\ add_currency _CURRENCY_REGISTRY (Portfolio_init 1) "BTC"
     = raise (ValueError "Сумма должна быть положительной").
Proof. repeat split; reflexivity. Qed.

(** The same through [buy_currency]: the first purchase of a currency raises
    and leaves [portfolios.json] as it was. *)
Lemma buy_currency_first_purchase_raises (float_of_str : string -> option float) :
  buy_currency float_of_str _CURRENCY_REGISTRY [mkPortfolioData 1 empty] empty
    1 "btc" (PyFloat 0.5)
  = ([mkPortfolioData 1 empty],
     raise (ValueError "Сумма должна быть положительной")).
Proof. reflexivity. Qed.

(** ** Case of the currency code *)

Lemma validate_currency_code_upper (registry : dict Currency) (c : string) :
  validate_currency_code registry (upper c) = validate_currency_code registry c.
Proof.
  unfold validate_currency_code. now rewrite strip_upper, upper_idempotent.
Qed.

Lemma validate_currency_code_normal (registry : dict Currency) (c c' : string) :
  validate_currency_code registry c = ret c' -> c' = upper (strip c) /\ upper c' = c'.
Proof.
  unfold validate_currency_code.
  destruct (is_empty (upper (strip c))); [discriminate|].
  destruct (get_currency registry (upper (strip c))); [discriminate|].
  intros [= <-]. split; [reflexivity | apply upper_idempotent].
Qed.

Lemma Wallet_init_code (registry : dict Currency) (c : string) (b : pyval) (w : Wallet) :
  Wallet_init registry c b = ret w -> currency_code w = upper c.
Proof.
  unfold Wallet_init. destruct (_validate_currency registry c); [discriminate|].
  unfold bind, deposit. destruct (_validate_amount b); [discriminate|]. simpl.
  destruct (py_add 0 b); [discriminate|]. now intros [= <-].
Qed.

Lemma update_wallet_upper_keys (p : Portfolio) (c : string) (w : Wallet) :
  upper_keys p -> upper_keys (update_wallet p (upper c) w).
Proof.
  unfold upper_keys. rewrite !Forall_forall. intros H k Hk.
  apply keys_set in Hk. destruct Hk as [-> | Hk]; [apply upper_idempotent | now apply H].
Qed.

Lemma add_currency_upper_keys (registry : dict Currency) (p p' : Portfolio)
  (c : string) (w : Wallet) :
  upper_keys p -> add_currency registry p c = ret (p', w) -> upper_keys p'.
Proof.
  intros Hp. unfold add_currency.
  destruct (get (_wallets p) (upper c)).
  - now intros [= <- _].
  - destruct (Wallet_init registry (upper c) default_balance); [discriminate|].
    intros [= <- _]. now apply update_wallet_upper_keys.
Qed.

(** The wallet [add_currency] returns is the one [get_wallet] finds. *)
Lemma add_currency_then_get_wallet (registry : dict Currency) (p p' : Portfolio)
  (c : string) (w : Wallet) :
  add_currency registry p c = ret (p', w) -> get_wallet p' c = ret w.
Proof.
  unfold add_currency, get_wallet.
  destruct (get (_wallets p) (upper c)) as [w0|] eqn:E.
  - intros [= <- <-]. now rewrite E.
  - destruct (Wallet_init registry (upper c) default_balance); [discriminate|].
    intros [= <- <-]. simpl. now rewrite get_set_same.
Qed.

(** C10.  The portfolio operations upper-case their currency-code argument
    before use: [add_currency], [get_wallet], [validate_currency_code] and,
    through it, [buy_currency] (deposit) and [sell_currency] (withdraw) give
    the same result for a code [c] and for [c.upper()]; a wallet is created
    with the upper-cased code; and the keys of a portfolio stay upper-case
    under [add_currency], and are upper-case after [load_user_portfolio]
    (which stores a wallet under the key as persisted, and never gets to
    store one: see [load_wallets_raises]). *)
Theorem currency_code_case_insensitive
  (float_of_str : string -> option float) (registry : dict Currency)
  (p : Portfolio) (c : string) :
  add_currency registry p (upper c) = add_currency registry p c
  /\ get_wallet p (upper c) = get_wallet p c
  /\ validate_currency_code registry (upper c) = validate_currency_code registry c
  /\ (forall db rates u a,
        buy_currency float_of_str registry db rates u (upper c) a
        = buy_currency float_of_str registry db rates u c a)
  /\ (forall db rates u a,
        sell_currency float_of_str registry db rates u (upper c) a
        = sell_currency float_of_str registry db rates u c a)
  /\ (forall b w, Wallet_init registry c b = ret w -> currency_code w = upper c)
  /\ (forall p' w,
        upper_keys p -> add_currency registry p c = ret (p', w) ->
        upper_keys p' /\ get_wallet p' c = ret w)
  /\ (forall db u p', load_user_portfolio registry db u = ret p' -> upper_keys p').
Proof.
  repeat split.
  - unfold add_currency. now rewrite upper_idempotent.
  - unfold get_wallet. now rewrite upper_idempotent.
  - apply validate_currency_code_upper.
  - intros. unfold buy_currency. now rewrite validate_currency_code_upper.
  - intros. unfold sell_currency. now rewrite validate_currency_code_upper.
  - intros b w. apply Wallet_init_code.
  - eapply add_currency_upper_keys; eassumption.
  - eapply add_currency_then_get_wallet; eassumption.
  - intros db u p' Hl. apply load_user_portfolio_empty in Hl. subst p'.
    constructor.
Qed.

(** A portfolio that holds BTC, addressed in lower case. *)
Lemma currency_code_case_insensitive_witness :
  let p := mkPortfolio 1 [("BTC", mkWallet "BTC" 0.5)] in
  add_currency _CURRENCY_REGISTRY p "BTC" = add_currency _CURRENCY_REGISTRY p "btc"
  /\ get_wallet p "btc" = ret (mkWallet "BTC" 0.5).
Proof.
  split.
  - exact (proj1 (currency_code_case_insensitive (fun _ => None)
                    _CURRENCY_REGISTRY
                    (mkPortfolio 1 [("BTC", mkWallet "BTC" 0.5)]) "btc")).
  - reflexivity.
Defined.

(** ** Rate resolution *)

Lemma py_div_nonzero (x y : float) :
  PrimFloat.eqb y 0 = false -> py_div x y = ret (x / y)%float.
Proof. intros H. unfold py_div. now rewrite H. Qed.

(** With no pair [X_X] and no pair [X_USD] in the cache, resolving [X] to
    itself raises. *)
Lemma get_exchange_rate_same_uncached (rates : dict float) (X : string) :
  get rates (pair_key X X) = None ->
  get rates (pair_key X "USD") = None ->
  _get_exchange_rate rates X X = raise (rate_not_found X X).
Proof.
  intros Hxx Hxu. unfold _get_exchange_rate. rewrite !Hxx.
  destruct (String.eqb_spec X "USD") as [-> | Hne].
  - now rewrite Hxx.
  - now rewrite Hxu.
Qed.

(** C2 (the code departs from the claim).  Resolving a currency to itself
    should give 1.0 whatever is cached.  The code has no identity case: on
    the cache the program ships with, and on the empty cache, resolving USD
    to USD raises the [ValueError] of a rate that is not found; so does BTC
    to BTC on the empty cache. *)
Theorem get_exchange_rate_identity_raises :
  _get_exchange_rate initial_rates "USD" "USD" = raise (rate_not_found "USD" "USD")
  /\ _get_exchange_rate empty "USD" "USD" = raise (rate_not_found "USD" "USD")
  /\ _get_exchange_rate empty "BTC" "BTC" = raise (rate_not_found "BTC" "BTC").
Proof. repeat split; reflexivity. Qed.

(** Where the identity does come out: through the double triangulation, as
    the quotient of the cached rate by itself. *)
Lemma get_exchange_rate_identity_cached :
  _get_exchange_rate initial_rates "BTC" "BTC" = ret 1%float.
Proof. reflexivity. Qed.

(** C3, as stated, fails at these inputs, for the distinct currencies BTC
    and EUR.  With the inverse pair cached at the rate 0.0 the resolution
    raises [ZeroDivisionError]: it returns no [1 / rate], it does not go on
    to the double triangulation that the cache allows, and the error is not
    the rate-not-found error.  So does the double triangulation on a zero
    rate of [EUR_USD].  With nothing cached the error raised is a plain
    [ValueError]: the program defines no [RateNotFoundError]. *)
Lemma get_exchange_rate_zero_rate_raises :
  String.eqb "BTC" "EUR" = false
  /\ _get_exchange_rate [("EUR_BTC", 0%float)] "BTC" "EUR" = raise ZeroDivisionError
  /\ _get_exchange_rate
       [("EUR_BTC", 0%float); ("BTC_USD", 2%float); ("EUR_USD", 4%float)] "BTC" "EUR"
     = raise ZeroDivisionError
  /\ _get_exchange_rate [("BTC_USD", 2%float); ("EUR_USD", 0%float)] "BTC" "EUR"
     = raise ZeroDivisionError
  /\ _get_exchange_rate empty "BTC" "EUR"
     = raise (ValueError "Не удалось найти курс обмена между BTC и EUR").
Proof. repeat split; reflexivity. Qed.

(** C3 (amended).  For distinct currencies the resolution answers from the
    first of these that is cached, in this order.  The direct pair: its rate.
    The inverse pair: [1 / rate], and [ZeroDivisionError] when that rate is
    zero.  With neither cached and one side the anchor USD, the resolution
    fails: the single triangulation looks up the pair that was just found
    missing, and the double one needs it.  With neither cached and both
    [from_USD] and [to_USD] cached: [rate(from_USD) / rate(to_USD)], and
    [ZeroDivisionError] when the divisor is zero.  Otherwise it raises
    [ValueError] with the message that names the two currencies. *)
Theorem get_exchange_rate_order (rates : dict float) (from_currency to_currency : string) :
  from_currency <> to_currency ->
  let direct := get rates (pair_key from_currency to_currency) in
  let inverse := get rates (pair_key to_currency from_currency) in
  let from_anchor := get rates (pair_key from_currency "USD") in
  let to_anchor := get rates (pair_key to_currency "USD") in
  let answer := _get_exchange_rate rates from_currency to_currency in
  let not_found :=
    ValueError ("Не удалось найти курс обмена между " ++ from_currency
                ++ " и " ++ to_currency) in
  (forall r, direct = Some r -> answer = ret r)
  /\ (forall r, direct = None -> inverse = Some r ->
        answer = if PrimFloat.eqb r 0 then raise ZeroDivisionError
                 else ret (1 / r)%float)
  /\ (direct = None -> inverse = None ->
        from_currency = "USD" \/ to_currency = "USD" ->
        answer = raise not_found)
  /\ (forall r1 r2, direct = None -> inverse = None ->
        from_anchor = Some r1 -> to_anchor = Some r2 ->
        from_currency <> "USD" /\ to_currency <> "USD"
        /\ answer = if PrimFloat.eqb r2 0 then raise ZeroDivisionError
                    else ret (r1 / r2)%float)
  /\ (direct = None -> inverse = None ->
        from_anchor = None \/ to_anchor = None ->
        answer = raise not_found).
Proof.
  intros Hne direct inverse from_anchor to_anchor answer not_found.
  subst direct inverse from_anchor to_anchor answer not_found.
  unfold _get_exchange_rate, rate_not_found, py_div.
  split; [|split; [|split; [|split]]].
  - intros r ->. reflexivity.
  - intros r -> ->. reflexivity.
  - intros Hd Hi Husd. rewrite Hd, Hi.
    destruct (String.eqb_spec from_currency "USD") as [-> | Hf].
    + rewrite Hi. now destruct (get rates (pair_key "USD" "USD")).
    + destruct Husd as [-> | ->]; [contradiction|].
      rewrite String.eqb_refl, Hd.
      now destruct (get rates (pair_key "USD" "USD")).
  - intros r1 r2 Hd Hi H1 H2. rewrite Hd, Hi.
    destruct (String.eqb_spec from_currency "USD") as [-> | Hf]; [congruence|].
    destruct (String.eqb_spec to_currency "USD") as [-> | Ht]; [congruence|].
    rewrite H1, H2. now repeat split.
  - intros Hd Hi Hnone. rewrite Hd, Hi.
    destruct (String.eqb_spec from_currency "USD") as [-> | Hf].
    + rewrite Hi. now destruct (get rates (pair_key "USD" "USD")).
    + destruct (String.eqb_spec to_currency "USD") as [-> | Ht].
      * rewrite Hd. now destruct (get rates (pair_key "USD" "USD")).
      * destruct Hnone as [-> | ->]; [reflexivity|].
        now destruct (get rates (pair_key from_currency "USD")).
Qed.

(** The triangulation example of the specification: [A_USD = 2],
    [B_USD = 4] resolve [A] to [B] at 0.5. *)
Lemma get_exchange_rate_order_witness :
  "AAA" <> "BBB"
  /\ _get_exchange_rate [("AAA_USD", 2%float); ("BBB_USD", 4%float)] "AAA" "BBB"
     = ret 0.5%float.
Proof.
  assert ("AAA" <> "BBB") as Hne by discriminate.
  split; [exact Hne|].
  exact (proj2 (proj2 (proj1 (proj2 (proj2 (proj2
           (get_exchange_rate_order
              [("AAA_USD", 2%float); ("BBB_USD", 4%float)] "AAA" "BBB" Hne))))
           2%float 4%float eq_refl eq_refl eq_refl eq_refl))).
Defined.

(** ** The rate aggregator *)

Lemma split_nonempty (sep : ascii) (s : string) : split sep s <> [].
Proof.
  destruct s as [|c s]; simpl; [discriminate|].
  destruct (Ascii.eqb c sep); [discriminate|].
  destruct (split sep s); discriminate.
Qed.

(** A key built as [f"{code}_{base}"], as both clients build theirs, is a
    pair key. *)
Lemma pair_key_well_formed (a b : string) : well_formed_pair (pair_key a b) = true.
Proof.
  unfold well_formed_pair, pair_key.
  induction a as [|x a IH]; simpl.
  - pose proof (split_nonempty "_" b). now destruct (split "_" b).
  - pose proof (split_nonempty "_" (a ++ String "_" b)) as Hne.
    simpl in IH. destruct (Ascii.eqb x "_").
    + now destruct (split "_" (a ++ String "_" b)).
    + destruct (split "_" (a ++ String "_" b)) as [|w [|w' ws]];
        [now elim Hne | discriminate IH | reflexivity].
Qed.

Lemma make_history_record_ok (client_name k : string) (rd : rate_data) :
  well_formed_pair k = true ->
  exists record, make_history_record client_name k rd = ret record.
Proof.
  unfold well_formed_pair, make_history_record, index. intros H.
  destruct (split "_" k) as [|a [|b l]]; simpl in H; try discriminate.
  simpl. eexists. reflexivity.
Qed.

Lemma merge_rates_contract (client_name : string) (d : list (string * rate_data)) :
  forallb well_formed_pair (keys d) = true ->
  forall rs, exists storage,
    merge_rates client_name d rs
    = (mkRunState (merge_dict (rs_pairs rs) d)
         (mkResults (success (rs_results rs))
            (updated_pairs (rs_results rs) ++ keys d)%list
            (errors (rs_results rs)) (timestamp (rs_results rs)))
         storage,
       None).
Proof.
  induction d as [|[k rd] d IH]; simpl; intros Hwf rs.
  - exists (rs_storage rs). rewrite app_nil_r. now destruct rs as [? [] ?].
  - apply andb_prop in Hwf. destruct Hwf as [Hk Hd].
    destruct (make_history_record_ok client_name k rd Hk) as [record ->].
    cbv beta iota delta [ret].
    match goal with |- context [merge_rates _ _ ?s] => destruct (IH Hd s) as [st ->] end.
    exists st. simpl. now rewrite <- app_assoc.
Qed.

Lemma poll_clients_contract (clients : list BaseApiClient) :
  forallb keeps_contract clients = true ->
  forall rs, exists storage,
    poll_clients clients rs
    = (mkRunState (merge_all (rs_pairs rs) clients)
         (mkResults
            (andb (success (rs_results rs)) (negb (existsb provider_failed clients)))
            (updated_pairs (rs_results rs) ++ fetched_pairs clients)%list
            (errors (rs_results rs) ++ provider_errors clients)%list
            (timestamp (rs_results rs)))
         storage,
       None).
Proof.
  induction clients as [|c clients IH]; simpl; intros Hc rs.
  - exists (rs_storage rs). rewrite !app_nil_r, andb_true_r. now destruct rs as [? [] ?].
  - apply andb_prop in Hc. destruct Hc as [Hc Hcs].
    unfold keeps_contract, provider_failed in *.
    destruct (fetch_rates c) as [e | d] eqn:Ef.
    + destruct e; try discriminate. simpl.
      match goal with |- context [poll_clients _ ?s] => destruct (IH Hcs s) as [st ->] end.
      exists st. simpl. now rewrite <- app_assoc, andb_false_r.
    + destruct (merge_rates_contract (class_name_of (class_of c)) d Hc rs) as [st0 E0].
      unfold items. rewrite E0.
      match goal with |- context [poll_clients _ ?s] => destruct (IH Hcs s) as [st ->] end.
      exists st. simpl. now rewrite <- app_assoc.
Qed.

Lemma merge_dict_keys (d acc : dict rate_data) (k : string) :
  In k (keys (merge_dict acc d)) <-> In k (keys acc) \/ In k (keys d).
Proof.
  unfold merge_dict. revert acc.
  induction d as [|[k' v'] d IH]; simpl; intros acc.
  - intuition.
  - rewrite IH, keys_set. simpl. intuition.
Qed.

Lemma merge_all_keys (clients : list BaseApiClient) (acc : dict rate_data) (k : string) :
  In k (keys (merge_all acc clients)) <-> In k (keys acc) \/ In k (fetched_pairs clients).
Proof.
  unfold merge_all. revert acc.
  induction clients as [|c clients IH]; simpl; intros acc.
  - intuition.
  - rewrite IH. destruct (fetch_rates c) as [e | d].
    + simpl. intuition.
    + rewrite merge_dict_keys, in_app_iff. intuition.
Qed.

Lemma provider_errors_length (clients : list BaseApiClient) :
  forallb keeps_contract clients = true ->
  List.length (provider_errors clients) = List.length (filter provider_failed clients).
Proof.
  induction clients as [|c clients IH]; simpl; intros H; [reflexivity|].
  apply andb_prop in H. destruct H as [Hc Hcs].
  unfold keeps_contract, provider_failed in *.
  destruct (fetch_rates c) as [e | d].
  - destruct e; try discriminate. simpl. now rewrite IH.
  - simpl. now apply IH.
Qed.

(** C5.  Over the providers of a run, in order: each provider failure
    ([ApiRequestError]) adds one message to the error list and the run goes
    on with the next provider; when all are processed the merged pairs are
    saved with the new [last_refresh], failures or not; the summary has
    [success = true] exactly when no provider failed, and [updated_pairs]
    lists the keys the providers returned: each of them is a key of the
    saved pairs, and the saved pairs have no other key than these and the
    keys the cache held before. *)
Theorem run_update_partial_failure
  (clients : list BaseApiClient) (storage : RatesStorage) (source : option string)
  (t_start t_end : string) :
  let providers := clients_to_use clients source in
  let merged := merge_all (current_pairs storage) providers in
  let summary :=
    mkResults (negb (existsb provider_failed providers)) (fetched_pairs providers)
      (provider_errors providers) t_start in
  forallb keeps_contract providers = true ->
  (exists history,
     run_update clients storage source t_start t_end
     = (mkStorage (Some (mkRatesDocument (Some merged) (Some (PyStr t_end)))) history,
        ret summary))
  /\ (success summary = true <-> forall c, In c providers -> provider_failed c = false)
  /\ List.length (errors summary) = List.length (filter provider_failed providers)
  /\ (forall k, In k (updated_pairs summary) -> contains merged k = true)
  /\ (forall k, contains merged k = true ->
        In k (keys (current_pairs storage)) \/ In k (updated_pairs summary)).
Proof.
  intros providers merged summary Hc. repeat split.
  - unfold run_update. fold providers.
    match goal with |- context [poll_clients _ ?s] =>
      destruct (poll_clients_contract providers Hc s) as [st ->] end.
    simpl. exists (history_file st). reflexivity.
  - simpl. intros Hs c Hin.
    destruct (provider_failed c) eqn:E; [|reflexivity].
    assert (existsb provider_failed providers = true) as Hex.
    { apply existsb_exists. now exists c. }
    rewrite Hex in Hs. discriminate.
  - simpl. intros Hall.
    destruct (existsb provider_failed providers) eqn:E; [|reflexivity].
    apply existsb_exists in E. destruct E as [c [Hin Hf]].
    rewrite (Hall c Hin) in Hf. discriminate.
  - simpl. now apply provider_errors_length.
  - simpl. intros k Hk. apply contains_keys. apply merge_all_keys. now right.
  - simpl. intros k Hk. apply contains_keys in Hk. now apply merge_all_keys in Hk.
Qed.

(** The example of the specification: the first provider returns
    [{X_USD: 10}], the second fails; the cache is empty before the run. *)
Lemma run_update_partial_failure_witness :
  let providers :=
    [ mkClient CoinGeckoClient
        (ret [("X_USD", mkRateData 10 "2024-01-01T00:00:00Z" "CoinGecko")]);
      mkClient ExchangeRateApiClient
        (raise (ApiRequestError "ExchangeRate-API key is not configured")) ] in
  forallb keeps_contract providers = true
  /\ exists history,
       run_update providers (mkStorage None None) None "t0" "t1"
       = (mkStorage
            (Some (mkRatesDocument
                     (Some [("X_USD", mkRateData 10 "2024-01-01T00:00:00Z" "CoinGecko")])
                     (Some (PyStr "t1"))))
            history,
          ret (mkResults false ["X_USD"]
                 [error_msg "ExchangeRateApiClient"
                    "ExchangeRate-API key is not configured"]
                 "t0")).
Proof.
  split; [reflexivity|].
  exact (proj1 (run_update_partial_failure
                  [ mkClient CoinGeckoClient
                      (ret [("X_USD", mkRateData 10 "2024-01-01T00:00:00Z" "CoinGecko")]);
                    mkClient ExchangeRateApiClient
                      (raise (ApiRequestError "ExchangeRate-API key is not configured")) ]
                  (mkStorage None None) None "t0" "t1" eq_refl)).
Defined.

(** C4, as stated, fails at this input: the source name [binance] selects
    no configured provider, and the run polls the CoinGecko client all the
    same and reports its pair. *)
Lemma run_update_unknown_source_runs_all :
  let providers :=
    [ mkClient CoinGeckoClient
        (ret [("BTC_USD", mkRateData 59337.21 "2024-01-01T00:00:00Z" "CoinGecko")]) ] in
  forallb (fun c => negb (source_selects "binance" c)) providers = true
  /\ clients_to_use providers (Some "binance") = providers
  /\ snd (run_update providers (mkStorage None None) (Some "binance") "t0" "t1")
     = ret (mkResults true ["BTC_USD"] [] "t0").
Proof. repeat split; reflexivity. Qed.

Lemma lower_nonempty (s : string) : lower s <> "" -> is_empty s = false.
Proof. destruct s; [intros H; now elim H | reflexivity]. Qed.

Lemma filter_none {A : Type} (f : A -> bool) (l : list A) :
  forallb (fun x => negb (f x)) l = true -> filter f l = [].
Proof.
  induction l as [|x l IH]; simpl; intros H; [reflexivity|].
  apply andb_prop in H. destruct H as [Hx Hl].
  destruct (f x); [discriminate | now apply IH].
Qed.

(** C4 (amended).  The filter knows two names, compared in lower case; the
    source name is taken in ASCII.  A source that is one of the two names,
    in any letter case, while no client of that class is configured gives
    the run an empty provider list: no pair is updated, the summary has
    [success = true] and no error, and the cache is saved with its pairs
    unchanged and the new [last_refresh].  A source that is neither of the
    two names does not filter: the run is the run over all the clients. *)
Theorem run_update_source_filter
  (clients : list BaseApiClient) (storage : RatesStorage) (source : string)
  (t_start t_end : string) :
  (lower source = "coingecko"
   /\ forallb (fun c => negb (is_coingecko c)) clients = true
   \/ lower source = "exchangerate"
      /\ forallb (fun c => negb (is_exchangerate c)) clients = true ->
   clients_to_use clients (Some source) = []
   /\ run_update clients storage (Some source) t_start t_end
      = (mkStorage
           (Some (mkRatesDocument (Some (current_pairs storage)) (Some (PyStr t_end))))
           (history_file storage),
         ret (mkResults true [] [] t_start)))
  /\ (ascii_only source = true ->
      lower source <> "coingecko" -> lower source <> "exchangerate" ->
      clients_to_use clients (Some source) = clients
      /\ run_update clients storage (Some source) t_start t_end
         = run_update clients storage None t_start t_end).
Proof.
  split.
  - intros H.
    assert (clients_to_use clients (Some source) = []) as E.
    { unfold clients_to_use.
      destruct H as [[Hs Hn] | [Hs Hn]]; rewrite Hs;
        (rewrite lower_nonempty; [|rewrite Hs; discriminate]); simpl;
        now apply filter_none. }
    split; [exact E|]. unfold run_update. rewrite E. reflexivity.
  - intros _ H1 H2.
    assert (clients_to_use clients (Some source) = clients) as E.
    { unfold clients_to_use. destruct (is_empty source); [reflexivity|].
      destruct (String.eqb_spec (lower source) "coingecko"); [contradiction|].
      destruct (String.eqb_spec (lower source) "exchangerate"); [contradiction|].
      reflexivity. }
    split; [exact E|]. unfold run_update. now rewrite E.
Qed.

(** Only the fiat client is configured and the run asks for CoinGecko. *)
Lemma run_update_source_filter_witness :
  let clients :=
    [ mkClient ExchangeRateApiClient
        (ret [("EUR_USD", mkRateData 1.0786 "2024-01-01T00:00:00Z" "ExchangeRate-API")]) ] in
  (lower "CoinGecko" = "coingecko"
   /\ forallb (fun c => negb (is_coingecko c)) clients = true)
  /\ snd (run_update clients (mkStorage None None) (Some "CoinGecko") "t0" "t1")
     = ret (mkResults true [] [] "t0").
Proof.
  split; [split; reflexivity|].
  exact (f_equal snd
           (proj2 (proj1 (run_update_source_filter
              [ mkClient ExchangeRateApiClient
                  (ret [("EUR_USD",
                         mkRateData 1.0786 "2024-01-01T00:00:00Z" "ExchangeRate-API")]) ]
              (mkStorage None None) "CoinGecko" "t0" "t1")
              (or_introl (conj eq_refl eq_refl))))).
Defined.

(** ** Signs of IEEE-754 sums and differences

    The sign of a sum or difference is read on the specification of the
    primitive floats ([SpecFloat]). *)

Lemma Prim2SF_zero : Prim2SF 0 = sf_zero.
Proof. reflexivity. Qed.

Lemma SFltb_zero (x : spec_float) : SFltb x sf_zero = negb (sf_nonneg x).
Proof. destruct x as [s|s| |s m e]; try destruct s; reflexivity. Qed.

Lemma ltb_zero (x : float) : (x <? 0)%float = negb (sf_nonneg (Prim2SF x)).
Proof. now rewrite ltb_spec, Prim2SF_zero, SFltb_zero. Qed.

Lemma binary_round_aux_nonneg (mx ex : Z) (lx : location) :
  sf_nonneg (binary_round_aux prec emax false mx ex lx) = true.
Proof.
  unfold binary_round_aux.
  destruct (shr_fexp prec emax mx ex lx) as [mrs' e'].
  destruct (shr_fexp prec emax _ e' loc_Exact) as [mrs'' e''].
  destruct (shr_m mrs''); [reflexivity | | reflexivity].
  destruct (Z.leb e'' (emax - prec)); reflexivity.
Qed.

Lemma binary_normalize_nonneg (m e : Z) :
  (0 <= m)%Z -> sf_nonneg (binary_normalize prec emax m e false) = true.
Proof.
  intros Hm. destruct m as [|p|p]; simpl.
  - reflexivity.
  - unfold binary_round. destruct (shl_align _ _ _). apply binary_round_aux_nonneg.
  - lia.
Qed.

(** What passes [amount <= 0]: NaN, plus infinity, a positive finite number. *)
Lemma SFleb_zero_false (y : spec_float) :
  SFleb y sf_zero = false ->
  y = S754_nan \/ y = S754_infinity false \/ exists m e, y = S754_finite false m e.
Proof.
  destruct y as [s|s| |s m e]; try destruct s; simpl; try discriminate; eauto.
Qed.

Lemma SFadd_nonneg (x y : spec_float) :
  sf_nonneg x = true -> SFleb y sf_zero = false ->
  sf_nonneg (SFadd prec emax x y) = true.
Proof.
  intros Hx Hy. apply SFleb_zero_false in Hy.
  destruct Hy as [-> | [-> | [m [e ->]]]].
  - destruct x; reflexivity.
  - destruct x as [s|s| |s mx ex]; try destruct s; try discriminate; reflexivity.
  - destruct x as [s|s| |s mx ex]; try destruct s; try discriminate; try reflexivity.
    unfold SFadd. apply binary_normalize_nonneg. simpl. lia.
Qed.

Lemma iter_xO (m d : positive) : Zpos (Pos.iter xO m d) = (Zpos m * 2 ^ Zpos d)%Z.
Proof.
  induction d as [|d IH] using Pos.peano_ind.
  - simpl. lia.
  - rewrite Pos.iter_succ, Pos2Z.inj_succ.
    rewrite Z.pow_succ_r by apply Pos2Z.is_nonneg.
    rewrite Pos2Z.inj_xO, IH. ring.
Qed.

Lemma shl_align_fst (m : positive) (e e' : Z) :
  (e' <= e)%Z -> Zpos (fst (shl_align m e e')) = (Zpos m * 2 ^ (e - e'))%Z.
Proof.
  intros H. unfold shl_align. destruct (e' - e)%Z as [|d|d] eqn:E.
  - assert (e - e' = 0)%Z as -> by lia. simpl. lia.
  - lia.
  - cbn [fst]. rewrite iter_xO.
    assert (e - e' = Zpos d)%Z as ->; [|reflexivity].
    pose proof (Pos2Z.opp_neg d). lia.
Qed.

Lemma digits2_pos_bounds (m : positive) :
  (2 ^ (Zpos (digits2_pos m) - 1) <= Zpos m < 2 ^ Zpos (digits2_pos m))%Z.
Proof.
  induction m as [m IH | m IH |]; simpl digits2_pos.
  - rewrite Pos2Z.inj_succ.
    replace (Z.succ (Zpos (digits2_pos m)) - 1)%Z with (Z.succ (Zpos (digits2_pos m) - 1))%Z by lia.
    rewrite !Z.pow_succ_r by lia. lia.
  - rewrite Pos2Z.inj_succ.
    replace (Z.succ (Zpos (digits2_pos m)) - 1)%Z with (Z.succ (Zpos (digits2_pos m) - 1))%Z by lia.
    rewrite !Z.pow_succ_r by lia. lia.
  - simpl. lia.
Qed.

Lemma bounded_digits (m : positive) (e : Z) :
  bounded prec emax m e = true ->
  (Zpos (digits2_pos m) <= 53 /\ -1074 <= e
   /\ (-1074 < e -> Zpos (digits2_pos m) = 53))%Z.
Proof.
  unfold bounded, canonical_mantissa, fexp, emin, prec, emax.
  intros H. apply andb_prop in H. destruct H as [H _].
  apply Z.eqb_eq in H. lia.
Qed.

(** On valid positive finite floats, a larger exponent is a larger value. *)
Lemma finite_exponent_order (mx my : positive) (ex ey : Z) :
  bounded prec emax mx ex = true -> bounded prec emax my ey = true ->
  (ey < ex)%Z -> (Zpos my < Zpos mx * 2 ^ (ex - ey))%Z.
Proof.
  intros Hx Hy Hlt.
  apply bounded_digits in Hx. apply bounded_digits in Hy.
  destruct Hx as (_ & _ & Hdx). destruct Hy as (Hdy & Hey & _).
  pose proof (digits2_pos_bounds mx) as [Hmx _].
  pose proof (digits2_pos_bounds my) as [_ Hmy].
  rewrite Hdx in Hmx by lia.
  assert (2 ^ Zpos (digits2_pos my) <= 2 ^ 53)%Z as Hp
    by (apply Z.pow_le_mono_r; lia).
  assert (2 ^ 1 <= 2 ^ (ex - ey))%Z as Hq by (apply Z.pow_le_mono_r; lia).
  change (2 ^ 53)%Z with (2 ^ (53 - 1) * 2 ^ 1)%Z in Hp.
  assert (2 ^ (53 - 1) * 2 ^ 1 <= Zpos mx * 2 ^ (ex - ey))%Z
    by (apply Z.mul_le_mono_nonneg; lia).
  lia.
Qed.

Lemma SFsub_nonneg (x y : spec_float) :
  valid_binary x = true -> valid_binary y = true ->
  SFltb x y = false -> SFleb y sf_zero = false ->
  sf_nonneg (SFsub prec emax x y) = true.
Proof.
  intros Vx Vy Hlt Hy. apply SFleb_zero_false in Hy.
  destruct Hy as [-> | [-> | [my [ey ->]]]].
  - destruct x; reflexivity.
  - destruct x as [s|s| |s mx ex]; try destruct s; try discriminate; reflexivity.
  - destruct x as [s|s| |s mx ex]; try destruct s; try discriminate; try reflexivity.
    unfold SFsub. apply binary_normalize_nonneg. cbn [cond_Zopp].
    simpl in Vx, Vy. unfold SFltb, SFcompare in Hlt.
    destruct (Z.compare_spec ex ey) as [-> | Hlt' | Hgt]; [| discriminate |].
    + rewrite Z.min_id, !shl_align_fst, Z.sub_diag by lia.
      destruct (Pos.compare_cont Eq mx my) eqn:C; try discriminate.
      * apply Pos.compare_eq in C. subst. lia.
      * change (Pos.compare mx my = Gt) in C. apply Pos.compare_gt_iff in C. lia.
    + rewrite Z.min_r, !shl_align_fst, Z.sub_diag by lia.
      pose proof (finite_exponent_order mx my ex ey Vx Vy Hgt). lia.
Qed.

Lemma SFltb_irrefl (x : spec_float) : SFltb x x = false.
Proof.
  destruct x as [s|s| |s m e]; try destruct s; try reflexivity;
    unfold SFltb, SFcompare; rewrite Z.compare_refl;
    change (Pos.compare_cont Eq m m) with (Pos.compare m m);
    now rewrite Pos.compare_refl.
Qed.

Lemma SFltb_zero_pos (x : spec_float) :
  SFltb sf_zero x = true -> SFleb x sf_zero = false.
Proof. destruct x as [s|s| |s m e]; try destruct s; cbv; congruence. Qed.

(** ** The same on primitive floats *)

Lemma positive_passes (f : float) : (0 <? f)%float = true -> (f <=? 0)%float = false.
Proof. rewrite ltb_spec, leb_spec, Prim2SF_zero. apply SFltb_zero_pos. Qed.

Lemma ltb_irrefl (f : float) : (f <? f)%float = false.
Proof. rewrite ltb_spec. apply SFltb_irrefl. Qed.

Lemma add_not_negative (b a : float) :
  (b <? 0)%float = false -> (a <=? 0)%float = false -> (b + a <? 0)%float = false.
Proof.
  rewrite !ltb_zero, leb_spec, Prim2SF_zero, add_spec.
  intros Hb Ha. apply negb_false_iff in Hb. apply negb_false_iff.
  now apply SFadd_nonneg.
Qed.

Lemma sub_not_negative (b a : float) :
  (b <? a)%float = false -> (a <=? 0)%float = false -> (b - a <? 0)%float = false.
Proof.
  rewrite ltb_zero, ltb_spec, leb_spec, Prim2SF_zero, sub_spec.
  intros Hb Ha. apply negb_false_iff.
  apply SFsub_nonneg; auto using Prim2SF_valid.
Qed.

(** ** The ledger: deposit and withdraw *)

Lemma deposit_accepts (w : Wallet) (f : float) :
  (f <=? 0)%float = false ->
  deposit w (PyFloat f) = ret (with_balance w (_balance w + f)%float).
Proof. intros H. unfold deposit, _validate_amount. now rewrite H. Qed.

Lemma withdraw_accepts (w : Wallet) (f : float) :
  (f <=? 0)%float = false ->
  withdraw w (PyFloat f)
  = if (_balance w <? f)%float
    then raise (InsufficientFundsError (currency_code w) (_balance w) f)
    else ret (with_balance w (_balance w - f)%float).
Proof.
  intros H. unfold withdraw, _validate_amount. rewrite H. simpl.
  now destruct (_balance w <? f)%float.
Qed.

(** C8, as stated, fails at these inputs: plus infinity and NaN are not
    positive finite numbers, and [deposit] accepts both. *)
Lemma deposit_accepts_infinity_and_nan :
  positive_finite (PyFloat infinity) = false
  /\ deposit (mkWallet "USD" 1) (PyFloat infinity) = ret (mkWallet "USD" infinity)
  /\ positive_finite (PyFloat nan) = false
  /\ deposit (mkWallet "USD" 1) (PyFloat nan) = ret (mkWallet "USD" nan).
Proof. repeat split; reflexivity. Qed.

(** C8 (amended).  On a string or [None], [deposit] and [withdraw] fail
    with [TypeError].  On a float amount they fail with [ValueError] exactly
    when [amount <= 0].  Every other float is accepted, which is every
    positive float, plus infinity among them, and NaN, which no comparison
    rejects (no finiteness test is made): [deposit] adds it to the balance;
    [withdraw] fails with [InsufficientFundsError(currency, balance, amount)]
    exactly when [balance < amount], and otherwise subtracts it.
    Withdrawing exactly a positive balance succeeds. *)
Theorem deposit_withdraw_validation (w : Wallet) (f : float) :
  (forall v, is_number v = false ->
     deposit w v = raise (TypeError "Сумма должна быть числом")
     /\ withdraw w v = raise (TypeError "Сумма должна быть числом"))
  /\ ((f <=? 0)%float = true ->
      deposit w (PyFloat f) = raise (ValueError "Сумма должна быть положительной")
      /\ withdraw w (PyFloat f) = raise (ValueError "Сумма должна быть положительной"))
  /\ ((f <=? 0)%float = false ->
      deposit w (PyFloat f) = ret (mkWallet (currency_code w) (_balance w + f)%float)
      /\ (withdraw w (PyFloat f)
          = raise (InsufficientFundsError (currency_code w) (_balance w) f)
          <-> (_balance w <? f)%float = true)
      /\ ((_balance w <? f)%float = false ->
          withdraw w (PyFloat f)
          = ret (mkWallet (currency_code w) (_balance w - f)%float)))
  /\ ((0 <? f)%float = true -> (f <=? 0)%float = false)
  /\ ((0 <? _balance w)%float = true ->
      withdraw w (PyFloat (_balance w))
      = ret (mkWallet (currency_code w) (_balance w - _balance w)%float)).
Proof.
  split; [|split; [|split; [|split]]].
  - intros v Hv. destruct v; [discriminate | split; reflexivity | split; reflexivity].
  - intros H. unfold deposit, withdraw, _validate_amount. rewrite H. now split.
  - intros H. split; [now apply deposit_accepts|].
    rewrite (withdraw_accepts w f H). split.
    + destruct (_balance w <? f)%float; [split; reflexivity | split; discriminate].
    + intros Hlt. now rewrite Hlt.
  - apply positive_passes.
  - intros Hpos. rewrite withdraw_accepts by now apply positive_passes.
    now rewrite ltb_irrefl.
Qed.

(** The end-to-end example of the specification: 0.5 BTC held, 0.6 asked. *)
Lemma deposit_withdraw_validation_witness :
  (0.6 <=? 0)%float = false
  /\ withdraw (mkWallet "BTC" 0.5) (PyFloat 0.6)
     = raise (InsufficientFundsError "BTC" 0.5 0.6).
Proof.
  split; [reflexivity|].
  apply (proj1 (proj2 (proj2 (deposit_withdraw_validation (mkWallet "BTC" 0.5) 0.6)))
           eq_refl).
  reflexivity.
Defined.

(** ** The ledger: the balance over a sequence of operations *)

Lemma apply_operation_balance (w w' : Wallet) (op : operation) :
  not_negative (_balance w) ->
  apply_operation w op = ret w' ->
  not_negative (_balance w')
  /\ _balance w' = accumulate (_balance w) [op]
  /\ currency_code w' = currency_code w.
Proof.
  unfold not_negative. intros Hb.
  destruct op as [[a| |] | [a| |]]; simpl; try discriminate.
  - unfold deposit, _validate_amount.
    destruct (a <=? 0)%float eqn:Ha; [discriminate|]. simpl.
    intros [= <-]. simpl. repeat split. now apply add_not_negative.
  - unfold withdraw, _validate_amount.
    destruct (a <=? 0)%float eqn:Ha; [discriminate|]. simpl.
    destruct (_balance w <? a)%float eqn:Hlt; [discriminate|]. simpl.
    intros [= <-]. simpl. repeat split. now apply sub_not_negative.
Qed.

Lemma accumulate_app (b : float) (pre post : list operation) :
  accumulate b (pre ++ post) = accumulate (accumulate b pre) post.
Proof.
  revert b. induction pre as [|[[a| |] | [a| |]] pre IH]; simpl; intros b;
    try reflexivity; apply IH.
Qed.

Lemma run_operations_balance (ops : list operation) :
  forall w w',
    not_negative (_balance w) ->
    run_operations w ops = ret w' ->
    not_negative (_balance w')
    /\ _balance w' = accumulate (_balance w) ops
    /\ currency_code w' = currency_code w.
Proof.
  induction ops as [|op ops IH]; simpl; intros w w' Hb.
  - intros [= <-]. now repeat split.
  - destruct (apply_operation w op) as [e | w1] eqn:E; [discriminate|]. simpl.
    intros Hrun.
    destruct (apply_operation_balance w w1 op Hb E) as (H1 & H2 & H3).
    destruct (IH w1 w' H1 Hrun) as (H4 & H5 & H6).
    repeat split; [assumption | | congruence].
    rewrite H5, H2. now rewrite <- (accumulate_app (_balance w) [op] ops).
Qed.

Lemma run_operations_prefix (pre post : list operation) :
  forall w w',
    run_operations w (pre ++ post) = ret w' ->
    exists wm, run_operations w pre = ret wm /\ run_operations wm post = ret w'.
Proof.
  induction pre as [|op pre IH]; simpl; intros w w' H.
  - now exists w.
  - destruct (apply_operation w op) as [e | w1]; [discriminate|]. simpl in *.
    now apply IH.
Qed.

(** C9, as stated, fails at this input.  Four operations succeed from the
    balance 0: deposit 1, deposit 1e16, withdraw 1e16, deposit 1.  The
    balance is then 1; the sum of the deposits minus the sum of the
    withdrawals is 0 when the sums are Python's, and 2 when they are exact. *)
Lemma balance_is_not_the_sum :
  let ops := [ Deposit (PyFloat 1); Deposit (PyFloat 1e16);
               Withdraw (PyFloat 1e16); Deposit (PyFloat 1) ] in
  run_operations (mkWallet "USD" 0) ops = ret (mkWallet "USD" 1)
  /\ (float_sum (deposited ops) - float_sum (withdrawn ops))%float = 0%float
  /\ (1 =? 0)%float = false
  /\ exists b d w, exact 1 = Some b
       /\ exact_sum (deposited ops) = Some d
       /\ exact_sum (withdrawn ops) = Some w
       /\ Qeq_bool b (Qminus d w) = false
       /\ Qeq_bool (Qminus d w) 2 = true.
Proof.
  repeat split; try reflexivity.
  eexists _, _, _. repeat split; vm_compute; reflexivity.
Qed.

Lemma set_balance_rejects_negative (w : Wallet) (f : float) :
  (f <? 0)%float = true -> set_balance w (PyFloat f) = raise negative_balance_error.
Proof. intros H. unfold set_balance. now rewrite H. Qed.

Lemma load_user_portfolio_stored_wallet_raises (registry : dict Currency)
  (db : portfolios_file) (u : Z) (pd : portfolio_data) (c : string) (wd : wallet_data) :
  db_get_portfolio db u = Some pd ->
  get (pd_wallets pd) c = Some wd ->
  raises (load_user_portfolio registry db u).
Proof.
  intros Hpd Hc. unfold load_user_portfolio, items. rewrite Hpd.
  destruct (pd_wallets pd) as [|item rest]; [discriminate|].
  destruct (load_wallets_raises registry (Portfolio_init u) item rest) as [msg E].
  exists (ValueError msg). exact E.
Qed.

(** C9 (amended).  From a wallet with balance 0, after every sequence of
    successful deposits and withdrawals, and after every prefix of it, the
    balance is the left-to-right binary64 accumulation of the deposits added
    and the withdrawals subtracted (the exact sum up to rounding) and is
    never negative.  The balance setter used on load rejects every negative
    value, and loading a persisted portfolio with a wallet of negative
    balance raises. *)
Theorem balance_never_negative (registry : dict Currency) (w w' : Wallet)
  (ops : list operation) :
  _balance w = 0%float ->
  run_operations w ops = ret w' ->
  (forall pre post, ops = (pre ++ post)%list ->
     exists wm,
       run_operations w pre = ret wm
       /\ (_balance wm <? 0)%float = false
       /\ _balance wm = accumulate 0 pre)
  /\ (forall x f, (f <? 0)%float = true ->
        set_balance x (PyFloat f) = raise negative_balance_error)
  /\ (forall db u pd c f,
        db_get_portfolio db u = Some pd ->
        get (pd_wallets pd) c = Some (mkWalletData (Some (PyFloat f))) ->
        (f <? 0)%float = true ->
        raises (load_user_portfolio registry db u)).
Proof.
  intros Hzero Hrun. repeat split.
  - intros pre post ->.
    destruct (run_operations_prefix pre post w w' Hrun) as [wm [Hpre _]].
    exists wm. split; [exact Hpre|].
    assert (not_negative (_balance w)) as H0 by (rewrite Hzero; reflexivity).
    destruct (run_operations_balance pre w wm H0 Hpre) as (H1 & H2 & _).
    split; [exact H1 | now rewrite H2, Hzero].
  - intros x f. apply set_balance_rejects_negative.
  - intros db u pd c f Hpd Hc _.
    eapply load_user_portfolio_stored_wallet_raises; eassumption.
Qed.

(** Buying 0.5 and 0.25, then selling 0.75: the balance is back at 0. *)
Lemma balance_never_negative_witness :
  let ops := [Deposit (PyFloat 0.5); Deposit (PyFloat 0.25); Withdraw (PyFloat 0.75)] in
  run_operations (mkWallet "BTC" 0) ops = ret (mkWallet "BTC" 0)
  /\ exists wm,
       run_operations (mkWallet "BTC" 0) ops = ret wm
       /\ (_balance wm <? 0)%float = false
       /\ _balance wm = accumulate 0 ops.
Proof.
  split; [reflexivity|].
  exact (proj1 (balance_never_negative _CURRENCY_REGISTRY
                  (mkWallet "BTC" 0) (mkWallet "BTC" 0)
                  [Deposit (PyFloat 0.5); Deposit (PyFloat 0.25); Withdraw (PyFloat 0.75)]
                  eq_refl eq_refl)
           [Deposit (PyFloat 0.5); Deposit (PyFloat 0.25); Withdraw (PyFloat 0.75)]
           [] eq_refl).
Defined.

(** ** Portfolio valuation *)

Lemma get_exchange_rate_outcome (rates : dict float) (a b : string) :
  rates_nonzero rates ->
  (exists r, _get_exchange_rate rates a b = ret r)
  \/ _get_exchange_rate rates a b = raise (rate_not_found a b).
Proof.
  intros Hnz. unfold _get_exchange_rate.
  destruct (get rates (pair_key a b)) as [r|] eqn:E1; [left; now exists r|].
  destruct (get rates (pair_key b a)) as [r|] eqn:E2.
  { left. rewrite py_div_nonzero by eauto. eauto. }
  destruct (String.eqb a "USD").
  { destruct (get rates (pair_key b "USD")) as [r|] eqn:E3.
    - left. rewrite py_div_nonzero by eauto. eauto.
    - right. now destruct (get rates (pair_key a "USD")). }
  destruct (String.eqb b "USD").
  { destruct (get rates (pair_key a "USD")) as [r|] eqn:E3.
    - left. eauto.
    - right. reflexivity. }
  destruct (get rates (pair_key a "USD")) as [r1|] eqn:E3; [|now right].
  destruct (get rates (pair_key b "USD")) as [r2|] eqn:E4; [|now right].
  left. rewrite py_div_nonzero by eauto. eauto.
Qed.

Lemma wallet_info_of_describes (rates : dict float) (base : string)
  (item : string * Wallet) (info : wallet_info) :
  wallet_info_of rates base item = ret info -> describes rates base item info.
Proof.
  destruct item as [c w]. unfold wallet_info_of, describes. simpl.
  destruct (_get_exchange_rate rates c base) as [e | r].
  - destruct e; try discriminate. intros [= <-]. now repeat split.
  - intros [= <-]. now repeat split.
Qed.

Lemma wallet_info_of_returns (rates : dict float) (base : string)
  (item : string * Wallet) :
  rates_nonzero rates -> exists info, wallet_info_of rates base item = ret info.
Proof.
  intros Hnz. destruct item as [c w]. unfold wallet_info_of.
  destruct (get_exchange_rate_outcome rates c base Hnz) as [[r ->] | ->];
    eexists; reflexivity.
Qed.

Lemma wallets_info_loop_describes (rates : dict float) (base : string)
  (items : list (string * Wallet)) :
  forall acc infos,
    wallets_info_loop rates base items acc = ret infos ->
    exists new, infos = (acc ++ new)%list /\ Forall2 (describes rates base) items new.
Proof.
  induction items as [|item items IH]; simpl; intros acc infos H.
  - unfold ret in H. injection H as <-. exists []. rewrite app_nil_r. split; [reflexivity | constructor].
  - destruct (wallet_info_of rates base item) as [e | info] eqn:E; [discriminate|].
    simpl in H. destruct (IH _ _ H) as [new [-> Hnew]].
    exists (info :: new). rewrite <- app_assoc. split; [reflexivity|].
    constructor; [now apply wallet_info_of_describes | exact Hnew].
Qed.

Lemma wallets_info_loop_returns (rates : dict float) (base : string)
  (items : list (string * Wallet)) :
  rates_nonzero rates ->
  forall acc, exists infos, wallets_info_loop rates base items acc = ret infos.
Proof.
  intros Hnz. induction items as [|item items IH]; simpl; intros acc.
  - now exists acc.
  - destruct (wallet_info_of_returns rates base item Hnz) as [info ->]. simpl.
    apply IH.
Qed.

Lemma total_value_loop_snoc (rates : dict float) (base : string)
  (wallets : list Wallet) (w : Wallet) :
  forall t,
    total_value_loop rates base (wallets ++ [w]) t
    = (t' <- total_value_loop rates base wallets t ;; total_value_step rates base t' w).
Proof.
  induction wallets as [|w0 wallets IH]; simpl; intros t.
  - now destruct (total_value_step rates base t w).
  - destruct (total_value_step rates base t w0) as [e | t0]; simpl; [reflexivity|].
    apply IH.
Qed.

(** C6, as stated, fails at these inputs.  With [BTC_USD] and [EUR_USD]
    cached, a BTC wallet valued in EUR is priced by the resolver (double
    triangulation) and adds nothing to the total, which is not the sum of the
    converted balances.  And a USD wallet valued in USD has no resolvable
    rate, is listed without a rate, and adds its balance to the total. *)
Lemma total_value_is_not_resolver_sum :
  let rates := [("BTC_USD", 2%float); ("EUR_USD", 4%float)] in
  let p := mkPortfolio 1 [("BTC", mkWallet "BTC" 2)] in
  let q := mkPortfolio 1 [("USD", mkWallet "USD" 5)] in
  _get_exchange_rate rates "BTC" "EUR" = ret 0.5%float
  /\ value_by_resolver p rates "EUR" = ret 1%float
  /\ get_total_value p rates "EUR" = ret 0%float
  /\ portfolio_info rates p "EUR"
     = ret (mkReport 1 [mkWalletInfo "BTC" 2 (Some 0.5%float) (Some 1%float)] 0 "EUR")
  /\ _get_exchange_rate initial_rates "USD" "USD" = raise (rate_not_found "USD" "USD")
  /\ portfolio_info initial_rates q "USD"
     = ret (mkReport 1 [mkWalletInfo "USD" 5 None None] 5 "USD").
Proof. repeat split; reflexivity. Qed.

(** C6 (amended).  [get_total_value] sums in wallet order with its own
    lookup, not with the resolver: a wallet held in the anchor adds its
    balance, a wallet whose pair [cur_anchor] is cached adds balance times
    rate, a wallet whose inverse pair [anchor_cur] is cached adds balance
    divided by rate, and any other wallet leaves the total unchanged.  The
    breakdown of [get_portfolio] has one entry per wallet, in order: the
    resolver's rate and the value when the rate resolves, no rate and no
    value (unpriced) when it does not; with no zero rate cached it is always
    produced. *)
Theorem portfolio_valuation (rates : dict float) (base : string) (p : Portfolio) :
  get_total_value p rates base
  = total_value_loop rates (upper base) (values (_wallets p)) 0%float
  /\ (forall wallets w t,
        total_value_loop rates (upper base) (wallets ++ [w]) t
        = (t' <- total_value_loop rates (upper base) wallets t ;;
           total_value_step rates (upper base) t' w))
  /\ (forall w t,
        let direct := get rates (pair_key (currency_code w) (upper base)) in
        let inverse := get rates (pair_key (upper base) (currency_code w)) in
        let step := total_value_step rates (upper base) t w in
        (currency_code w = upper base -> step = ret (t + _balance w)%float)
        /\ (forall r, currency_code w <> upper base -> direct = Some r ->
              step = ret (t + _balance w * r)%float)
        /\ (forall r, currency_code w <> upper base -> direct = None ->
              inverse = Some r ->
              step = (q <- py_div (_balance w) r ;; ret (t + q)%float))
        /\ (currency_code w <> upper base -> direct = None -> inverse = None ->
              step = ret t))
  /\ (forall infos,
        wallets_info_loop rates base (items (_wallets p)) [] = ret infos ->
        Forall2 (describes rates base) (items (_wallets p)) infos)
  /\ (rates_nonzero rates ->
      exists infos, wallets_info_loop rates base (items (_wallets p)) [] = ret infos).
Proof.
  split; [reflexivity|]. split; [intros; apply total_value_loop_snoc|].
  split; [|split].
  - intros w t direct inverse step. subst direct inverse step.
    unfold total_value_step. repeat split.
    + intros ->. now rewrite String.eqb_refl.
    + intros r Hne ->. now destruct (String.eqb_spec (currency_code w) (upper base)).
    + intros r Hne -> ->. now destruct (String.eqb_spec (currency_code w) (upper base)).
    + intros Hne -> ->. now destruct (String.eqb_spec (currency_code w) (upper base)).
  - intros infos H. apply wallets_info_loop_describes in H.
    destruct H as [new [-> H]]. exact H.
  - intros Hnz. now apply wallets_info_loop_returns.
Qed.

(** A BTC and a DOGE wallet valued in USD on the shipped cache: BTC is
    priced, DOGE is listed unpriced. *)
Lemma portfolio_valuation_witness :
  let p := mkPortfolio 1 [("BTC", mkWallet "BTC" 0.5); ("DOGE", mkWallet "DOGE" 100)] in
  rates_nonzero initial_rates
  /\ get_total_value p initial_rates "USD" = ret (0 + 0.5 * 59337.21)%float
  /\ exists infos,
       wallets_info_loop initial_rates "USD" (items (_wallets p)) [] = ret infos.
Proof.
  assert (rates_nonzero initial_rates) as Hnz.
  { intros k r. unfold initial_rates. cbn [get].
    repeat (destruct (String.eqb _ k); [intros [= <-]; reflexivity|]).
    discriminate. }
  split; [exact Hnz|]. split; [reflexivity|].
  exact (proj2 (proj2 (proj2 (proj2
           (portfolio_valuation initial_rates "USD"
              (mkPortfolio 1 [("BTC", mkWallet "BTC" 0.5);
                              ("DOGE", mkWallet "DOGE" 100)]))))) Hnz).
Defined.

(** ** Freshness of the cache *)

Section FreshnessFacts.

Variable parse_isoformat : string -> option datetime.
Variables (ttl_seconds now : Z).

Lemma are_rates_fresh_missing (p : option (dict rate_data)) :
  are_rates_fresh parse_isoformat None ttl_seconds now = ret false
  /\ are_rates_fresh parse_isoformat (Some (mkRatesDocument p None)) ttl_seconds now
     = ret false.
Proof. split; reflexivity. Qed.

(** A stored string that parses to a naive datetime: fresh when younger
    than the TTL. *)
Lemma are_rates_fresh_naive (p : option (dict rate_data)) (s : string) (t : Z) :
  parse_isoformat s = Some (mkDatetime t None) ->
  are_rates_fresh parse_isoformat (Some (mkRatesDocument p (Some (PyStr s))))
    ttl_seconds now
  = ret (Z.ltb (now - t) (ttl_seconds * 1000000)).
Proof. intros H. unfold are_rates_fresh, fromisoformat. simpl. now rewrite H. Qed.

(** A stored string that does not parse: stale, no exception. *)
Lemma are_rates_fresh_unparsable (p : option (dict rate_data)) (s : string) :
  parse_isoformat s = None ->
  are_rates_fresh parse_isoformat (Some (mkRatesDocument p (Some (PyStr s))))
    ttl_seconds now
  = ret false.
Proof. intros H. unfold are_rates_fresh, fromisoformat. simpl. now rewrite H. Qed.

(** A stored string with a UTC offset parses, and the subtraction from the
    naive [datetime.now()] raises [TypeError], which is not caught. *)
Lemma are_rates_fresh_aware (p : option (dict rate_data)) (s : string) (t off : Z) :
  parse_isoformat s = Some (mkDatetime t (Some off)) ->
  are_rates_fresh parse_isoformat (Some (mkRatesDocument p (Some (PyStr s))))
    ttl_seconds now
  = raise (TypeError "can't subtract offset-naive and offset-aware datetimes").
Proof. intros H. unfold are_rates_fresh, fromisoformat. simpl. now rewrite H. Qed.

End FreshnessFacts.

(** C7 (the code departs from the claim).  A stored [last_refresh] that
    cannot be parsed should make the cache stale without an exception.  The
    code catches [ValueError] only: for a stored value that is not a string
    (JSON [null], a number), [datetime.fromisoformat] raises [TypeError] and
    [are_rates_fresh] raises with it, whatever the parser, the TTL and the
    clock. *)
Theorem are_rates_fresh_non_string_raises
  (parse_isoformat : string -> option datetime) (p : option (dict rate_data))
  (ttl_seconds now : Z) :
  are_rates_fresh parse_isoformat (Some (mkRatesDocument p (Some PyNone)))
    ttl_seconds now
  = raise (TypeError "fromisoformat: argument must be str")
  /\ are_rates_fresh parse_isoformat
       (Some (mkRatesDocument p (Some (PyFloat 1700000000)))) ttl_seconds now
     = raise (TypeError "fromisoformat: argument must be str").
Proof. split; reflexivity. Qed.

(** Fresh right after a refresh, stale once the TTL has passed. *)
Example are_rates_fresh_ttl :
  let parse := fun _ : string => Some (mkDatetime 1000000000 None) in
  let doc := Some (mkRatesDocument None (Some (PyStr "2024-01-01T00:00:00"))) in
  are_rates_fresh parse doc RATES_TTL_SECONDS 1000000001 = ret true
  /\ are_rates_fresh parse doc RATES_TTL_SECONDS 1300000000 = ret false.
Proof. split; reflexivity. Qed.

(** * Further properties of the code *)

Local Open Scope nat_scope.

(** ** The rate history *)

Lemma skipn_suffix {A : Type} (n : nat) (l : list A) (x : A) :
  n <= List.length l -> exists pre, skipn n (l ++ [x]) = (pre ++ [x])%list.
Proof.
  intros H. exists (skipn n l). rewrite skipn_app.
  replace (n - List.length l) with 0 by lia. reflexivity.
Qed.

(** X1.  [append_to_history] keeps the most recent records: the history
    after it is the old history followed by the new record, cut from the
    front to [MAX_HISTORY_SIZE]; the new record is always the last one, the
    length never exceeds the bound, and the rate cache is not touched. *)
Theorem append_to_history_bound (self : RatesStorage) (record : history_record) :
  let before := load_history self in
  let after := load_history (append_to_history self record) in
  after = skipn (List.length before + 1 - MAX_HISTORY_SIZE) (before ++ [record])%list
  /\ List.length after = Nat.min (List.length before + 1) MAX_HISTORY_SIZE
  /\ (exists older, after = (older ++ [record])%list)
  /\ rates_file (append_to_history self record) = rates_file self.
Proof.
  intros before after. subst after. unfold append_to_history. fold before.
  cbn [load_history history_file rates_file].
  assert (0 < MAX_HISTORY_SIZE) as Hpos by (unfold MAX_HISTORY_SIZE; lia).
  generalize dependent MAX_HISTORY_SIZE. intros n Hpos.
  rewrite length_app. cbn [List.length].
  destruct (Nat.ltb_spec n (List.length before + 1)) as [Hlt | Hge].
  - repeat split.
    + rewrite length_skipn, length_app. cbn [List.length]. lia.
    + apply skipn_suffix. lia.
  - replace (List.length before + 1 - n) with 0 by lia. cbn [skipn].
    repeat split.
    + rewrite length_app. cbn [List.length]. lia.
    + now exists before.
Qed.

Lemma append_to_history_length (self : RatesStorage) (record : history_record) :
  List.length (load_history (append_to_history self record)) <= MAX_HISTORY_SIZE.
Proof.
  unfold append_to_history. cbn [load_history history_file].
  assert (0 < MAX_HISTORY_SIZE) as Hpos by (unfold MAX_HISTORY_SIZE; lia).
  generalize dependent MAX_HISTORY_SIZE. intros n Hpos.
  destruct (Nat.ltb_spec n (List.length (load_history self ++ [record]))) as [Hlt | Hge].
  - rewrite length_skipn. lia.
  - exact Hge.
Qed.

(** What the loops of [run_update] do to the storage: they append to the
    history, and nothing else. *)
Section StorageInvariant.

Variable P : RatesStorage -> Prop.
Hypothesis P_append : forall st r, P st -> P (append_to_history st r).

Lemma merge_rates_storage (client_name : string) (d : list (string * rate_data)) :
  forall rs, P (rs_storage rs) -> P (rs_storage (fst (merge_rates client_name d rs))).
Proof.
  induction d as [|item d IH]; simpl; intros rs H; [exact H|].
  destruct (make_history_record client_name (fst item) (snd item)); simpl.
  - exact H.
  - apply IH. simpl. now apply P_append.
Qed.

Lemma on_exception_storage (client_name : string) (rs : run_state) (e : exn) :
  rs_storage (fst (on_exception client_name rs e)) = rs_storage rs.
Proof. destruct e; reflexivity. Qed.

Lemma poll_clients_storage (clients : list BaseApiClient) :
  forall rs, P (rs_storage rs) -> P (rs_storage (fst (poll_clients clients rs))).
Proof.
  induction clients as [|c clients IH]; simpl; intros rs H; [exact H|].
  destruct (fetch_rates c) as [e | d].
  - destruct (on_exception (class_name_of (class_of c)) rs e) as [rs1 stopped] eqn:E.
    assert (P (rs_storage rs1)) as H1.
    { pose proof (on_exception_storage (class_name_of (class_of c)) rs e) as Hs.
      rewrite E in Hs. simpl in Hs. now rewrite Hs. }
    destruct stopped; [exact H1 | now apply IH].
  - pose proof (merge_rates_storage (class_name_of (class_of c)) (items d) rs H) as Hm.
    destruct (merge_rates (class_name_of (class_of c)) (items d) rs) as [rs1 [e|]];
      simpl in Hm.
    + destruct (on_exception (class_name_of (class_of c)) rs1 e) as [rs2 stopped] eqn:E.
      assert (P (rs_storage rs2)) as H2.
      { pose proof (on_exception_storage (class_name_of (class_of c)) rs1 e) as Hs.
        rewrite E in Hs. simpl in Hs. now rewrite Hs. }
      destruct stopped; [exact H2 | now apply IH].
    + now apply IH.
Qed.

End StorageInvariant.

(** X2.  A run of the updater never lets the history grow past
    [MAX_HISTORY_SIZE], whatever the providers do: a history within the
    bound before the run is within the bound after it, the run returning or
    raising. *)
Theorem run_update_history_bounded
  (clients : list BaseApiClient) (storage : RatesStorage) (source : option string)
  (t_start t_end : string) :
  List.length (load_history storage) <= MAX_HISTORY_SIZE ->
  List.length (load_history (fst (run_update clients storage source t_start t_end)))
  <= MAX_HISTORY_SIZE.
Proof.
  intros H. unfold run_update.
  match goal with |- context [poll_clients ?cs ?s] =>
    pose proof (poll_clients_storage
                  (fun st => List.length (load_history st) <= MAX_HISTORY_SIZE)
                  (fun st r _ => append_to_history_length st r)
                  cs s H) as Hp;
    destruct (poll_clients cs s) as [rs [e|]]
  end; simpl in *; exact Hp.
Qed.

Lemma run_update_history_bounded_witness :
  List.length (load_history (mkStorage None None)) <= MAX_HISTORY_SIZE
  /\ List.length
       (load_history
          (fst (run_update
                  [mkClient CoinGeckoClient
                     (ret [("BTC_USD", mkRateData 2 "2024-01-01T00:00:00Z" "CoinGecko")])]
                  (mkStorage None None) None "t0" "t1")))
     <= MAX_HISTORY_SIZE.
Proof.
  assert (List.length (load_history (mkStorage None None)) <= MAX_HISTORY_SIZE) as H
    by apply Nat.le_0_l.
  split; [exact H|].
  exact (run_update_history_bounded
           [mkClient CoinGeckoClient
              (ret [("BTC_USD", mkRateData 2 "2024-01-01T00:00:00Z" "CoinGecko")])]
           (mkStorage None None) None "t0" "t1" H).
Defined.

(** ** The aggregator and the cache *)

(** X3.  A run that an exception stops (one that is not [ApiRequestError],
    such as the [IndexError] of a key with no underscore) does not save: the
    rate cache is the one the run found. *)
Theorem run_update_abort_keeps_cache
  (clients : list BaseApiClient) (storage : RatesStorage) (source : option string)
  (t_start t_end : string) (e : exn) :
  snd (run_update clients storage source t_start t_end) = raise e ->
  rates_file (fst (run_update clients storage source t_start t_end))
  = rates_file storage.
Proof.
  unfold run_update.
  match goal with |- context [poll_clients ?cs ?s] =>
    pose proof (poll_clients_storage
                  (fun st => rates_file st = rates_file storage)
                  (fun st r H => H) cs s eq_refl) as Hp;
    destruct (poll_clients cs s) as [rs [e'|]]
  end; simpl in *; [intros _; exact Hp | discriminate].
Qed.

Lemma run_update_abort_keeps_cache_witness :
  let clients :=
    [mkClient CoinGeckoClient
       (ret [("BTCUSD", mkRateData 2 "2024-01-01T00:00:00Z" "CoinGecko")])] in
  let storage :=
    mkStorage (Some (mkRatesDocument (Some [("EUR_USD", mkRateData 1 "t" "default")])
                       (Some (PyStr "2023-12-31T00:00:00"))))
      None in
  snd (run_update clients storage None "t0" "t1") = raise IndexError
  /\ rates_file (fst (run_update clients storage None "t0" "t1")) = rates_file storage.
Proof.
  assert (snd (run_update
                 [mkClient CoinGeckoClient
                    (ret [("BTCUSD", mkRateData 2 "2024-01-01T00:00:00Z" "CoinGecko")])]
                 (mkStorage
                    (Some (mkRatesDocument
                             (Some [("EUR_USD", mkRateData 1 "t" "default")])
                             (Some (PyStr "2023-12-31T00:00:00"))))
                    None)
                 None "t0" "t1") = raise IndexError) as H by reflexivity.
  split; [exact H|].
  exact (run_update_abort_keeps_cache _ _ _ _ _ _ H).
Defined.

Lemma get_merge_dict_other (d acc : dict rate_data) (k : string) :
  ~ In k (keys d) -> get (merge_dict acc d) k = get acc k.
Proof.
  unfold merge_dict. revert acc.
  induction d as [|[k' v'] d IH]; simpl; intros acc Hk; [reflexivity|].
  rewrite IH by tauto. apply get_set_other. tauto.
Qed.

Lemma get_merge_dict_in (d acc : dict rate_data) (k : string) (v : rate_data) :
  NoDup (keys d) -> get d k = Some v -> get (merge_dict acc d) k = Some v.
Proof.
  unfold merge_dict. revert acc.
  induction d as [|[k' v'] d IH]; simpl; intros acc Hnd Hget; [discriminate|].
  inversion Hnd as [|? ? Hnotin Hnd']; subst.
  destruct (String.eqb_spec k' k) as [-> | Hne].
  - injection Hget as ->.
    change (get (merge_dict (set acc k v) d) k = Some v).
    rewrite get_merge_dict_other by exact Hnotin. apply get_set_same.
  - now apply IH.
Qed.

Lemma get_merge_all_other (clients : list BaseApiClient) (acc : dict rate_data)
  (k : string) :
  ~ In k (fetched_pairs clients) -> get (merge_all acc clients) k = get acc k.
Proof.
  unfold merge_all. revert acc.
  induction clients as [|c clients IH]; simpl; intros acc Hk; [reflexivity|].
  rewrite in_app_iff in Hk. rewrite IH by tauto.
  destruct (fetch_rates c) as [e | d]; [reflexivity|].
  apply get_merge_dict_other. tauto.
Qed.

Lemma merge_all_app (pre post : list BaseApiClient) (acc : dict rate_data) :
  merge_all acc (pre ++ post) = merge_all (merge_all acc pre) post.
Proof. unfold merge_all. apply fold_left_app. Qed.

(** What a run over providers that keep their contract saves. *)
Lemma run_update_saved
  (clients : list BaseApiClient) (storage : RatesStorage) (source : option string)
  (t_start t_end : string) :
  forallb keeps_contract (clients_to_use clients source) = true ->
  exists history summary,
    run_update clients storage source t_start t_end
    = (mkStorage
         (Some (mkRatesDocument
                  (Some (merge_all (current_pairs storage)
                           (clients_to_use clients source)))
                  (Some (PyStr t_end))))
         history,
       ret summary).
Proof.
  intros Hc. unfold run_update.
  match goal with |- context [poll_clients ?cs ?s] =>
    destruct (poll_clients_contract cs Hc s) as [st ->] end.
  simpl. eexists _, _. reflexivity.
Qed.

(** X4.  A refresh never drops a cached pair: over providers that keep their
    contract, a pair that no provider returned has after the run the entry
    it had before. *)
Theorem run_update_keeps_other_pairs
  (clients : list BaseApiClient) (storage : RatesStorage) (source : option string)
  (t_start t_end : string) (k : string) :
  forallb keeps_contract (clients_to_use clients source) = true ->
  ~ In k (fetched_pairs (clients_to_use clients source)) ->
  get (current_pairs (fst (run_update clients storage source t_start t_end))) k
  = get (current_pairs storage) k.
Proof.
  intros Hc Hk.
  destruct (run_update_saved clients storage source t_start t_end Hc)
    as (history & summary & ->).
  unfold current_pairs at 1. simpl. now apply get_merge_all_other.
Qed.

Lemma run_update_keeps_other_pairs_witness :
  let clients :=
    [mkClient CoinGeckoClient
       (ret [("BTC_USD", mkRateData 2 "2024-01-01T00:00:00Z" "CoinGecko")])] in
  let storage :=
    mkStorage (Some (mkRatesDocument (Some [("EUR_USD", mkRateData 1 "t" "default")])
                       (Some (PyStr "2023-12-31T00:00:00"))))
      None in
  get (current_pairs (fst (run_update clients storage None "t0" "t1"))) "EUR_USD"
  = Some (mkRateData 1 "t" "default").
Proof.
  refine (run_update_keeps_other_pairs
            [mkClient CoinGeckoClient
               (ret [("BTC_USD", mkRateData 2 "2024-01-01T00:00:00Z" "CoinGecko")])]
            (mkStorage
               (Some (mkRatesDocument (Some [("EUR_USD", mkRateData 1 "t" "default")])
                        (Some (PyStr "2023-12-31T00:00:00"))))
               None)
            None "t0" "t1" "EUR_USD" eq_refl _).
  simpl. intros [H | []]. discriminate H.
Defined.

(** X5.  The merge is overwrite-by-key and the last provider wins: the entry
    a provider returns for a pair is the one the cache holds after the run,
    unless a later provider returns that pair too. *)
Theorem run_update_last_provider_wins
  (pre post : list BaseApiClient) (c : BaseApiClient) (d : dict rate_data)
  (storage : RatesStorage) (t_start t_end : string) (k : string) (v : rate_data) :
  forallb keeps_contract (pre ++ c :: post) = true ->
  fetch_rates c = ret d ->
  NoDup (keys d) ->
  get d k = Some v ->
  ~ In k (fetched_pairs post) ->
  get (current_pairs (fst (run_update (pre ++ c :: post) storage None t_start t_end))) k
  = Some v.
Proof.
  intros Hc Hf Hnd Hget Hpost.
  destruct (run_update_saved (pre ++ c :: post) storage None t_start t_end Hc)
    as (history & summary & ->).
  unfold current_pairs at 1. simpl.
  rewrite merge_all_app.
  change (merge_all ?a (c :: post)) with
    (merge_all (match fetch_rates c with
                | inr d0 => merge_dict a d0
                | inl _ => a
                end) post).
  rewrite get_merge_all_other by exact Hpost.
  rewrite Hf. now apply get_merge_dict_in.
Qed.

Lemma run_update_last_provider_wins_witness :
  let first :=
    mkClient CoinGeckoClient
      (ret [("BTC_USD", mkRateData 1 "2024-01-01T00:00:00Z" "CoinGecko")]) in
  let second :=
    mkClient ExchangeRateApiClient
      (ret [("BTC_USD", mkRateData 2 "2024-01-01T00:00:01Z" "ExchangeRate-API")]) in
  get (current_pairs
         (fst (run_update ([first] ++ second :: []) (mkStorage None None) None
                 "t0" "t1")))
    "BTC_USD"
  = Some (mkRateData 2 "2024-01-01T00:00:01Z" "ExchangeRate-API").
Proof.
  refine (run_update_last_provider_wins
            [mkClient CoinGeckoClient
               (ret [("BTC_USD", mkRateData 1 "2024-01-01T00:00:00Z" "CoinGecko")])]
            []
            (mkClient ExchangeRateApiClient
               (ret [("BTC_USD",
                      mkRateData 2 "2024-01-01T00:00:01Z" "ExchangeRate-API")]))
            [("BTC_USD", mkRateData 2 "2024-01-01T00:00:01Z" "ExchangeRate-API")]
            (mkStorage None None) "t0" "t1" "BTC_USD"
            (mkRateData 2 "2024-01-01T00:00:01Z" "ExchangeRate-API")
            eq_refl eq_refl _ eq_refl _).
  - repeat constructor. simpl. tauto.
  - simpl. tauto.
Defined.

(** ** Freshness *)

(** X6.  After a run over providers that keep their contract, freshness is
    the comparison of the reading of the local clock ([datetime.now()]) with
    the stamp of the run, which is a reading of UTC ([datetime.utcnow()]):
    the cache is fresh exactly when [now - stamp < ttl], the two taken as
    they are. *)
Theorem are_rates_fresh_after_run
  (parse_isoformat : string -> option datetime)
  (clients : list BaseApiClient) (storage : RatesStorage) (source : option string)
  (t_start t_end : string) (stamp ttl_seconds now : Z) :
  forallb keeps_contract (clients_to_use clients source) = true ->
  parse_isoformat t_end = Some (mkDatetime stamp None) ->
  are_rates_fresh parse_isoformat
    (rates_file (fst (run_update clients storage source t_start t_end)))
    ttl_seconds now
  = ret (Z.ltb (now - stamp) (ttl_seconds * 1000000)).
Proof.
  intros Hc Hp.
  destruct (run_update_saved clients storage source t_start t_end Hc)
    as (history & summary & ->).
  simpl. unfold are_rates_fresh, fromisoformat. simpl. now rewrite Hp.
Qed.

(** A run stamped at UTC second 0, read at the same instant on a local clock
    one hour ahead of UTC: stale at once, with the TTL of 300 seconds. *)
Lemma are_rates_fresh_after_run_witness :
  let parse := fun _ : string => Some (mkDatetime 0 None) in
  let clients :=
    [mkClient CoinGeckoClient
       (ret [("BTC_USD", mkRateData 2 "2024-01-01T00:00:00Z" "CoinGecko")])] in
  are_rates_fresh parse
    (rates_file (fst (run_update clients (mkStorage None None) None
                        "1970-01-01T00:00:00" "1970-01-01T00:00:00")))
    RATES_TTL_SECONDS 3600000000
  = ret false.
Proof.
  exact (are_rates_fresh_after_run (fun _ : string => Some (mkDatetime 0 None))
           [mkClient CoinGeckoClient
              (ret [("BTC_USD", mkRateData 2 "2024-01-01T00:00:00Z" "CoinGecko")])]
           (mkStorage None None) None "1970-01-01T00:00:00" "1970-01-01T00:00:00"
           0%Z RATES_TTL_SECONDS 3600000000%Z eq_refl eq_refl).
Defined.

(** X7.  A stale cache stays stale: when [are_rates_fresh] answers [False]
    at one reading of the clock, it answers [False] at every later one, for
    the same stored document. *)
Theorem are_rates_fresh_stale_stays_stale
  (parse_isoformat : string -> option datetime) (rates : option rates_document)
  (ttl_seconds now later : Z) :
  (now <= later)%Z ->
  are_rates_fresh parse_isoformat rates ttl_seconds now = ret false ->
  are_rates_fresh parse_isoformat rates ttl_seconds later = ret false.
Proof.
  intros Hle. unfold are_rates_fresh.
  destruct rates as [doc|]; [|trivial].
  destruct (last_refresh doc) as [stored|]; [|trivial].
  unfold fromisoformat. destruct stored as [f|s|]; simpl; try discriminate.
  destruct (parse_isoformat s) as [[t [off|]]|]; simpl; try discriminate; [|trivial].
  unfold ret. intros [= H]. f_equal.
  apply Z.ltb_ge in H. apply Z.ltb_ge. lia.
Qed.

Lemma are_rates_fresh_stale_stays_stale_witness :
  let parse := fun _ : string => Some (mkDatetime 0 None) in
  let doc := Some (mkRatesDocument None (Some (PyStr "1970-01-01T00:00:00"))) in
  (300000000 <= 900000000)%Z
  /\ are_rates_fresh parse doc RATES_TTL_SECONDS 900000000 = ret false.
Proof.
  assert (300000000 <= 900000000)%Z as H by lia.
  split; [exact H|].
  exact (are_rates_fresh_stale_stays_stale (fun _ : string => Some (mkDatetime 0 None))
           (Some (mkRatesDocument None (Some (PyStr "1970-01-01T00:00:00"))))
           RATES_TTL_SECONDS 300000000%Z 900000000%Z H eq_refl).
Defined.

(** ** The portfolio document *)

Lemma set_fresh {V : Type} (d : dict V) (k : string) (v : V) :
  ~ In k (keys d) -> set d k v = (d ++ [(k, v)])%list.
Proof.
  induction d as [|[k' v'] d IH]; simpl; intros H; [reflexivity|].
  destruct (String.eqb_spec k' k) as [-> | Hne]; [tauto|].
  rewrite IH by tauto. reflexivity.
Qed.

(** Filling a dictionary from items with distinct keys lists them in order. *)
Lemma fold_set_distinct {V W : Type} (f : V -> W) (l : list (string * V)) :
  forall acc : dict W,
    NoDup (keys acc ++ keys l) ->
    fold_left (fun a item => set a (fst item) (f (snd item))) l acc
    = (acc ++ map (fun item => (fst item, f (snd item))) l)%list.
Proof.
  induction l as [|[k v] l IH]; simpl; intros acc Hnd.
  - now rewrite app_nil_r.
  - assert (~ In k (keys acc)) as Hk.
    { intros Hin. apply NoDup_remove_2 in Hnd. apply Hnd.
      apply in_or_app. now left. }
    rewrite set_fresh by exact Hk. rewrite IH.
    + now rewrite <- app_assoc.
    + unfold keys in *. rewrite map_app. simpl. rewrite <- app_assoc. exact Hnd.
Qed.

Lemma db_get_update_same (portfolios : portfolios_file) (u : Z)
  (wallets : dict wallet_data) :
  db_get_portfolio (db_update_portfolio portfolios u wallets) u
  = Some (mkPortfolioData u wallets).
Proof.
  unfold db_get_portfolio.
  induction portfolios as [|p ps IH]; simpl.
  - now rewrite Z.eqb_refl.
  - destruct (Z.eqb_spec (pd_user_id p) u) as [E | N]; simpl.
    + rewrite E, Z.eqb_refl. reflexivity.
    + destruct (Z.eqb_spec (pd_user_id p) u); [contradiction | exact IH].
Qed.

(** X8.  [update_portfolio] and [get_portfolio] of the database round-trip:
    after an update for a user, that user's document holds the wallets
    written; every other user's document is the one it was; and the file
    grows by one document exactly when the user had none. *)
Theorem db_update_portfolio_round_trip (portfolios : portfolios_file) (u : Z)
  (wallets : dict wallet_data) :
  db_get_portfolio (db_update_portfolio portfolios u wallets) u
  = Some (mkPortfolioData u wallets)
  /\ (forall u', u' <> u ->
        db_get_portfolio (db_update_portfolio portfolios u wallets) u'
        = db_get_portfolio portfolios u')
  /\ List.length (db_update_portfolio portfolios u wallets)
     = match db_get_portfolio portfolios u with
       | Some _ => List.length portfolios
       | None => S (List.length portfolios)
       end.
Proof.
  split; [apply db_get_update_same|]. split.
  - intros u' Hne. unfold db_get_portfolio.
    induction portfolios as [|p ps IH]; simpl.
    + destruct (Z.eqb_spec u u'); [congruence | reflexivity].
    + destruct (Z.eqb_spec (pd_user_id p) u) as [E | N]; simpl.
      * rewrite E. destruct (Z.eqb_spec u u'); [congruence | reflexivity].
      * destruct (Z.eqb (pd_user_id p) u'); [reflexivity | exact IH].
  - unfold db_get_portfolio.
    induction portfolios as [|p ps IH]; simpl; [reflexivity|].
    destruct (Z.eqb (pd_user_id p) u); simpl; [reflexivity|].
    rewrite IH. now destruct (find _ ps).
Qed.

(** X9.  [save_user_portfolio] persists the wallets of a portfolio in order,
    each under its key with its balance: the document read back for the user
    lists exactly them. *)
Theorem save_user_portfolio_stores_balances (portfolios : portfolios_file) (u : Z)
  (p : Portfolio) :
  NoDup (keys (_wallets p)) ->
  db_get_portfolio (save_user_portfolio portfolios u p) u
  = Some (mkPortfolioData u
            (map (fun item =>
                    (fst item, mkWalletData (Some (PyFloat (_balance (snd item))))))
               (_wallets p))).
Proof.
  intros Hnd. unfold save_user_portfolio, items.
  rewrite (fold_set_distinct
             (fun w => mkWalletData (Some (PyFloat (_balance w)))) (_wallets p) empty)
    by exact Hnd.
  apply db_get_update_same.
Qed.

Lemma save_user_portfolio_stores_balances_witness :
  let p := mkPortfolio 7 [("BTC", mkWallet "BTC" 0.5); ("USD", mkWallet "USD" 10)] in
  NoDup (keys (_wallets p))
  /\ db_get_portfolio (save_user_portfolio [mkPortfolioData 7 empty] 7 p) 7
     = Some (mkPortfolioData 7
               [("BTC", mkWalletData (Some (PyFloat 0.5)));
                ("USD", mkWalletData (Some (PyFloat 10)))]).
Proof.
  assert (NoDup (keys (_wallets
            (mkPortfolio 7 [("BTC", mkWallet "BTC" 0.5); ("USD", mkWallet "USD" 10)]))))
    as H.
  { repeat constructor; simpl; intuition discriminate. }
  split; [exact H|].
  exact (save_user_portfolio_stores_balances [mkPortfolioData 7 empty] 7
           (mkPortfolio 7 [("BTC", mkWallet "BTC" 0.5); ("USD", mkWallet "USD" 10)]) H).
Defined.

(** ** Trading *)

Lemma empty_portfolio_add_currency_raises (registry : dict Currency) (u : Z) (c : string) :
  exists msg, add_currency registry (Portfolio_init u) c = raise (ValueError msg).
Proof. now apply add_currency_new_raises. Qed.

(** X10.  [buy_currency] never completes: every call raises, and
    [portfolios.json] is left as it was.  (The portfolio loads only when it
    stores no wallet, and the wallet of the purchase cannot be created.) *)
Theorem buy_currency_never_completes
  (float_of_str : string -> option float) (registry : dict Currency)
  (portfolios : portfolios_file) (exchange_rates : dict float)
  (u : Z) (c : string) (amount : pyval) :
  fst (buy_currency float_of_str registry portfolios exchange_rates u c amount)
  = portfolios
  /\ raises (snd (buy_currency float_of_str registry portfolios exchange_rates
                    u c amount)).
Proof.
  unfold buy_currency, raises.
  destruct (validate_currency_code registry c) as [e | c']; simpl; [eauto|].
  destruct (validate_positive_float float_of_str amount) as [e | a]; simpl; [eauto|].
  destruct (load_user_portfolio registry portfolios u) as [e | p] eqn:El; simpl; [eauto|].
  apply load_user_portfolio_empty in El. subst p. simpl.
  destruct (empty_portfolio_add_currency_raises registry u c') as [msg ->]. simpl. eauto.
Qed.

(** X11.  [sell_currency] never completes either: every call raises and
    leaves [portfolios.json] as it was, and the exception is never
    [InsufficientFundsError]: no wallet is ever found to withdraw from. *)
Theorem sell_currency_never_completes
  (float_of_str : string -> option float) (registry : dict Currency)
  (portfolios : portfolios_file) (exchange_rates : dict float)
  (u : Z) (c : string) (amount : pyval) :
  fst (sell_currency float_of_str registry portfolios exchange_rates u c amount)
  = portfolios
  /\ exists e,
       snd (sell_currency float_of_str registry portfolios exchange_rates u c amount)
       = raise e
       /\ forall code available required,
            e <> InsufficientFundsError code available required.
Proof.
  unfold sell_currency.
  destruct (validate_currency_code registry c) as [e | c'] eqn:Ev; simpl.
  { split; [reflexivity|]. exists e. split; [reflexivity|].
    unfold validate_currency_code in Ev.
    destruct (is_empty (upper (strip c))); [injection Ev as <-; discriminate|].
    destruct (get_currency registry (upper (strip c)));
      [injection Ev as <-; discriminate | discriminate]. }
  destruct (validate_positive_float float_of_str amount) as [e | a] eqn:Ea; simpl.
  { split; [reflexivity|]. exists e. split; [reflexivity|].
    unfold validate_positive_float in Ea.
    destruct amount as [f | s |]; simpl in Ea.
    - destruct (f <=? 0)%float; [injection Ea as <-; discriminate | discriminate].
    - destruct (float_of_str s) as [f|]; simpl in Ea.
      + destruct (f <=? 0)%float; [injection Ea as <-; discriminate | discriminate].
      + injection Ea as <-. discriminate.
    - injection Ea as <-. discriminate. }
  destruct (load_user_portfolio registry portfolios u) as [e | p] eqn:El; simpl.
  { split; [reflexivity|]. exists e. split; [reflexivity|].
    unfold load_user_portfolio in El.
    destruct (db_get_portfolio portfolios u) as [pd|]; [|discriminate].
    unfold items in El. destruct (pd_wallets pd) as [|item rest]; [discriminate|].
    destruct (load_wallets_raises registry (Portfolio_init u) item rest) as [msg E].
    rewrite E in El. injection El as <-. discriminate. }
  apply load_user_portfolio_empty in El. subst p. simpl.
  split; [reflexivity|]. eexists. split; [reflexivity | discriminate].
Qed.

(** X12.  [get_portfolio] returns for the users with no stored wallet only,
    and then the report is empty: no wallet entry and the total 0.0.  For a
    user with a stored wallet it raises. *)
Theorem get_portfolio_reports_nothing
  (registry : dict Currency) (portfolios : portfolios_file)
  (exchange_rates : dict float) (u : Z) (base : string) :
  (forall pd item rest,
     db_get_portfolio portfolios u = Some pd ->
     pd_wallets pd = item :: rest ->
     raises (get_portfolio registry portfolios exchange_rates u base))
  /\ (forall report,
        get_portfolio registry portfolios exchange_rates u base = ret report ->
        report = mkReport u [] 0%float base).
Proof.
  split.
  - intros pd item rest Hpd Hw. unfold get_portfolio, load_user_portfolio, items.
    rewrite Hpd, Hw.
    destruct (load_wallets_raises registry (Portfolio_init u) item rest) as [msg ->].
    now exists (ValueError msg).
  - intros report. unfold get_portfolio.
    destruct (load_user_portfolio registry portfolios u) as [e | p] eqn:El;
      [discriminate|].
    apply load_user_portfolio_empty in El. subst p. simpl.
    now intros [= <-].
Qed.

(** ** Valuation and resolution: the exceptions *)

Lemma total_value_step_outcome (rates : dict float) (base : string) (t : float)
  (w : Wallet) :
  (exists t', total_value_step rates base t w = ret t')
  \/ (total_value_step rates base t w = raise ZeroDivisionError
      /\ exists r, get rates (pair_key base (currency_code w)) = Some r
                   /\ PrimFloat.eqb r 0 = true).
Proof.
  unfold total_value_step.
  destruct (String.eqb (currency_code w) base); [left; eauto|].
  destruct (get rates (pair_key (currency_code w) base)); [left; eauto|].
  destruct (get rates (pair_key base (currency_code w))) as [r|]; [|left; eauto].
  unfold py_div. destruct (PrimFloat.eqb r 0) eqn:E; simpl; [right | left]; eauto.
Qed.

Lemma total_value_loop_outcome (rates : dict float) (base : string)
  (wallets : list Wallet) :
  forall t,
    (exists t', total_value_loop rates base wallets t = ret t')
    \/ (total_value_loop rates base wallets t = raise ZeroDivisionError
        /\ exists k r, get rates k = Some r /\ PrimFloat.eqb r 0 = true).
Proof.
  induction wallets as [|w wallets IH]; simpl; intros t; [left; eauto|].
  destruct (total_value_step_outcome rates base t w) as [[t' ->] | [-> [r Hr]]]; simpl.
  - apply IH.
  - right. split; [reflexivity | eauto].
Qed.

(** X13.  [get_total_value] takes the anchor in any letter case, and the
    only exception it raises is [ZeroDivisionError], for a cached rate that
    is zero: with no zero rate cached it returns a total. *)
Theorem get_total_value_errors (p : Portfolio) (rates : dict float) (base : string) :
  get_total_value p rates (upper base) = get_total_value p rates base
  /\ (forall e, get_total_value p rates base = raise e ->
        e = ZeroDivisionError
        /\ exists k r, get rates k = Some r /\ PrimFloat.eqb r 0 = true)
  /\ (rates_nonzero rates -> exists total, get_total_value p rates base = ret total).
Proof.
  unfold get_total_value. rewrite upper_idempotent. split; [reflexivity|].
  destruct (total_value_loop_outcome rates (upper base) (values (_wallets p)) 0%float)
    as [[t' ->] | [-> Hz]].
  - split; [discriminate | eauto].
  - split.
    + intros e [= <-]. now split.
    + intros Hnz. destruct Hz as (k & r & Hk & Hr).
      rewrite (Hnz k r Hk) in Hr. discriminate.
Qed.

(** X14.  [_get_exchange_rate] returns a rate, or raises the rate-not-found
    [ValueError] naming the two currencies, or raises [ZeroDivisionError],
    which takes a cached rate that is zero; it raises nothing else. *)
Theorem get_exchange_rate_errors (rates : dict float) (a b : string) :
  (exists r, _get_exchange_rate rates a b = ret r)
  \/ _get_exchange_rate rates a b = raise (rate_not_found a b)
  \/ (_get_exchange_rate rates a b = raise ZeroDivisionError
      /\ exists k, get rates k = Some 0%float \/ get rates k = Some (-0)%float).
Proof.
  assert (forall x y k, get rates k = Some y ->
            (exists r, py_div x y = ret r)
            \/ (py_div x y = raise ZeroDivisionError
                /\ exists k, get rates k = Some 0%float \/ get rates k = Some (-0)%float))
    as Hdiv.
  { intros x y k Hk. unfold py_div.
    destruct (PrimFloat.eqb y 0) eqn:E; [right | left; eauto].
    split; [reflexivity|]. exists k.
    rewrite eqb_spec in E. change (Prim2SF 0) with (S754_zero false) in E.
    assert (Prim2SF y = S754_zero false \/ Prim2SF y = S754_zero true) as Hy.
    { destruct (Prim2SF y) as [[]|[]| |[] m e]; try discriminate E; auto. }
    destruct Hy as [Hy | Hy]; [left | right]; rewrite Hk; f_equal;
      apply Prim2SF_inj; rewrite Hy; reflexivity. }
  unfold _get_exchange_rate.
  destruct (get rates (pair_key a b)) as [r|] eqn:E1; [left; now exists r|].
  destruct (get rates (pair_key b a)) as [r|] eqn:E2.
  { destruct (Hdiv 1%float r _ E2) as [H | H]; [now left | right; now right]. }
  destruct (String.eqb a "USD").
  { destruct (get rates (pair_key b "USD")) as [r|] eqn:E3.
    - destruct (Hdiv 1%float r _ E3) as [H | H]; [now left | right; now right].
    - right. left. now destruct (get rates (pair_key a "USD")). }
  destruct (String.eqb b "USD").
  { destruct (get rates (pair_key a "USD")) as [r|] eqn:E3.
    - left. eauto.
    - right. left. reflexivity. }
  destruct (get rates (pair_key a "USD")) as [r1|] eqn:E3; [|right; now left].
  destruct (get rates (pair_key b "USD")) as [r2|] eqn:E4; [|right; now left].
  destruct (Hdiv r1 r2 _ E4) as [H | H]; [now left | right; now right].
Qed.

(** ** Currency codes and the registry *)

Lemma rstrip_idempotent (s : string) : rstrip (rstrip s) = rstrip s.
Proof.
  induction s as [|c s IH]; simpl; [reflexivity|].
  destruct (rstrip s) as [|c' r] eqn:E.
  - destruct (is_space c) eqn:Ec; simpl; [reflexivity | now rewrite Ec].
  - simpl. simpl in IH. rewrite IH. reflexivity.
Qed.

Lemma lstrip_head (s : string) (c : ascii) (t : string) :
  lstrip s = String c t -> is_space c = false.
Proof.
  induction s as [|x s IH]; simpl; [discriminate|].
  destruct (is_space x) eqn:E; [exact IH | now intros [= <- _]].
Qed.

Lemma rstrip_head (c : ascii) (t : string) :
  is_space c = false -> exists t', rstrip (String c t) = String c t'.
Proof.
  intros Hc. simpl. destruct (rstrip t); [rewrite Hc|]; eauto.
Qed.

Lemma strip_idempotent (s : string) : strip (strip s) = strip s.
Proof.
  unfold strip. destruct (lstrip s) as [|c t] eqn:E; [reflexivity|].
  pose proof (lstrip_head s c t E) as Hc.
  destruct (rstrip_head c t Hc) as [t' Ht]. rewrite Ht.
  cbn [lstrip]. rewrite Hc, <- Ht. apply rstrip_idempotent.
Qed.

(** X15.  [validate_currency_code] returns the normal form of a registered
    code: the argument stripped and upper-cased, not empty, known to
    [get_currency]; and the normal form validates to itself. *)
Theorem validate_currency_code_normal_form (registry : dict Currency) (c c' : string) :
  validate_currency_code registry c = ret c' ->
  c' = upper (strip c)
  /\ c' <> ""
  /\ (exists currency, get_currency registry c' = ret currency)
  /\ validate_currency_code registry c' = ret c'.
Proof.
  unfold validate_currency_code.
  destruct (is_empty (upper (strip c))) eqn:Ee; [discriminate|].
  destruct (get_currency registry (upper (strip c))) as [e | cur] eqn:Eg; [discriminate|].
  intros [= <-]. split; [reflexivity|]. split.
  { intros H. rewrite H in Ee. discriminate. }
  split; [now exists cur|].
  rewrite strip_upper, strip_idempotent, upper_idempotent, Ee, Eg. reflexivity.
Qed.

Lemma validate_currency_code_normal_form_witness :
  validate_currency_code _CURRENCY_REGISTRY "  btc " = ret "BTC"
  /\ validate_currency_code _CURRENCY_REGISTRY "BTC" = ret "BTC".
Proof.
  assert (validate_currency_code _CURRENCY_REGISTRY "  btc " = ret "BTC") as H
    by reflexivity.
  split; [exact H|].
  exact (proj2 (proj2 (proj2
           (validate_currency_code_normal_form _CURRENCY_REGISTRY "  btc " "BTC" H)))).
Defined.

(** X16.  [register_currency] and [get_currency] round-trip, in any letter
    case, for codes in ASCII: after a currency is registered, its code finds
    it however the code is cased, and the lookup of every other code is what
    it was. *)
Theorem register_currency_round_trip (registry : dict Currency) (currency : Currency)
  (c : string) :
  ascii_only (code currency) = true ->
  ascii_only c = true ->
  (upper c = upper (code currency) ->
   get_currency (register_currency registry currency) c = ret currency)
  /\ (upper c <> upper (code currency) ->
      get_currency (register_currency registry currency) c = get_currency registry c).
Proof.
  intros _ _. unfold get_currency, register_currency. split.
  - intros ->. now rewrite get_set_same.
  - intros Hne. rewrite get_set_other by congruence. reflexivity.
Qed.

Lemma register_currency_round_trip_witness :
  (ascii_only (code (CryptoCurrency "Dogecoin" "DOGE" "Scrypt" 1e10)) = true
   /\ ascii_only "doge" = true
   /\ upper "doge" = upper (code (CryptoCurrency "Dogecoin" "DOGE" "Scrypt" 1e10)))
  /\ get_currency
       (register_currency _CURRENCY_REGISTRY
          (CryptoCurrency "Dogecoin" "DOGE" "Scrypt" 1e10)) "doge"
     = ret (CryptoCurrency "Dogecoin" "DOGE" "Scrypt" 1e10).
Proof.
  split; [repeat split|].
  exact (proj1 (register_currency_round_trip _CURRENCY_REGISTRY
                  (CryptoCurrency "Dogecoin" "DOGE" "Scrypt" 1e10) "doge"
                  eq_refl eq_refl) eq_refl).
Defined.

(** X17.  The registry the module builds at import knows seven codes and no
    other.  For a code in ASCII, [get_currency] returns exactly when the
    upper case of the code is USD, EUR, GBP, RUB, BTC, ETH or SOL, the
    currency returned carries that upper-cased code, and every other code
    raises [CurrencyNotFoundError] with the upper-cased code. *)
Theorem get_currency_known_codes (c : string) :
  ascii_only c = true ->
  ((exists currency, get_currency _CURRENCY_REGISTRY c = ret currency)
   <-> In (upper c) ["USD"; "EUR"; "GBP"; "RUB"; "BTC"; "ETH"; "SOL"])
  /\ (forall currency,
        get_currency _CURRENCY_REGISTRY c = ret currency -> code currency = upper c)
  /\ (~ In (upper c) ["USD"; "EUR"; "GBP"; "RUB"; "BTC"; "ETH"; "SOL"] ->
      get_currency _CURRENCY_REGISTRY c = raise (CurrencyNotFoundError (upper c))).
Proof.
  intros _. unfold get_currency.
  change _CURRENCY_REGISTRY with
    [ ("USD", FiatCurrency "US Dollar" "USD" "United States");
      ("EUR", FiatCurrency "Euro" "EUR" "Eurozone");
      ("GBP", FiatCurrency "British Pound" "GBP" "United Kingdom");
      ("RUB", FiatCurrency "Russian Ruble" "RUB" "Russia");
      ("BTC", CryptoCurrency "Bitcoin" "BTC" "SHA-256" 1.12e12);
      ("ETH", CryptoCurrency "Ethereum" "ETH" "Ethash" 2.85e11);
      ("SOL", CryptoCurrency "Solana" "SOL" "Proof of History" 7.85e10) ].
  cbn [get In].
  pose (known := fun k : string => String.eqb_spec k (upper c)).
  destruct (known "USD") as [<- | ?]; [|destruct (known "EUR") as [<- | ?];
    [|destruct (known "GBP") as [<- | ?]; [|destruct (known "RUB") as [<- | ?];
    [|destruct (known "BTC") as [<- | ?]; [|destruct (known "ETH") as [<- | ?];
    [|destruct (known "SOL") as [<- | ?]]]]]]];
    try (split; [split; [intros _; tauto | intros _; eexists; reflexivity]
                | split; [intros cur [= <-]; reflexivity | tauto]]).
  split; [split; [intros [cur H]; unfold raise, ret in H; discriminate H | tauto]|].
  split; [intros cur H; unfold raise, ret in H; discriminate H | reflexivity].
Qed.

(** ** The length of a text *)

Lemma len_le_length (s : string) : len s <= String.length s.
Proof.
  induction s as [|c s IH]; simpl; [lia|].
  destruct (is_continuation_byte c); lia.
Qed.

Lemma ascii_only_len (s : string) : ascii_only s = true -> len s = String.length s.
Proof.
  unfold ascii_only. induction s as [|c s IH]; simpl; [reflexivity|].
  intros H. apply andb_prop in H. destruct H as [Hc Hs].
  unfold is_continuation_byte. apply Nat.ltb_lt in Hc.
  destruct (Nat.leb_spec 128 (nat_of_ascii c)) as [Hge | Hlt]; [lia|].
  simpl. now rewrite IH.
Qed.

Lemma is_code_char_not_space (c : ascii) : is_code_char c = true -> is_space c = false.
Proof.
  destruct c as [b0 b1 b2 b3 b4 b5 b6 b7].
  destruct b0, b1, b2, b3, b4, b5, b6, b7; simpl; intros H;
    try reflexivity; discriminate H.
Qed.

Lemma is_alnum_not_hyphen (c : ascii) : is_hyphen c = true -> is_alnum c = false.
Proof.
  unfold is_hyphen. intros H. apply Ascii.eqb_eq in H. now subst c.
Qed.

Lemma all_chars_remove_hyphen (s : string) :
  all_chars is_alnum (remove_char "-" s) = all_chars is_code_char s.
Proof.
  induction s as [|c s IH]; simpl; [reflexivity|].
  unfold is_code_char at 1. fold (is_hyphen c).
  destruct (is_hyphen c) eqn:E; simpl.
  - now rewrite IH, orb_true_r.
  - now rewrite IH, orb_false_r.
Qed.

Lemma is_empty_remove_hyphen (s : string) :
  is_empty (remove_char "-" s) = all_chars is_hyphen s.
Proof.
  induction s as [|c s IH]; simpl; [reflexivity|].
  fold (is_hyphen c). destruct (is_hyphen c); simpl; [exact IH | reflexivity].
Qed.

Lemma strip_code_not_empty (c : ascii) (s : string) :
  is_code_char c = true -> is_empty (strip (String c s)) = false.
Proof.
  intros H. apply is_code_char_not_space in H. unfold strip. cbn [lstrip].
  rewrite H. destruct (rstrip_head c s H) as [t' ->]. reflexivity.
Qed.

(** X18.  [Currency._validate_code] accepts, among ASCII strings, exactly
    the codes of 2 to 5 characters made of letters, digits and hyphens with
    one letter or digit at least. *)
Theorem validate_code_accepts (code : string) :
  ascii_only code = true ->
  (_validate_code code = ret tt
   <-> 2 <= String.length code <= 5
       /\ all_chars is_code_char code = true
       /\ all_chars is_hyphen code = false).
Proof.
  intros Hascii. unfold _validate_code, isalnum.
  rewrite (ascii_only_len code Hascii).
  rewrite all_chars_remove_hyphen, is_empty_remove_hyphen.
  destruct code as [|c s].
  { simpl. split; [discriminate | intros [[H _] _]; lia]. }
  cbn [is_empty orb].
  destruct (is_empty (strip (String c s))) eqn:Es.
  { split; [discriminate|]. intros (_ & Hall & _). simpl in Hall.
    apply andb_prop in Hall. destruct Hall as [Hc _].
    rewrite (strip_code_not_empty c s Hc) in Es. discriminate. }
  destruct (Nat.ltb_spec (String.length (String c s)) 2) as [H2 | H2]; cbn [orb].
  { split; [discriminate | intros [[H _] _]; lia]. }
  destruct (Nat.ltb_spec 5 (String.length (String c s))) as [H5 | H5].
  { split; [discriminate | intros [[_ H] _]; lia]. }
  destruct (all_chars is_hyphen (String c s)) eqn:Eh; cbn [negb andb].
  { split; [discriminate | intros (_ & _ & H); discriminate H]. }
  destruct (all_chars is_code_char (String c s)) eqn:Ec; cbn [negb].
  - split; [intros _; repeat split; assumption | reflexivity].
  - split; [discriminate | intros (_ & H & _); discriminate H].
Qed.

Lemma validate_code_accepts_witness :
  ascii_only "BTC-2" = true /\ _validate_code "BTC-2" = ret tt.
Proof.
  split; [reflexivity|].
  apply (proj2 (validate_code_accepts "BTC-2" eq_refl)).
  repeat split; try reflexivity; simpl; lia.
Defined.

(** ** Users *)

(** X19.  [change_password] and [verify_password] round-trip.  A password
    of fewer than 4 characters is refused with [ValueError] and every other
    is accepted; after the change the new password verifies, the identity of
    the user is kept and the salt is the one drawn. *)
Theorem change_password_round_trip (sha256_hexdigest : string -> string)
  (self : User) (new_password new_salt : string) :
  (len new_password < 4 ->
   change_password sha256_hexdigest self new_password new_salt
   = raise (ValueError "Пароль должен быть не короче 4 символов"))
  /\ (4 <= len new_password ->
      exists user,
        change_password sha256_hexdigest self new_password new_salt = ret user)
  /\ (forall user,
        change_password sha256_hexdigest self new_password new_salt = ret user ->
        4 <= len new_password
        /\ verify_password sha256_hexdigest user new_password = true
        /\ _user_id user = _user_id self
        /\ _username user = _username self
        /\ _salt user = new_salt
        /\ _hashed_password user = sha256_hexdigest (new_password ++ new_salt)).
Proof.
  unfold change_password.
  destruct (Nat.ltb_spec (len new_password) 4) as [Hlt | Hge].
  - split; [reflexivity|]. split; [lia | discriminate].
  - split; [lia|]. split; [eauto|].
    intros user [= <-]. unfold verify_password. simpl.
    rewrite String.eqb_refl. now repeat split.
Qed.

(** A password of three Cyrillic letters: six bytes, three characters. *)
Lemma change_password_round_trip_witness :
  let user := mkUser 1 "alice" "old" "salt" (mkDatetime 0 None) in
  len "пар" < 4
  /\ change_password (fun s => s) user "пар" "pepper"
     = raise (ValueError "Пароль должен быть не короче 4 символов").
Proof.
  assert (len "пар" < 4) as H by (vm_compute; lia).
  split; [exact H|].
  exact (proj1 (change_password_round_trip (fun s => s)
                  (mkUser 1 "alice" "old" "salt" (mkDatetime 0 None)) "пар" "pepper") H).
Defined.

(** X20.  Registration never completes.  [create_user] takes the lock and,
    holding it, calls [get_all_users], which takes the same lock: called with
    the lock free it blocks, the files untouched.  So [register_user] refuses
    a password shorter than 4 and blocks on every other. *)
Theorem register_user_blocks (sha256_hexdigest : string -> string)
  (db : database) (username password salt now : string) :
  create_user sha256_hexdigest false db username password salt now = Blocked db
  /\ (String.length password < 4 ->
      register_user sha256_hexdigest false db username password salt now
      = Finished db (inl InvalidPasswordError))
  /\ (ascii_only password = true -> 4 <= String.length password ->
      register_user sha256_hexdigest false db username password salt now
      = Blocked db).
Proof.
  split; [reflexivity|]. unfold register_user. split.
  - intros H. pose proof (len_le_length password) as Hle.
    assert (Nat.ltb (len password) 4 = true) as -> by (apply Nat.ltb_lt; lia).
    reflexivity.
  - intros Hascii H. rewrite (ascii_only_len password Hascii).
    apply Nat.ltb_ge in H. now rewrite H.
Qed.

Lemma register_user_blocks_witness :
  let db := mkDatabase [] [] [] in
  (ascii_only "secret" = true /\ 4 <= String.length "secret")
  /\ register_user (fun s => s) false db "alice" "secret" "salt" "2024-01-01T00:00:00"
     = Blocked db.
Proof.
  assert (4 <= String.length "secret") as H by (simpl; lia).
  split; [split; [reflexivity | exact H]|].
  exact (proj2 (proj2 (register_user_blocks (fun s => s) (mkDatabase [] [] [])
                         "alice" "secret" "salt" "2024-01-01T00:00:00"))
           eq_refl H).
Defined.

(** X21.  [authenticate_user], called with the lock free, never blocks and
    never writes; it answers [UserNotFoundError] when no record has the
    name; and it returns a record only when that record is the first with the
    name and the digest of the password with its salt is the digest stored. *)
Theorem authenticate_user_checks_digest (sha256_hexdigest : string -> string)
  (parse_isoformat : string -> option datetime)
  (db : database) (username password : string) :
  (exists answer,
     authenticate_user sha256_hexdigest parse_isoformat false db username password
     = Finished db answer)
  /\ (find (fun user => String.eqb (ud_username user) username) (db_users db) = None ->
      authenticate_user sha256_hexdigest parse_isoformat false db username password
      = Finished db (inl (UserNotFoundError username)))
  /\ (forall db' user_data,
        authenticate_user sha256_hexdigest parse_isoformat false db username password
        = Finished db' (inr user_data) ->
        find (fun user => String.eqb (ud_username user) username) (db_users db)
        = Some user_data
        /\ ud_username user_data = username
        /\ sha256_hexdigest (password ++ ud_salt user_data)
           = ud_hashed_password user_data).
Proof.
  unfold authenticate_user, get_user_by_username, get_all_users, with_lock, then_.
  destruct (find (fun user => String.eqb (ud_username user) username) (db_users db))
    as [ud|] eqn:Ef.
  - assert (ud_username ud = username) as Hname.
    { apply find_some in Ef. destruct Ef as [_ E]. now apply String.eqb_eq in E. }
    destruct (fromisoformat parse_isoformat (PyStr (ud_registration_date ud)))
      as [e | date]; simpl.
    { split; [eauto|]. split; discriminate. }
    unfold User_init.
    destruct (_validate_username (ud_username ud)) as [e | []]; simpl.
    { split; [eauto|]. split; discriminate. }
    unfold verify_password. simpl.
    destruct (String.eqb_spec (sha256_hexdigest (password ++ ud_salt ud))
                (ud_hashed_password ud)) as [Eh | Nh].
    + split; [eauto|]. split; [discriminate|].
      intros db' user_data [= _ <-]. now repeat split.
    + split; [eauto|]. split; discriminate.
  - split; [eauto|]. split; [reflexivity | discriminate].
Qed.

(** ** Command arguments *)

Section ParseArgsFacts.

Variable int_of_str : string -> option Z.
Variable float_of_str : string -> option float.

Lemma parse_args_loop_keys (n : nat) :
  forall args_list args k,
    List.length args_list <= n ->
    (In k (keys (parse_args_loop int_of_str float_of_str args_list args))
     <-> In k (keys args) \/ exists token, In token args_list /\ names_key k token).
Proof.
  unfold names_key.
  induction n as [|n IH]; intros args_list args k Hlen.
  - destruct args_list; [|simpl in Hlen; lia]. cbn [parse_args_loop In].
    split; [tauto | intros [H | [t [[] _]]]; exact H].
  - destruct args_list as [|token rest]; cbn [parse_args_loop].
    { cbn [In]. split; [tauto | intros [H | [t [[] _]]]; exact H]. }
    cbn [List.length] in Hlen.
    destruct (is_flag token) eqn:Ef.
    + destruct rest as [|value rest'].
      * cbn [parse_args_loop In]. rewrite keys_set. split.
        -- intros [-> | H]; [right; exists token; tauto | tauto].
        -- intros [H | [t [[<- | []] [_ <-]]]]; tauto.
      * cbn [List.length] in Hlen.
        destruct (is_flag value) eqn:Ev; cbn [negb].
        -- rewrite IH by (cbn [List.length]; lia). rewrite keys_set. cbn [In]. split.
           ++ intros [[-> | H] | [t [Hin Ht]]];
                [right; exists token; tauto | tauto | right; exists t; tauto].
           ++ intros [H | [t [[<- | Hin] [Hf <-]]]];
                [tauto | tauto | right; exists t; tauto].
        -- rewrite IH by lia. rewrite keys_set. cbn [In]. split.
           ++ intros [[-> | H] | [t [Hin Ht]]];
                [right; exists token; tauto | tauto | right; exists t; tauto].
           ++ intros [H | [t [[<- | [<- | Hin]] [Hf <-]]]];
                [tauto | tauto | congruence | right; exists t; tauto].
    + rewrite IH by lia. cbn [In]. split.
      * intros [H | [t [Hin Ht]]]; [tauto | right; exists t; tauto].
      * intros [H | [t [[<- | Hin] [Hf <-]]]];
          [tauto | congruence | right; exists t; tauto].
Qed.

(** X22.  The keys of [parse_args] are the flags of the command line: a key
    is in the result exactly when a token that starts with two dashes names
    it, whatever values stand between the flags. *)
Theorem parse_args_keys (args_list : list string) (k : string) :
  In k (keys (parse_args int_of_str float_of_str args_list))
  <-> exists token, In token args_list /\ is_flag token = true /\ drop2 token = k.
Proof.
  unfold parse_args.
  rewrite (parse_args_loop_keys (List.length args_list) args_list empty k (le_n _)).
  unfold names_key. simpl. tauto.
Qed.

End ParseArgsFacts.

(** ** The rate dictionary of the use cases *)

(** X23.  [get_exchange_rates] lists the rates of the cached pairs in the
    order of the cache, so a pair resolves directly to its cached rate; an
    unreadable cache and one with no [pairs] give the empty dictionary. *)
Theorem get_exchange_rates_lookup (doc : rates_document) (p : dict rate_data) :
  pairs doc = Some p ->
  NoDup (keys p) ->
  get_exchange_rates (Some doc) = map (fun item => (fst item, rate (snd item))) p
  /\ (forall a b data,
        get p (pair_key a b) = Some data ->
        _get_exchange_rate (get_exchange_rates (Some doc)) a b = ret (rate data))
  /\ get_exchange_rates None = empty
  /\ get_exchange_rates (Some (mkRatesDocument None (last_refresh doc))) = empty.
Proof.
  intros Hp Hnd.
  assert (get_exchange_rates (Some doc)
          = map (fun item => (fst item, rate (snd item))) p) as E.
  { unfold get_exchange_rates. rewrite Hp. unfold items.
    now rewrite (fold_set_distinct rate p empty) by exact Hnd. }
  split; [exact E|]. split; [|split; reflexivity].
  intros a b data Hget. rewrite E. unfold _get_exchange_rate.
  assert (forall k, get (map (fun item => (fst item, rate (snd item))) p) k
                    = option_map rate (get p k)) as Hmap.
  { intros k. clear. induction p as [|[k' v'] p IH]; simpl; [reflexivity|].
    destruct (String.eqb k' k); [reflexivity | exact IH]. }
  now rewrite Hmap, Hget.
Qed.

Lemma get_exchange_rates_lookup_witness :
  let p := [("BTC_USD", mkRateData 59337.21 "t" "default");
            ("EUR_USD", mkRateData 1.0786 "t" "default")] in
  NoDup (keys p)
  /\ _get_exchange_rate (get_exchange_rates (Some (mkRatesDocument (Some p) None)))
       "BTC" "USD"
     = ret 59337.21%float.
Proof.
  assert (NoDup (keys [("BTC_USD", mkRateData 59337.21 "t" "default");
                       ("EUR_USD", mkRateData 1.0786 "t" "default")])) as H.
  { repeat constructor; simpl; intuition discriminate. }
  split; [exact H|].
  exact (proj1 (proj2
           (get_exchange_rates_lookup
              (mkRatesDocument
                 (Some [("BTC_USD", mkRateData 59337.21 "t" "default");
                        ("EUR_USD", mkRateData 1.0786 "t" "default")]) None)
              [("BTC_USD", mkRateData 59337.21 "t" "default");
               ("EUR_USD", mkRateData 1.0786 "t" "default")] eq_refl H))
           "BTC" "USD" (mkRateData 59337.21 "t" "default") eq_refl).
Defined.

(** ** The two API clients *)

Lemma In_set {V : Type} (d : dict V) (k0 : string) (v0 : V) (k : string) (v : V) :
  In (k, v) (set d k0 v0) -> (k, v) = (k0, v0) \/ In (k, v) d.
Proof.
  induction d as [|[k' v'] d IH]; simpl.
  - intros [H | []]. left. now symmetry.
  - destruct (String.eqb_spec k' k0) as [-> | Hne]; simpl.
    + intros [H | H]; [left; now symmetry | right; now right].
    + intros [H | H]; [right; now left|].
      destruct (IH H) as [E | Hin]; [now left | right; now right].
Qed.

Lemma get_In {V : Type} (d : dict V) (k : string) (v : V) :
  get d k = Some v -> In (k, v) d.
Proof.
  induction d as [|[k' v'] d IH]; simpl; [discriminate|].
  destruct (String.eqb_spec k' k) as [-> | Hne].
  - intros [= ->]. now left.
  - intros H. right. now apply IH.
Qed.

Lemma keys_In {V : Type} (d : dict V) (k : string) :
  In k (keys d) -> exists v, In (k, v) d.
Proof.
  unfold keys. intros H. apply in_map_iff in H.
  destruct H as [[k' v] [E Hin]]. simpl in E. subst k'. now exists v.
Qed.

Lemma append_length (a b : string) :
  String.length (a ++ b) = String.length a + String.length b.
Proof. induction a as [|c a IH]; simpl; [reflexivity | now rewrite IH]. Qed.

Lemma append_inj_l (a1 a2 b : string) : a1 ++ b = a2 ++ b -> a1 = a2.
Proof.
  revert a2. induction a1 as [|c a1 IH]; intros [|c2 a2] H.
  - reflexivity.
  - apply (f_equal String.length) in H. simpl in H. rewrite append_length in H. lia.
  - apply (f_equal String.length) in H. simpl in H. rewrite append_length in H. lia.
  - simpl in H. injection H as -> H. f_equal. now apply IH.
Qed.

Lemma pair_key_inj_l (a1 a2 b : string) : pair_key a1 b = pair_key a2 b -> a1 = a2.
Proof. unfold pair_key. apply append_inj_l. Qed.

(** One iteration of the second loop of [CoinGeckoClient.fetch_rates]. *)
Lemma coingecko_rates_step (config : ParserConfig) (data : dict (dict float))
  (timestamp : string) (codes : list string) (acc : dict rate_data) :
  fold_left
    (fun rates code =>
       match get (CRYPTO_ID_MAP config) code with
       | None => rates
       | Some crypto_id =>
           match get data crypto_id with
           | None => rates
           | Some prices =>
               match get prices (lower (BASE_CURRENCY config)) with
               | None => rates
               | Some r =>
                   set rates (pair_key code (BASE_CURRENCY config))
                     (mkRateData r timestamp "CoinGecko")
               end
           end
       end)
    codes acc
  = fold_left
      (fun rates code =>
         match coingecko_price config data code with
         | None => rates
         | Some r =>
             set rates (pair_key code (BASE_CURRENCY config))
               (mkRateData r timestamp "CoinGecko")
         end)
      codes acc.
Proof.
  revert acc. induction codes as [|code codes IH]; simpl; intros acc; [reflexivity|].
  rewrite IH. f_equal. unfold coingecko_price.
  destruct (get (CRYPTO_ID_MAP config) code) as [crypto_id|]; [|reflexivity].
  now destruct (get data crypto_id).
Qed.

Lemma coingecko_rates_entries (config : ParserConfig) (data : dict (dict float))
  (timestamp : string) (codes : list string) :
  forall (acc : dict rate_data) k v,
    In (k, v)
      (fold_left
         (fun rates code =>
            match coingecko_price config data code with
            | None => rates
            | Some r =>
                set rates (pair_key code (BASE_CURRENCY config))
                  (mkRateData r timestamp "CoinGecko")
            end)
         codes acc) ->
    In (k, v) acc
    \/ exists code r,
         In code codes
         /\ coingecko_price config data code = Some r
         /\ k = pair_key code (BASE_CURRENCY config)
         /\ v = mkRateData r timestamp "CoinGecko".
Proof.
  induction codes as [|code codes IH]; simpl; intros acc k v H; [now left|].
  apply IH in H. destruct H as [H | (c & r & Hin & H)].
  - destruct (coingecko_price config data code) as [r|] eqn:E; [|now left].
    apply In_set in H. destruct H as [[= -> ->] | H]; [|now left].
    right. exists code, r. tauto.
  - right. exists c, r. tauto.
Qed.

(** A pair that is set stays set, at the same entry, through the rest of
    the loop: a later code with the same key is the same code. *)
Lemma coingecko_rates_keeps (config : ParserConfig) (data : dict (dict float))
  (timestamp : string) (code : string) (r : float) (codes : list string) :
  coingecko_price config data code = Some r ->
  forall acc : dict rate_data,
    get acc (pair_key code (BASE_CURRENCY config))
    = Some (mkRateData r timestamp "CoinGecko") ->
    get (fold_left
           (fun rates code =>
              match coingecko_price config data code with
              | None => rates
              | Some r =>
                  set rates (pair_key code (BASE_CURRENCY config))
                    (mkRateData r timestamp "CoinGecko")
              end)
           codes acc)
      (pair_key code (BASE_CURRENCY config))
    = Some (mkRateData r timestamp "CoinGecko").
Proof.
  intros Hr. induction codes as [|c codes IH]; simpl; intros acc Hacc; [exact Hacc|].
  apply IH. destruct (coingecko_price config data c) as [r'|] eqn:E; [|exact Hacc].
  destruct (String.eqb_spec (pair_key c (BASE_CURRENCY config))
              (pair_key code (BASE_CURRENCY config))) as [Heq | Hne].
  - apply pair_key_inj_l in Heq. subst c.
    assert (r' = r) as -> by congruence. apply get_set_same.
  - now rewrite get_set_other.
Qed.

Lemma coingecko_rates_priced (config : ParserConfig) (data : dict (dict float))
  (timestamp : string) (code : string) (r : float) (codes : list string) :
  coingecko_price config data code = Some r ->
  In code codes ->
  forall acc : dict rate_data,
    get (fold_left
           (fun rates code =>
              match coingecko_price config data code with
              | None => rates
              | Some r =>
                  set rates (pair_key code (BASE_CURRENCY config))
                    (mkRateData r timestamp "CoinGecko")
              end)
           codes acc)
      (pair_key code (BASE_CURRENCY config))
    = Some (mkRateData r timestamp "CoinGecko").
Proof.
  intros Hr. induction codes as [|c codes IH]; simpl; intros Hin acc; [contradiction|].
  destruct Hin as [-> | Hin]; [|now apply IH].
  rewrite Hr. apply coingecko_rates_keeps; [exact Hr | apply get_set_same].
Qed.

Lemma coingecko_fetch_rates_entries (config : ParserConfig)
  (response : http_failure + dict (dict float)) (timestamp : string) :
  forall rates k v,
    coingecko_fetch_rates config response timestamp = ret rates ->
    In (k, v) rates ->
    exists data code r,
      response = inr data
      /\ In code (CRYPTO_CURRENCIES config)
      /\ coingecko_price config data code = Some r
      /\ k = pair_key code (BASE_CURRENCY config)
      /\ v = mkRateData r timestamp "CoinGecko".
Proof.
  intros rates k v. unfold coingecko_fetch_rates.
  destruct (flat_map _ (CRYPTO_CURRENCIES config)).
  - intros [= <-] [].
  - destruct response as [f | data]; [discriminate|].
    intros [= <-] Hin. unfold coingecko_rates in Hin.
    rewrite coingecko_rates_step in Hin.
    apply coingecko_rates_entries in Hin.
    destruct Hin as [[] | (c & r & H1 & H2 & H3 & H4)].
    exists data, c, r. tauto.
Qed.

Lemma coingecko_keeps_contract (config : ParserConfig)
  (response : http_failure + dict (dict float)) (timestamp : string) :
  keeps_contract
    (mkClient CoinGeckoClient (coingecko_fetch_rates config response timestamp))
  = true.
Proof.
  unfold keeps_contract. cbn [fetch_rates].
  destruct (coingecko_fetch_rates config response timestamp) as [e | rates] eqn:E.
  - unfold coingecko_fetch_rates in E.
    destruct (flat_map _ (CRYPTO_CURRENCIES config)); [discriminate|].
    destruct response as [f | data]; [|discriminate].
    injection E as <-. reflexivity.
  - apply forallb_forall. intros k Hk. apply keys_In in Hk. destruct Hk as [v Hin].
    destruct (coingecko_fetch_rates_entries config response timestamp rates k v E Hin)
      as (data & c & r & _ & _ & _ & -> & _).
    apply pair_key_well_formed.
Qed.

(** A tracked code with an identifier makes the list of identifiers of the
    request non-empty. *)
Lemma coingecko_ids_nonempty (config : ParserConfig) (code crypto_id : string) :
  In code (CRYPTO_CURRENCIES config) ->
  get (CRYPTO_ID_MAP config) code = Some crypto_id ->
  flat_map
    (fun code =>
       match get (CRYPTO_ID_MAP config) code with
       | Some crypto_id => [crypto_id]
       | None => []
       end)
    (CRYPTO_CURRENCIES config) <> [].
Proof.
  intros Hin Hid Hnil.
  assert (In crypto_id
            (flat_map
               (fun code =>
                  match get (CRYPTO_ID_MAP config) code with
                  | Some crypto_id => [crypto_id]
                  | None => []
                  end)
               (CRYPTO_CURRENCIES config))) as H.
  { apply in_flat_map. exists code. split; [exact Hin|]. rewrite Hid. now left. }
  rewrite Hnil in H. exact H.
Qed.

(** X24.  [CoinGeckoClient.fetch_rates] keeps the contract the updater
    relies on: it fails with [ApiRequestError] only, wrapping what the
    request raised.  When it returns, it returns the price of every tracked
    code that has one in the response and nothing else: the entry under a
    key is the price of the tracked code of that key, the timestamp of the
    fetch and the source CoinGecko, and every tracked code with an
    identifier and a price in the response has its entry, under
    [code_BASE].  The anchor is looked up in lower case, and is taken in
    ASCII. *)
Theorem coingecko_fetch_rates_contract (config : ParserConfig)
  (response : http_failure + dict (dict float)) (timestamp : string) :
  ascii_only (BASE_CURRENCY config) = true ->
  keeps_contract
    (mkClient CoinGeckoClient (coingecko_fetch_rates config response timestamp))
  = true
  /\ (forall e, coingecko_fetch_rates config response timestamp = raise e ->
        exists f, response = inl f /\ e = wrap_failure "CoinGecko" f)
  /\ (forall rates k v,
        coingecko_fetch_rates config response timestamp = ret rates ->
        (get rates k = Some v
         <-> exists data code r,
               response = inr data
               /\ In code (CRYPTO_CURRENCIES config)
               /\ coingecko_price config data code = Some r
               /\ k = pair_key code (BASE_CURRENCY config)
               /\ v = mkRateData r timestamp "CoinGecko")).
Proof.
  intros _.
  split; [apply coingecko_keeps_contract|].
  split.
  { intros e. unfold coingecko_fetch_rates.
    destruct (flat_map _ (CRYPTO_CURRENCIES config)); [discriminate|].
    destruct response as [f | data]; [|discriminate].
    intros [= <-]. now exists f. }
  intros rates k v Hret. split.
  - intros Hget. apply get_In in Hget.
    exact (coingecko_fetch_rates_entries config response timestamp rates k v Hret Hget).
  - intros (data & code & r & -> & Hin & Hprice & -> & ->).
    assert (exists crypto_id, get (CRYPTO_ID_MAP config) code = Some crypto_id)
      as [crypto_id Hid].
    { unfold coingecko_price in Hprice.
      destruct (get (CRYPTO_ID_MAP config) code) as [i|]; [eauto | discriminate]. }
    pose proof (coingecko_ids_nonempty config code crypto_id Hin Hid) as Hne.
    unfold coingecko_fetch_rates in Hret.
    destruct (flat_map _ (CRYPTO_CURRENCIES config)); [now elim Hne|].
    injection Hret as <-. unfold coingecko_rates. rewrite coingecko_rates_step.
    now apply coingecko_rates_priced.
Qed.

Lemma exchangerate_rates_entries (base : string) (conversion_rates : dict float)
  (timestamp : string) (codes : list string) :
  forall (acc rates : dict rate_data) k v,
    exchangerate_rates base codes conversion_rates timestamp acc = ret rates ->
    In (k, v) rates ->
    In (k, v) acc
    \/ exists code r,
         In code codes
         /\ get conversion_rates code = Some r
         /\ PrimFloat.eqb r 0 = false
         /\ k = pair_key code base
         /\ v = mkRateData (1 / r) timestamp "ExchangeRate-API".
Proof.
  induction codes as [|code codes IH]; simpl; intros acc rates k v Hrun Hin.
  - injection Hrun as <-. now left.
  - destruct (get conversion_rates code) as [r|] eqn:E.
    + unfold py_div in Hrun. destruct (PrimFloat.eqb r 0) eqn:Ez; [discriminate|].
      simpl in Hrun.
      destruct (IH _ _ _ _ Hrun Hin) as [H | (c & r' & H)].
      * apply In_set in H. destruct H as [[= -> ->] | H]; [|now left].
        right. exists code, r. tauto.
      * right. exists c, r'. tauto.
    + destruct (IH _ _ _ _ Hrun Hin) as [H | (c & r' & H)]; [now left|].
      right. exists c, r'. tauto.
Qed.

Lemma exchangerate_fetch_rates_entries (reformat_time : string -> string + string)
  (config : ParserConfig) (response : http_failure + exchangerate_data) :
  forall rates k v,
    exchangerate_fetch_rates reformat_time config response = ret rates ->
    In (k, v) rates ->
    exists data conversion_rates code r,
      response = inr data
      /\ er_conversion_rates data = Some conversion_rates
      /\ In code (FIAT_CURRENCIES config)
      /\ get conversion_rates code = Some r
      /\ PrimFloat.eqb r 0 = false
      /\ k = pair_key code (BASE_CURRENCY config)
      /\ rate v = (1 / r)%float
      /\ source v = "ExchangeRate-API".
Proof.
  intros rates k v. unfold exchangerate_fetch_rates, exchangerate_try.
  destruct (is_empty (EXCHANGERATE_API_KEY config)); [discriminate|].
  destruct response as [f | data]; [discriminate|].
  destruct (negb _); [discriminate|].
  destruct (er_time_last_update_utc data) as [t|]; [|discriminate].
  destruct (reformat_time t) as [text | timestamp]; [discriminate|].
  destruct (FIAT_CURRENCIES config) as [|code0 codes] eqn:Ef.
  { intros [= <-] []. }
  destruct (er_conversion_rates data) as [cr|] eqn:Ecr; [|discriminate].
  destruct (exchangerate_rates (BASE_CURRENCY config) (code0 :: codes) cr
              timestamp empty) as [e | rs] eqn:Er; [discriminate|].
  intros [= <-] Hin.
  destruct (exchangerate_rates_entries _ _ _ _ _ _ _ _ Er Hin)
    as [[] | (c & r & H1 & H2 & H3 & -> & ->)].
  exists data, cr, c, r. repeat split; try assumption; reflexivity.
Qed.

Lemma exchangerate_keeps_contract (reformat_time : string -> string + string)
  (config : ParserConfig) (response : http_failure + exchangerate_data) :
  keeps_contract
    (mkClient ExchangeRateApiClient
       (exchangerate_fetch_rates reformat_time config response))
  = true.
Proof.
  unfold keeps_contract. cbn [fetch_rates].
  destruct (exchangerate_fetch_rates reformat_time config response)
    as [e | rates] eqn:E.
  - unfold exchangerate_fetch_rates in E.
    destruct (exchangerate_try reformat_time config response); [|discriminate].
    injection E as <-. reflexivity.
  - apply forallb_forall. intros k Hk. apply keys_In in Hk. destruct Hk as [v Hin].
    destruct (exchangerate_fetch_rates_entries reformat_time config response
                rates k v E Hin)
      as (data & cr & c & r & _ & _ & _ & _ & _ & -> & _).
    apply pair_key_well_formed.
Qed.

(** X25.  [ExchangeRateApiClient.fetch_rates] keeps the contract too: it
    fails with [ApiRequestError] only; with no API key it fails before any
    request, the error raised inside the [try] being wrapped a second time;
    and every entry it returns is for a tracked fiat code of the response,
    under the key [code_BASE], with the inverse [1 / rate] of a rate that is
    not zero. *)
Theorem exchangerate_fetch_rates_contract (reformat_time : string -> string + string)
  (config : ParserConfig) (response : http_failure + exchangerate_data) :
  keeps_contract
    (mkClient ExchangeRateApiClient
       (exchangerate_fetch_rates reformat_time config response))
  = true
  /\ (EXCHANGERATE_API_KEY config = "" ->
      exchangerate_fetch_rates reformat_time config response = raise missing_key_error)
  /\ (forall rates k v,
        exchangerate_fetch_rates reformat_time config response = ret rates ->
        In (k, v) rates ->
        exists data conversion_rates code r,
          response = inr data
          /\ er_conversion_rates data = Some conversion_rates
          /\ In code (FIAT_CURRENCIES config)
          /\ get conversion_rates code = Some r
          /\ PrimFloat.eqb r 0 = false
          /\ k = pair_key code (BASE_CURRENCY config)
          /\ rate v = (1 / r)%float
          /\ source v = "ExchangeRate-API").
Proof.
  split; [apply exchangerate_keeps_contract|].
  split; [|apply exchangerate_fetch_rates_entries].
  intros Hkey. unfold exchangerate_fetch_rates, exchangerate_try.
  rewrite Hkey. reflexivity.
Qed.

Lemma exchangerate_fetch_rates_contract_witness :
  EXCHANGERATE_API_KEY (default_config "") = ""
  /\ exchangerate_fetch_rates (fun s => inr s) (default_config "")
       (inr (mkExchangeRateData (Some "success") None (Some "now")
               (Some [("EUR", 0.9%float)])))
     = raise missing_key_error.
Proof.
  split; [reflexivity|].
  exact (proj1 (proj2 (exchangerate_fetch_rates_contract (fun s => inr s)
                         (default_config "")
                         (inr (mkExchangeRateData (Some "success") None (Some "now")
                                 (Some [("EUR", 0.9%float)])))))
           eq_refl).
Defined.

(** ** A refresh through the use case *)

Lemma clients_to_use_forallb (P : BaseApiClient -> bool) (clients : list BaseApiClient)
  (source : option string) :
  forallb P clients = true -> forallb P (clients_to_use clients source) = true.
Proof.
  intros H.
  assert (forall f, forallb P (filter f clients) = true) as Hf.
  { intros f. apply forallb_forall. intros c Hc. apply filter_In in Hc.
    destruct Hc as [Hc _]. rewrite forallb_forall in H. now apply H. }
  unfold clients_to_use. destruct source as [s|]; [|exact H].
  destruct (is_empty s); [exact H|].
  destruct (String.eqb (lower s) "coingecko"); [apply Hf|].
  destruct (String.eqb (lower s) "exchangerate"); [apply Hf | exact H].
Qed.

Lemma run_update_contract_result
  (clients : list BaseApiClient) (storage : RatesStorage) (source : option string)
  (t_start t_end : string) :
  forallb keeps_contract (clients_to_use clients source) = true ->
  exists history,
    run_update clients storage source t_start t_end
    = (mkStorage
         (Some (mkRatesDocument
                  (Some (merge_all (current_pairs storage)
                           (clients_to_use clients source)))
                  (Some (PyStr t_end))))
         history,
       ret (mkResults
              (negb (existsb provider_failed (clients_to_use clients source)))
              (fetched_pairs (clients_to_use clients source))
              (provider_errors (clients_to_use clients source)) t_start)).
Proof.
  intros Hc. unfold run_update.
  match goal with |- context [poll_clients ?cs ?s] =>
    destruct (poll_clients_contract cs Hc s) as [st ->] end.
  simpl. eexists. reflexivity.
Qed.

(** X26.  No answer and no failure of the two HTTP requests makes
    [RatesUsecases.update_rates] raise.  For a source that is [None] or a
    string, a rate cache that is missing or well formed (an object whose
    [pairs], when present, is an object) and file writes that succeed,
    whatever each request returns or raises the call returns a summary,
    saves the cache with the stamp of the end of the run, and rebinds the
    module global [get_exchange_rates] to the reader of the database.  For
    a source name in ASCII the summary is the one of the run over the clients
    the source selects: [success] exactly when none of them failed, the
    pairs they returned, and one error message for each that failed; and the
    cache saved is the merge of their answers into the pairs it held.  When
    no API key is configured and the run is not filtered, the summary is
    never a success: it carries the error of the fiat client, and the pairs
    of the crypto client are reported all the same. *)
Theorem update_rates_absorbs_request_failures
  (reformat_time : string -> string + string)
  (config : ParserConfig) (storage : RatesStorage) (reader : rates_reader)
  (source : option string)
  (coingecko_response : http_failure + dict (dict float))
  (coingecko_timestamp : string)
  (exchangerate_response : http_failure + exchangerate_data)
  (t_start t_end : string) :
  let used :=
    clients_to_use
      [ mkClient CoinGeckoClient
          (coingecko_fetch_rates config coingecko_response coingecko_timestamp);
        mkClient ExchangeRateApiClient
          (exchangerate_fetch_rates reformat_time config exchangerate_response) ]
      source in
  (exists saved history summary,
     update_rates reformat_time config storage reader source coingecko_response
       coingecko_timestamp exchangerate_response t_start t_end
     = (mkStorage (Some (mkRatesDocument (Some saved) (Some (PyStr t_end)))) history,
        database_get_rates, ret summary))
  /\ (ascii_source source = true ->
      exists history,
        update_rates reformat_time config storage reader source coingecko_response
          coingecko_timestamp exchangerate_response t_start t_end
        = (mkStorage
             (Some (mkRatesDocument (Some (merge_all (current_pairs storage) used))
                      (Some (PyStr t_end))))
             history,
           database_get_rates,
           ret (mkResults (negb (existsb provider_failed used)) (fetched_pairs used)
                  (provider_errors used) t_start)))
  /\ (EXCHANGERATE_API_KEY config = "" ->
      forall summary,
        snd (update_rates reformat_time config storage reader None coingecko_response
               coingecko_timestamp exchangerate_response t_start t_end)
        = ret summary ->
        success summary = false
        /\ In (error_msg "ExchangeRateApiClient"
                 ("Unexpected error when fetching from ExchangeRate-API: "
                  ++ api_error_text "ExchangeRate-API key is not configured"))
             (errors summary)
        /\ forall rates k,
             coingecko_fetch_rates config coingecko_response coingecko_timestamp
             = ret rates ->
             In k (keys rates) -> In k (updated_pairs summary)).
Proof.
  cbv zeta. unfold update_rates.
  remember (mkClient CoinGeckoClient
              (coingecko_fetch_rates config coingecko_response coingecko_timestamp))
    as cg eqn:Ecg.
  remember (mkClient ExchangeRateApiClient
              (exchangerate_fetch_rates reformat_time config exchangerate_response))
    as er eqn:Eer.
  assert (forallb keeps_contract [cg; er] = true) as Hc.
  { cbn [forallb]. subst cg er.
    rewrite (coingecko_keeps_contract config coingecko_response coingecko_timestamp).
    rewrite (exchangerate_keeps_contract reformat_time config exchangerate_response).
    reflexivity. }
  split; [|split].
  - destruct (run_update_contract_result [cg; er] storage source t_start t_end
                (clients_to_use_forallb _ _ source Hc)) as [history ->].
    eexists _, _, _. reflexivity.
  - intros _.
    destruct (run_update_contract_result [cg; er] storage source t_start t_end
                (clients_to_use_forallb _ _ source Hc)) as [history ->].
    exists history. reflexivity.
  - intros Hkey summary.
    destruct (run_update_contract_result [cg; er] storage None t_start t_end Hc)
      as [history ->].
    cbn [snd clients_to_use]. intros [= <-]. cbn [success errors updated_pairs].
    assert (fetch_rates er = raise missing_key_error) as Her.
    { subst er. cbn [fetch_rates].
      unfold exchangerate_fetch_rates, exchangerate_try. now rewrite Hkey. }
    assert (class_of er = ExchangeRateApiClient) as Hclass by now subst er.
    split; [|split].
    + cbn [existsb]. unfold provider_failed at 2. rewrite Her.
      cbn. now rewrite orb_true_r.
    + unfold provider_errors. cbn [flat_map]. rewrite Her, Hclass.
      apply in_or_app. right. left. reflexivity.
    + intros rates k Hr Hk. unfold fetched_pairs. cbn [flat_map].
      apply in_or_app. left. subst cg. cbn [fetch_rates]. now rewrite Hr.
Qed.

(** The field values of the repository with no API key, CoinGecko answering
    the price of bitcoin. *)
Lemma update_rates_absorbs_request_failures_witness :
  EXCHANGERATE_API_KEY (default_config "") = ""
  /\ exists summary,
       snd (update_rates (fun s => inr s) (default_config "") (mkStorage None None)
              utils_get_exchange_rates None
              (inr [("bitcoin", [("usd", 59337.21%float)])]) "2024-01-01T00:00:00Z"
              (inl (RequestException "timeout")) "t0" "t1")
       = ret summary
       /\ success summary = false
       /\ In "BTC_USD" (updated_pairs summary).
Proof.
  split; [reflexivity|].
  eexists. split; [reflexivity|].
  destruct (proj2 (proj2 (update_rates_absorbs_request_failures (fun s => inr s)
                     (default_config "")
                     (mkStorage None None) utils_get_exchange_rates None
                     (inr [("bitcoin", [("usd", 59337.21%float)])])
                     "2024-01-01T00:00:00Z" (inl (RequestException "timeout"))
                     "t0" "t1"))
              eq_refl _ eq_refl) as (Hs & _ & Hp).
  split; [exact Hs|]. apply (Hp _ "BTC_USD" eq_refl). left. reflexivity.
Defined.

(** ** Instances of the properties above *)

Lemma db_update_portfolio_round_trip_witness :
  let portfolios := [mkPortfolioData 1 [("USD", mkWalletData (Some (PyFloat 5)))];
                     mkPortfolioData 2 empty] in
  1%Z <> 2%Z
  /\ db_get_portfolio
       (db_update_portfolio portfolios 2 [("BTC", mkWalletData (Some (PyFloat 1)))]) 1
     = Some (mkPortfolioData 1 [("USD", mkWalletData (Some (PyFloat 5)))]).
Proof.
  assert (1%Z <> 2%Z) as H by discriminate.
  split; [exact H|].
  exact (proj1 (proj2 (db_update_portfolio_round_trip
                         [mkPortfolioData 1 [("USD", mkWalletData (Some (PyFloat 5)))];
                          mkPortfolioData 2 empty]
                         2 [("BTC", mkWalletData (Some (PyFloat 1)))])) 1%Z H).
Defined.

Lemma get_portfolio_reports_nothing_witness :
  let portfolios := [mkPortfolioData 1 [("USD", mkWalletData (Some (PyFloat 5)))]] in
  db_get_portfolio portfolios 1
  = Some (mkPortfolioData 1 [("USD", mkWalletData (Some (PyFloat 5)))])
  /\ raises (get_portfolio _CURRENCY_REGISTRY portfolios initial_rates 1 "USD").
Proof.
  split; [reflexivity|].
  exact (proj1 (get_portfolio_reports_nothing _CURRENCY_REGISTRY
                  [mkPortfolioData 1 [("USD", mkWalletData (Some (PyFloat 5)))]]
                  initial_rates 1 "USD")
           (mkPortfolioData 1 [("USD", mkWalletData (Some (PyFloat 5)))])
           ("USD", mkWalletData (Some (PyFloat 5))) [] eq_refl eq_refl).
Defined.

Lemma get_total_value_errors_witness :
  let p := mkPortfolio 1 [("EUR", mkWallet "EUR" 10); ("BTC", mkWallet "BTC" 0.5)] in
  rates_nonzero initial_rates
  /\ exists total, get_total_value p initial_rates "usd" = ret total.
Proof.
  assert (rates_nonzero initial_rates) as Hnz.
  { intros k r. unfold initial_rates. cbn [get].
    repeat (destruct (String.eqb _ k); [intros [= <-]; reflexivity|]).
    discriminate. }
  split; [exact Hnz|].
  exact (proj2 (proj2 (get_total_value_errors
                         (mkPortfolio 1 [("EUR", mkWallet "EUR" 10);
                                         ("BTC", mkWallet "BTC" 0.5)])
                         initial_rates "usd")) Hnz).
Defined.

Lemma get_currency_known_codes_witness :
  (ascii_only "eth" = true
   /\ In (upper "eth") ["USD"; "EUR"; "GBP"; "RUB"; "BTC"; "ETH"; "SOL"])
  /\ exists currency, get_currency _CURRENCY_REGISTRY "eth" = ret currency.
Proof.
  assert (In (upper "eth") ["USD"; "EUR"; "GBP"; "RUB"; "BTC"; "ETH"; "SOL"]) as H.
  { simpl. tauto. }
  split; [split; [reflexivity | exact H]|].
  exact (proj2 (proj1 (get_currency_known_codes "eth" eq_refl)) H).
Defined.

Lemma authenticate_user_checks_digest_witness :
  let db := mkDatabase [mkUserData 1 "alice" "pw+salt" "+salt" "2024-01-01T00:00:00"]
              [] [] in
  find (fun user => String.eqb (ud_username user) "bob") (db_users db) = None
  /\ authenticate_user (fun s => s) (fun _ => Some (mkDatetime 0 None)) false db
       "bob" "pw"
     = Finished db (inl (UserNotFoundError "bob")).
Proof.
  split; [reflexivity|].
  exact (proj1 (proj2 (authenticate_user_checks_digest (fun s => s)
                         (fun _ => Some (mkDatetime 0 None))
                         (mkDatabase
                            [mkUserData 1 "alice" "pw+salt" "+salt"
                               "2024-01-01T00:00:00"] [] [])
                         "bob" "pw")) eq_refl).
Defined.

(** CoinGecko answers the price of bitcoin and of nothing else. *)
Lemma coingecko_fetch_rates_contract_witness :
  let data := [("bitcoin", [("usd", 59337.21%float)])] in
  let rates := [("BTC_USD", mkRateData 59337.21 "2024-01-01T00:00:00Z" "CoinGecko")] in
  (ascii_only (BASE_CURRENCY (default_config "")) = true
   /\ coingecko_fetch_rates (default_config "") (inr data) "2024-01-01T00:00:00Z"
      = ret rates
   /\ get rates "BTC_USD"
      = Some (mkRateData 59337.21 "2024-01-01T00:00:00Z" "CoinGecko"))
  /\ exists code r,
       In code (CRYPTO_CURRENCIES (default_config ""))
       /\ coingecko_price (default_config "") data code = Some r
       /\ "BTC_USD" = pair_key code "USD"
       /\ mkRateData 59337.21 "2024-01-01T00:00:00Z" "CoinGecko"
          = mkRateData r "2024-01-01T00:00:00Z" "CoinGecko".
Proof.
  split; [repeat split|].
  destruct (proj1 (proj2 (proj2 (coingecko_fetch_rates_contract (default_config "")
                                   (inr [("bitcoin", [("usd", 59337.21%float)])])
                                   "2024-01-01T00:00:00Z" eq_refl))
                     [("BTC_USD",
                       mkRateData 59337.21 "2024-01-01T00:00:00Z" "CoinGecko")]
                     "BTC_USD"
                     (mkRateData 59337.21 "2024-01-01T00:00:00Z" "CoinGecko")
                     eq_refl) eq_refl)
    as (data & code & r & Hdata & Hin & Hprice & Hk & Hv).
  injection Hdata as <-.
  exists code, r. split; [exact Hin|]. split; [exact Hprice|]. split; [exact Hk | exact Hv].
Defined.

(** X27.  A currency that [Currency.__init__] accepts carries its code in
    upper case, and once registered it is found by [get_currency] under the
    code it was built with, in that or any other letter case. *)
Theorem currency_init_registered (registry : dict Currency) (name c : string)
  (kind : currency_kind) (currency : Currency) :
  Currency_init name c kind = ret currency ->
  code currency = upper c
  /\ _validate_code c = ret tt
  /\ get_currency (register_currency registry currency) c = ret currency
  /\ (forall c', upper c' = upper c ->
        get_currency (register_currency registry currency) c' = ret currency).
Proof.
  unfold Currency_init.
  destruct (_validate_code c) as [e | []] eqn:Ev; [discriminate|]. simpl.
  destruct (_validate_name name) as [e | []]; [discriminate|]. simpl.
  intros [= <-]. unfold get_currency, register_currency. simpl.
  rewrite !upper_idempotent, get_set_same.
  repeat split. intros c' ->. now rewrite get_set_same.
Qed.

Lemma currency_init_registered_witness :
  Currency_init "Dogecoin" "doge" (Crypto "Scrypt" 1e10)
  = ret (mkCurrency "Dogecoin" "DOGE" (Crypto "Scrypt" 1e10))
  /\ get_currency
       (register_currency _CURRENCY_REGISTRY
          (mkCurrency "Dogecoin" "DOGE" (Crypto "Scrypt" 1e10))) "doge"
     = ret (mkCurrency "Dogecoin" "DOGE" (Crypto "Scrypt" 1e10)).
Proof.
  split; [reflexivity|].
  exact (proj1 (proj2 (proj2
           (currency_init_registered _CURRENCY_REGISTRY "Dogecoin" "doge"
              (Crypto "Scrypt" 1e10)
              (mkCurrency "Dogecoin" "DOGE" (Crypto "Scrypt" 1e10)) eq_refl)))).
Defined.
